(** * The Civic Graph: federation core

    A shallow embedding of the federation code of the repository
    (ActivityPub signing and verification, the inbox handlers, the
    federated media download, the outbox delivery records and the Move
    verification of the identity service), with the properties of its
    specification stated and settled against it.

    Python values are embedded as follows: [str] as [string] (a character
    is a code point below 256), [int] as [Z], [Dict[str, Any]] as the
    [json] type below, an exception as the [Raise] case of [result], a
    [try ... except Exception] as a match on [result], a database table
    as the list of its rows in storage order. *)

From Stdlib Require Import Ascii String List ZArith QArith Bool Lia DecimalString.
From Stdlib Require DecimalPos.
Import ListNotations.

Set Warnings "-register-all".
Local Close Scope Q_scope.
Local Open Scope list_scope.
Local Open Scope string_scope.

(** ** Exceptions and fallible computations *)

Inductive exn : Type :=
| ValueError
| AttributeError
| TypeError
| IndexError
| BinasciiError
| UnsupportedKey
| IntegrityError
| DBAPIError
| HTTPStatusError
| TransportError
| OSError.

Inductive result (A : Type) : Type :=
| Ok (a : A)
| Raise (e : exn).

Arguments Ok {A} a.
Arguments Raise {A} e.

Definition bind {A B : Type} (m : result A) (k : A -> result B) : result B :=
  match m with
  | Ok a => k a
  | Raise e => Raise e
  end.

Notation "x <- m ;; k" := (bind m (fun x => k))
  (at level 61, m at next level, right associativity).

Definition of_option {A : Type} (e : exn) (o : option A) : result A :=
  match o with
  | Some a => Ok a
  | None => Raise e
  end.

Definition is_ok {A : Type} (m : result A) : bool :=
  match m with
  | Ok _ => true
  | Raise _ => false
  end.

(** ** Python strings *)

Module PyStr.

(** [str.isspace] on the code points below 256. *)
Definition is_space (c : ascii) : bool :=
  let n := nat_of_ascii c in
  (((9 <=? n) && (n <=? 13)) || ((28 <=? n) && (n <=? 32))
   || (n =? 133) || (n =? 160))%nat.

Definition mem (c : ascii) (chars : list ascii) : bool :=
  existsb (Ascii.eqb c) chars.

(** [s.lstrip(chars)] *)
Fixpoint lstrip (p : ascii -> bool) (s : string) : string :=
  match s with
  | EmptyString => EmptyString
  | String c s' => if p c then lstrip p s' else s
  end.

(** [s.rstrip(chars)] *)
Fixpoint rstrip (p : ascii -> bool) (s : string) : string :=
  match s with
  | EmptyString => EmptyString
  | String c s' =>
      match rstrip p s' with
      | EmptyString => if p c then EmptyString else String c EmptyString
      | r => String c r
      end
  end.

(** [s.strip(chars)] and [s.strip()] *)
Definition strip_chars (chars : list ascii) (s : string) : string :=
  rstrip (fun c => mem c chars) (lstrip (fun c => mem c chars) s).

Definition strip (s : string) : string :=
  rstrip is_space (lstrip is_space s).

(** [s.split(sep)] for a one-character separator: never empty. *)
Fixpoint split (sep : ascii) (s : string) : list string :=
  match s with
  | EmptyString => [EmptyString]
  | String c s' =>
      if Ascii.eqb c sep then EmptyString :: split sep s'
      else match split sep s' with
           | [] => [String c EmptyString]
           | p :: ps => String c p :: ps
           end
  end.

(** [s.split(sep, 1)]: one or two pieces. *)
Fixpoint split1 (sep : ascii) (s : string) : list string :=
  match s with
  | EmptyString => [EmptyString]
  | String c s' =>
      if Ascii.eqb c sep then [EmptyString; s']
      else match split1 sep s' with
           | p :: ps => String c p :: ps
           | [] => [String c EmptyString]
           end
  end.

(** [s.split()]: the maximal runs of non-space characters. *)
Fixpoint split_ws (s : string) : list string :=
  match s with
  | EmptyString => []
  | String c s' =>
      if is_space c then split_ws s'
      else match s' with
           | EmptyString => [String c EmptyString]
           | String c' _ =>
               if is_space c' then String c EmptyString :: split_ws s'
               else match split_ws s' with
                    | w :: ws => String c w :: ws
                    | [] => [String c EmptyString]
                    end
           end
  end.

(** [sep.join(parts)] *)
Fixpoint join (sep : string) (parts : list string) : string :=
  match parts with
  | [] => EmptyString
  | [p] => p
  | p :: ps => p ++ sep ++ join sep ps
  end.

(** [s.startswith(p)], [s.endswith("S")] and the slices the code takes. *)
Fixpoint startswith (p s : string) : bool :=
  match p, s with
  | EmptyString, _ => true
  | String _ _, EmptyString => false
  | String a p', String b s' => Ascii.eqb a b && startswith p' s'
  end.

Fixpoint last_char (s : string) : option ascii :=
  match s with
  | EmptyString => None
  | String c EmptyString => Some c
  | String _ s' => last_char s'
  end.

Definition endswith_char (c : ascii) (s : string) : bool :=
  match last_char s with
  | Some d => Ascii.eqb d c
  | None => false
  end.

(** [s[n:]] *)
Fixpoint drop (n : nat) (s : string) : string :=
  match n, s with
  | O, _ => s
  | S _, EmptyString => EmptyString
  | S n', String _ s' => drop n' s'
  end.

(** [s[:n]] *)
Fixpoint take (n : nat) (s : string) : string :=
  match n, s with
  | O, _ => EmptyString
  | S _, EmptyString => EmptyString
  | S n', String c s' => String c (take n' s')
  end.

(** [s[:-1]] *)
Fixpoint drop_last (s : string) : string :=
  match s with
  | EmptyString => EmptyString
  | String _ EmptyString => EmptyString
  | String c s' => String c (drop_last s')
  end.

Definition digit_val (c : ascii) : option Z :=
  let n := nat_of_ascii c in
  if ((48 <=? n) && (n <=? 57))%nat then Some (Z.of_nat (n - 48)) else None.

(** The digits of an [int] literal: decimal digits, with single
    underscores allowed between two digits. *)
Fixpoint parse_digits (s : string) (acc : Z) (after_digit : bool) : option Z :=
  match s with
  | EmptyString => if after_digit then Some acc else None
  | String c s' =>
      if Ascii.eqb c "_"
      then (if after_digit then parse_digits s' acc false else None)
      else match digit_val c with
           | Some d => parse_digits s' (10 * acc + d)%Z true
           | None => None
           end
  end.

Definition count_digits (s : string) : nat :=
  List.length (filter (fun c => match digit_val c with
                                | Some _ => true
                                | None => false
                                end) (list_ascii_of_string s)).

(** [int(s)] in base ten: surrounding white space is dropped, one sign
    is allowed; [None] stands for the ValueError. [max_str_digits] is
    the interpreter's limit on the digits of a literal (4300 by default
    since Python 3.11; 0 for no limit). *)
Definition int (max_str_digits : nat) (s : string) : option Z :=
  let literal := strip s in
  let digits :=
    match literal with
    | String "+" r => r
    | String "-" r => r
    | t => t
    end in
  if ((0 <? max_str_digits) && (max_str_digits <? count_digits digits))%nat
  then None
  else
    match literal with
    | String "+" r => parse_digits r 0%Z false
    | String "-" r => option_map Z.opp (parse_digits r 0%Z false)
    | t => parse_digits t 0%Z false
    end.

Definition contains (c : ascii) (s : string) : bool :=
  existsb (Ascii.eqb c) (list_ascii_of_string s).

(** [str(n)], also what an f-string writes for an [int]. *)
Definition of_int (n : Z) : string :=
  NilZero.string_of_int (Z.to_int n).

End PyStr.

Definition dquote : ascii := Eval cbv in ascii_of_nat 34.
Definition newline : ascii := Eval cbv in ascii_of_nat 10.
Definition q : string := String dquote EmptyString.
Definition nl : string := String newline EmptyString.

(** ** JSON values, as [json.loads] and FastAPI hand them to the handlers

    Numbers are kept as integers: the handlers only test them for
    truthiness and type. An object is the list of its members, each
    name once. *)

Inductive json : Type :=
| JNull
| JBool (b : bool)
| JInt (z : Z)
| JStr (s : string)
| JList (l : list json)
| JObj (members : list (string * json)).

Module Py.

Fixpoint assoc {A : Type} (k : string) (d : list (string * A)) : option A :=
  match d with
  | [] => None
  | (k', v) :: d' => if String.eqb k k' then Some v else assoc k d'
  end.

(** [d[k] = v] on a dict kept in insertion order. *)
Fixpoint set {A : Type} (k : string) (v : A) (d : list (string * A))
  : list (string * A) :=
  match d with
  | [] => [(k, v)]
  | (k', v') :: d' =>
      if String.eqb k k' then (k, v) :: d' else (k', v') :: set k v d'
  end.

(** [x.get(k, default)]; only a dict has the method. *)
Definition get (x : json) (k : string) (default : json) : result json :=
  match x with
  | JObj d => Ok (match assoc k d with Some v => v | None => default end)
  | _ => Raise AttributeError
  end.

(** [k in x] for a dict [x]. *)
Definition has (x : json) (k : string) : bool :=
  match x with
  | JObj d => match assoc k d with Some _ => true | None => false end
  | _ => false
  end.

(** Truth value of [x] in a condition. *)
Definition truthy (x : json) : bool :=
  match x with
  | JNull => false
  | JBool b => b
  | JInt z => negb (Z.eqb z 0)
  | JStr s => negb (String.eqb s EmptyString)
  | JList l => match l with [] => false | _ => true end
  | JObj d => match d with [] => false | _ => true end
  end.

Definition is_str (x : json) : bool :=
  match x with JStr _ => true | _ => false end.

Definition is_dict (x : json) : bool :=
  match x with JObj _ => true | _ => false end.

End Py.

(** ** The libraries the federation code calls

    [hashlib], [base64], [json.dumps], [repr], [urllib.parse] and the RSA
    operations of [cryptography] are not code of the repository: they are
    taken through this interface. [None] and [false] stand for the
    exception the library raises ([binascii.Error], [ValueError] on an
    unloadable key, [InvalidSignature]). The keys are RSA keys: a PEM
    that holds a key of another kind counts as unloadable, the code
    failing on it one call later. *)

Class Libs : Type := {
  private_key : Type;
  public_key : Type;
  sha256 : string -> string;
  b64encode : string -> string;
  b64decode : string -> option string;
  json_dumps_sorted : json -> string;
  repr : json -> string;
  urlparse_scheme : string -> string;
  urlparse_netloc : string -> string;
  load_pem_private_key : string -> option private_key;
  load_pem_public_key : string -> option public_key;
  public_key_of : private_key -> public_key;
  rsa_sign : private_key -> string -> string;
  rsa_verify : public_key -> string -> string -> bool
}.

(** What the code relies on from these libraries: Base64 decodes what it
    encoded and writes neither commas nor quotes, an RSA signature is
    never empty, and a signature verifies under the public half of the
    key that made it. *)
Class LibsLaws (L : Libs) : Prop := {
  b64_roundtrip : forall s, b64decode (b64encode s) = Some s;
  b64_no_comma : forall s, PyStr.contains "," (b64encode s) = false;
  b64_no_quote : forall s, PyStr.contains dquote (b64encode s) = false;
  b64_nonempty : forall s, s <> EmptyString -> b64encode s <> EmptyString;
  rsa_sign_nonempty : forall sk m, rsa_sign sk m <> EmptyString;
  rsa_sign_verify :
    forall sk m, rsa_verify (public_key_of sk) (rsa_sign sk m) m = true
}.

(** The idealisation under which a signature speaks for one key and one
    message only: no forgery. *)
Definition unforgeable (L : Libs) : Prop :=
  forall sk pk m m',
    rsa_verify pk (rsa_sign sk m) m' = true -> pk = public_key_of sk /\ m' = m.

(** ** ActivityPubService: signing and verification *)

Module ActivityPub.
Section Service.

Context {L : Libs}.

(** [settings.INSTANCE_URL], kept by the service. *)
Variable instance_url : string.

(** The signing string of [sign_activity]. *)
Definition signing_string (host date digest_b64 : string) : string :=
  "(request-target): post /inbox" ++ nl ++ "host: " ++ host ++ nl
  ++ "date: " ++ date ++ nl ++ "digest: SHA-256=" ++ digest_b64.

Definition digest_b64_of (activity : json) : string :=
  b64encode (sha256 (json_dumps_sorted activity)).

(** The signature header [sign_activity] builds from the key id and
    the encoded signature. *)
Definition header_text (key_id signature_b64 : string) : string :=
  "keyId=" ++ q ++ key_id ++ q ++ ","
  ++ "algorithm=" ++ q ++ "rsa-sha256" ++ q ++ ","
  ++ "headers=" ++ q ++ "(request-target) host date digest" ++ q ++ ","
  ++ "signature=" ++ q ++ signature_b64 ++ q.

(** [sign_activity]; [date] is the formatted reading of the clock. An
    exception is logged and raised again. *)
Definition sign_activity (date : string) (activity : json)
    (private_key_pem key_id : string) : result string :=
  let digest_b64 := digest_b64_of activity in
  private_key <- of_option ValueError (load_pem_private_key private_key_pem) ;;
  let signature_string :=
    signing_string (urlparse_netloc instance_url) date digest_b64 in
  let signature := rsa_sign private_key signature_string in
  let signature_b64 := b64encode signature in
  Ok (header_text key_id signature_b64).

(** The loop that fills [sig_parts]: every comma-separated part is
    unpacked into a key and a value; a part without [=] raises. *)
Fixpoint parse_sig_parts (parts : list string)
    (sig_parts : list (string * string)) : result (list (string * string)) :=
  match parts with
  | [] => Ok sig_parts
  | part :: rest =>
      match PyStr.split1 "=" part with
      | [key; value] =>
          parse_sig_parts rest
            (Py.set (PyStr.strip key) (PyStr.strip_chars [dquote] value)
               sig_parts)
      | _ => Raise ValueError
      end
  end.

(** The line each listed header contributes to the signing string. *)
Definition signature_part (request_target host date digest header : string)
  : list string :=
  if String.eqb header "(request-target)"
  then ["(request-target): " ++ request_target]
  else if String.eqb header "host" then ["host: " ++ host]
  else if String.eqb header "date" then ["date: " ++ date]
  else if String.eqb header "digest" then ["digest: " ++ digest]
  else [].

(** The signing string rebuilt from the headers the header itself
    lists; a header without a [headers] field lists none. *)
Definition reconstruct (sig_parts : list (string * string))
    (request_target host date digest : string) : string :=
  let headers :=
    PyStr.split_ws
      (match Py.assoc "headers" sig_parts with
       | Some h => h
       | None => EmptyString
       end) in
  let signature_parts :=
    flat_map (signature_part request_target host date digest) headers in
  PyStr.join nl signature_parts.

(** The body of the outer [try] of [verify_signature]. *)
Definition verify_signature_body
    (signature_header request_target host date digest public_key_pem : string)
  : result bool :=
  sig_parts <- parse_sig_parts (PyStr.split "," signature_header) [] ;;
  match Py.assoc "signature" sig_parts with
  | None => Ok false
  | Some EmptyString => Ok false
  | Some signature_b64 =>
      signature <- of_option BinasciiError (b64decode signature_b64) ;;
      let signature_string :=
        reconstruct sig_parts request_target host date digest in
      public_key <- of_option UnsupportedKey (load_pem_public_key public_key_pem) ;;
      Ok (rsa_verify public_key signature signature_string)
  end.

(** [verify_signature]: the outer [except Exception] returns [False]. *)
Definition verify_signature
    (signature_header request_target host date digest public_key_pem : string)
  : bool :=
  match verify_signature_body signature_header request_target host date
          digest public_key_pem with
  | Ok b => b
  | Raise _ => false
  end.

End Service.
End ActivityPub.

(** ** The persisted model (app/models.py)

    A table is the list of its rows in storage order, so that [.first()]
    is the first match. NOT NULL and UNIQUE constraints are enforced at
    commit; column length limits are not. The tables the federation code
    does not touch are left out. *)

Module VideoPost.
Record t : Type := mk {
  id : Z;
  user_id : Z;
  title : string;
  description : string;
  tags : list string;
  duration : option Z;
  status : string;
  original_file_path : option string;
  thumbnail_small : option string;
  thumbnail_medium : option string;
  thumbnail_large : option string;
  resolutions : list (string * string);
  is_federated : bool;
  origin_instance : option string;
  origin_actor_did : option string;
  activitypub_id : option string;
  view_count : Z;
  like_count : Z;
  comment_count : Z;
  share_count : Z;
  engagement_score : Q;
  moderation_status : string
}.

Definition set_like_count (n : Z) (v : t) : t :=
  mk (id v) (user_id v) (title v) (description v) (tags v) (duration v)
     (status v) (original_file_path v) (thumbnail_small v)
     (thumbnail_medium v) (thumbnail_large v) (resolutions v)
     (is_federated v) (origin_instance v) (origin_actor_did v)
     (activitypub_id v) (view_count v) n (comment_count v) (share_count v)
     (engagement_score v) (moderation_status v).

Definition set_comment_count (n : Z) (v : t) : t :=
  mk (id v) (user_id v) (title v) (description v) (tags v) (duration v)
     (status v) (original_file_path v) (thumbnail_small v)
     (thumbnail_medium v) (thumbnail_large v) (resolutions v)
     (is_federated v) (origin_instance v) (origin_actor_did v)
     (activitypub_id v) (view_count v) (like_count v) n (share_count v)
     (engagement_score v) (moderation_status v).

Definition set_share_count (n : Z) (v : t) : t :=
  mk (id v) (user_id v) (title v) (description v) (tags v) (duration v)
     (status v) (original_file_path v) (thumbnail_small v)
     (thumbnail_medium v) (thumbnail_large v) (resolutions v)
     (is_federated v) (origin_instance v) (origin_actor_did v)
     (activitypub_id v) (view_count v) (like_count v) (comment_count v) n
     (engagement_score v) (moderation_status v).

Definition set_engagement_score (e : Q) (v : t) : t :=
  mk (id v) (user_id v) (title v) (description v) (tags v) (duration v)
     (status v) (original_file_path v) (thumbnail_small v)
     (thumbnail_medium v) (thumbnail_large v) (resolutions v)
     (is_federated v) (origin_instance v) (origin_actor_did v)
     (activitypub_id v) (view_count v) (like_count v) (comment_count v)
     (share_count v) e (moderation_status v).
End VideoPost.

Module Activity.
Record t : Type := mk {
  id : Z;
  activity_id : string;
  activity_type : string;
  actor : string;
  object_id : string;
  object_type : option string;
  content : json;
  is_local : bool;
  created_at : Z
}.
End Activity.

Module Comment.
Record t : Type := mk {
  id : Z;
  video_post_id : Z;
  user_id : Z;
  content : string;
  is_federated : bool;
  activitypub_id : option string
}.
End Comment.

Module Follower.
Record t : Type := mk {
  id : Z;
  user_id : Z;
  follower_actor : string;
  follower_inbox : string;
  is_local : bool
}.

Definition set_follower_actor (a : string) (f : t) : t :=
  mk (id f) (user_id f) a (follower_inbox f) (is_local f).
End Follower.

Module DIDDocument.
Record t : Type := mk {
  id : Z;
  user_id : Z;
  did : string;
  public_key : string;
  encrypted_private_key : string;
  current_instance_url : string;
  previous_instance_url : option string;
  migration_status : option string
}.
End DIDDocument.

Module User.
Record t : Type := mk {
  id : Z;
  username : string
}.
End User.

Module DeliveryRecord.
Record t : Type := mk {
  id : Z;
  activity_id : Z;
  inbox_url : string;
  status : string;
  attempts : Z;
  last_attempt_at : option Z;
  next_retry_at : option Z;
  error_message : option string;
  created_at : Z
}.
End DeliveryRecord.

Record DB : Type := mkDB {
  users : list User.t;
  video_posts : list VideoPost.t;
  activities : list Activity.t;
  comments : list Comment.t;
  followers : list Follower.t;
  did_documents : list DIDDocument.t;
  delivery_records : list DeliveryRecord.t
}.

Definition with_video_posts (vs : list VideoPost.t) (d : DB) : DB :=
  mkDB (users d) vs (activities d) (comments d) (followers d)
       (did_documents d) (delivery_records d).

Definition with_activities (xs : list Activity.t) (d : DB) : DB :=
  mkDB (users d) (video_posts d) xs (comments d) (followers d)
       (did_documents d) (delivery_records d).

Definition with_comments (cs : list Comment.t) (d : DB) : DB :=
  mkDB (users d) (video_posts d) (activities d) cs (followers d)
       (did_documents d) (delivery_records d).

Definition with_followers (fs : list Follower.t) (d : DB) : DB :=
  mkDB (users d) (video_posts d) (activities d) (comments d) fs
       (did_documents d) (delivery_records d).

Definition with_delivery_records (rs : list DeliveryRecord.t) (d : DB) : DB :=
  mkDB (users d) (video_posts d) (activities d) (comments d) (followers d)
       (did_documents d) rs.

(** The id an autoincrement key gives the next row. *)
Definition next_id {A : Type} (id_of : A -> Z) (rows : list A) : Z :=
  (fold_right (fun r m => Z.max (id_of r) m) 0 rows + 1)%Z.

(** [query.filter(column == value).first()] on a string column: a
    string is compared, [== None] is IS NULL, and any other Python value
    is refused by the driver. *)
Definition first_where {A : Type} (column : A -> option string) (value : json)
    (rows : list A) : result (option A) :=
  match value with
  | JStr s =>
      Ok (find (fun r => match column r with
                         | Some c => String.eqb c s
                         | None => false
                         end) rows)
  | JNull =>
      Ok (find (fun r => match column r with
                         | Some _ => false
                         | None => true
                         end) rows)
  | _ => Raise DBAPIError
  end.

(** The value a Python object gives a string column: NOT NULL columns
    refuse [None]. *)
Definition column_str (x : json) : result string :=
  match x with
  | JStr s => Ok s
  | JNull => Raise IntegrityError
  | _ => Raise DBAPIError
  end.

Definition column_str_nullable (x : json) : result (option string) :=
  match x with
  | JStr s => Ok (Some s)
  | JNull => Ok None
  | _ => Raise DBAPIError
  end.

(** ** The world a handler runs in

    Besides the database a handler touches the upload directory and the
    network. [files] maps a path to the size of the file stored there;
    [trace] records, oldest first, the effects a handler had outside the
    database. *)

Inductive event : Type :=
| ActorFetched (actor_url : json)
| StreamOpened (video_url : json)
| FileOpened (path : string)
| FileWritten (path : string) (len : N)
| FileRemoved (path : string)
| TaskEnqueued (task : string) (video_post_id : Z)
| EmbeddingDeleted (video_post_id : Z).

Record World : Type := mkWorld {
  db : DB;
  files : list (string * N);
  trace : list event
}.

(** What the remote side answers to a streamed GET: no answer at all, or
    a status, an optional Content-Length header and the chunks of the
    body (by length), after which the transfer may break. *)
Inductive stream_response : Type :=
| ConnectError
| Response (status_ok : bool) (content_length : option string)
    (chunks : list N) (broken : bool).

(** The answers of the network and the readings of the clock during one
    request, and the interpreter's limit on integer literals.
    [actor_document u] is the JSON document served at [u], or [None]
    when the request fails in any way. *)
Record Env : Type := mkEnv {
  actor_document : json -> option json;
  media_stream : string -> stream_response;
  timestamp : string;
  utcnow : Z;
  int_max_str_digits : nat
}.

(** Computations that change the world and may raise. *)
Definition M (A : Type) : Type := World -> World * result A.

Definition ret {A : Type} (a : A) : M A := fun w => (w, Ok a).

Definition raise {A : Type} (e : exn) : M A := fun w => (w, Raise e).

Definition bindM {A B : Type} (m : M A) (k : A -> M B) : M B :=
  fun w =>
    match m w with
    | (w', Ok a) => k a w'
    | (w', Raise e) => (w', Raise e)
    end.

Notation "x <-- m ;; k" := (bindM m (fun x => k))
  (at level 61, m at next level, right associativity).
Notation "m ;;; k" := (bindM m (fun _ => k))
  (at level 61, right associativity).

Definition lift {A : Type} (r : result A) : M A := fun w => (w, r).

(** [try: m except Exception as e: h e] *)
Definition try_except {A : Type} (m : M A) (h : exn -> M A) : M A :=
  fun w =>
    match m w with
    | (w', Ok a) => (w', Ok a)
    | (w', Raise e) => h e w'
    end.

Definition get_db : M DB := fun w => (w, Ok (db w)).

(** [self.db.commit()] of the changes that lead to [d]. *)
Definition commit (d : DB) : M unit :=
  fun w => (mkWorld d (files w) (trace w), Ok tt).

Definition emit (e : event) : M unit :=
  fun w => (mkWorld (db w) (files w) (trace w ++ [e])%list, Ok tt).

(** ** The upload directory *)

Module Os.

Definition exists_ (path : string) (w : World) : bool :=
  match Py.assoc path (files w) with
  | Some _ => true
  | None => false
  end.

Fixpoint delete (path : string) (fs : list (string * N)) : list (string * N) :=
  match fs with
  | [] => []
  | (p, n) :: fs' =>
      if String.eqb path p then delete path fs' else (p, n) :: delete path fs'
  end.

(** [os.remove(path)]; a missing file is an error. *)
Definition remove (path : string) : M unit :=
  fun w =>
    if exists_ path w
    then (mkWorld (db w) (delete path (files w))
            (trace w ++ [FileRemoved path])%list, Ok tt)
    else (w, Raise OSError).

(** [open(path, "wb")] creates the file or truncates it. *)
Definition open_wb (path : string) : M unit :=
  fun w =>
    (mkWorld (db w) (Py.set path 0%N (files w))
       (trace w ++ [FileOpened path])%list, Ok tt).

(** [f.write(chunk)] on the file opened at [path]. Once the path has
    been removed the bytes go to the unlinked file and no path shows
    them. *)
Definition write (path : string) (len : N) : M unit :=
  fun w =>
    match Py.assoc path (files w) with
    | Some n =>
        (mkWorld (db w) (Py.set path (n + len)%N (files w))
           (trace w ++ [FileWritten path len])%list, Ok tt)
    | None => (w, Ok tt)
    end.

End Os.

(** The bytes the trace shows written to [path]. *)
Fixpoint bytes_written (path : string) (t : list event) : N :=
  match t with
  | [] => 0%N
  | FileWritten p n :: t' =>
      if String.eqb p path then (n + bytes_written path t')%N
      else bytes_written path t'
  | _ :: t' => bytes_written path t'
  end.

(** The strings [PT<digits>S]: the text between [PT] and [S] is made of
    decimal digits, at least one. *)
Definition is_digit (c : ascii) : bool :=
  match PyStr.digit_val c with
  | Some _ => true
  | None => false
  end.

Definition is_pt_digits_s (s : string) : bool :=
  PyStr.startswith "PT" s
  && PyStr.endswith_char "S" (PyStr.drop 2 s)
  && negb (String.eqb (PyStr.drop_last (PyStr.drop 2 s)) EmptyString)
  && forallb is_digit (list_ascii_of_string (PyStr.drop_last (PyStr.drop 2 s))).

(** The length of a body received in chunks. *)
Fixpoint sum_chunks (chunks : list N) : N :=
  match chunks with
  | [] => 0%N
  | c :: rest => (c + sum_chunks rest)%N
  end.

Definition is_stream_opened (e : event) : bool :=
  match e with StreamOpened _ => true | _ => false end.

(** [quiet w w']: from [w] to [w'] nothing was stored, no file was
    touched and no media stream was opened. *)
Definition quiet (w w' : World) : Prop :=
  db w' = db w /\ files w' = files w
  /\ exists evs, trace w' = (trace w ++ evs)%list
                 /\ existsb is_stream_opened evs = false.

(** An HTTP-like answer of a handler: [{"status": ..., "message": ...}]. *)
Record response : Type := mkResponse {
  status : Z;
  message : string
}.

(** The readings of the clock while an activity is built: the texts of
    [datetime.utcnow().timestamp()] and [datetime.utcnow().isoformat()]. *)
Record Clock : Type := mkClock {
  posix_timestamp : string;
  isoformat : string
}.

(** ** ActivityPubService: parsing, validation and the audit record *)

Module Service.
Section Service.

Context {L : Libs}.
Variable env : Env.

Definition eq_str (x : json) (s : string) : bool :=
  match x with
  | JStr t => String.eqb t s
  | _ => false
  end.

Definition valid_types : list string :=
  ["Create"; "Like"; "Announce"; "Delete"; "Move"; "Follow"; "Accept"; "Reject"].

(** [parse_activity]: the activity itself, or [None]. A value that is
    not a dict fails one of the look-ups and ends in the [except]. *)
Definition parse_activity (activity_json : json) : option json :=
  match activity_json with
  | JObj d =>
      if negb (forallb (Py.has activity_json) ["@context"; "type"; "actor"])
      then None
      else match Py.assoc "type" d with
           | Some (JStr t) =>
               if existsb (String.eqb t) valid_types
               then Some activity_json else None
           | _ => None
           end
  | _ => None
  end.

(** [validate_activity_schema] *)
Definition validate_activity_schema (activity : json) : bool :=
  match Py.get activity "type" JNull with
  | Raise _ => false
  | Ok activity_type =>
      if (eq_str activity_type "Create" || eq_str activity_type "Update"
          || eq_str activity_type "Delete")
         && negb (Py.has activity "object")
      then false
      else if eq_str activity_type "Follow" && negb (Py.has activity "object")
      then false
      else
        match Py.get activity "actor" JNull, Py.get activity "id" JNull with
        | Ok actor, Ok activity_id =>
            if negb (Py.truthy actor) || negb (Py.is_str actor) then false
            else if Py.truthy activity_id && negb (Py.is_str activity_id)
            then false
            else true
        | _, _ => false
        end
  end.

(** [str(x)]: a string is itself, another value is printed. *)
Definition py_str (x : json) : string :=
  match x with
  | JStr s => s
  | _ => repr x
  end.

(** The row [store_activity] builds; every look-up on [object] needs a
    dict there. *)
Definition activity_record (activity : json) (is_local : bool) (d : DB)
  : result Activity.t :=
  activity_id <- Py.get activity "id" (JStr "") ;;
  activity_type <- Py.get activity "type" (JStr "") ;;
  actor <- Py.get activity "actor" (JStr "") ;;
  obj <- Py.get activity "object" (JObj []) ;;
  object_id <- Py.get obj "id" (JStr "") ;;
  obj' <- Py.get activity "object" (JObj []) ;;
  object_type <- Py.get obj' "type" (JStr "") ;;
  c_activity_id <- column_str activity_id ;;
  c_activity_type <- column_str activity_type ;;
  c_actor <- column_str actor ;;
  c_object_type <- column_str_nullable object_type ;;
  Ok (Activity.mk (next_id Activity.id (activities d)) c_activity_id
        c_activity_type c_actor (py_str object_id) c_object_type
        activity is_local (utcnow env)).

(** [store_activity]: the record, or [None] after a rollback. The
    [activity_id] column is UNIQUE. *)
Definition store_activity (activity : json) (is_local : bool)
  : M (option Activity.t) :=
  try_except
    (d <-- get_db ;;
     activity_record <-- lift (activity_record activity is_local d) ;;
     if existsb
          (fun a => String.eqb (Activity.activity_id a)
                      (Activity.activity_id activity_record))
          (activities d)
     then raise IntegrityError
     else
       commit (with_activities (activities d ++ [activity_record])%list d) ;;;
       ret (Some activity_record))
    (fun _ => ret None).

(** *** Building the activities the instance publishes *)

(** [settings.INSTANCE_URL], kept by the service. *)
Variable instance_url : string.

Definition activitystreams : string := "https://www.w3.org/ns/activitystreams".

(** The dimensions [_create_resolution_attachments] knows. *)
Definition resolution_info : list (string * (Z * Z)) :=
  [ ("360p", (640, 360)); ("480p", (854, 480)); ("720p", (1280, 720));
    ("1080p", (1920, 1080)) ]%Z.

(** [_create_resolution_attachments]: one Document for every stored
    resolution the table knows, in the order of [resolutions]. *)
Definition _create_resolution_attachments (video_post : VideoPost.t)
  : list json :=
  flat_map
    (fun entry : string * string =>
       let (resolution, file_path) := entry in
       match Py.assoc resolution resolution_info with
       | Some (width, height) =>
           [ JObj [ ("type", JStr "Document");
                    ("mediaType", JStr "video/mp4");
                    ("url", JStr (instance_url ++ "/" ++ file_path));
                    ("name", JStr (resolution ++ " version"));
                    ("width", JInt width);
                    ("height", JInt height) ] ]
       | None => []
       end)
    (VideoPost.resolutions video_post).

(** The id [create_video_object] gives a video that has none. *)
Definition video_url (video_post : VideoPost.t) : string :=
  instance_url ++ "/videos/" ++ PyStr.of_int (VideoPost.id video_post).

Definition has_activitypub_id (video_post : VideoPost.t) : bool :=
  match VideoPost.activitypub_id video_post with
  | Some i => negb (String.eqb i EmptyString)
  | None => false
  end.

Definition set_activitypub_id (i : string) (v : VideoPost.t) : VideoPost.t :=
  VideoPost.mk (VideoPost.id v) (VideoPost.user_id v) (VideoPost.title v)
    (VideoPost.description v) (VideoPost.tags v) (VideoPost.duration v)
    (VideoPost.status v) (VideoPost.original_file_path v)
    (VideoPost.thumbnail_small v) (VideoPost.thumbnail_medium v)
    (VideoPost.thumbnail_large v) (VideoPost.resolutions v)
    (VideoPost.is_federated v) (VideoPost.origin_instance v)
    (VideoPost.origin_actor_did v) (Some i) (VideoPost.view_count v)
    (VideoPost.like_count v) (VideoPost.comment_count v)
    (VideoPost.share_count v) (VideoPost.engagement_score v)
    (VideoPost.moderation_status v).

(** The dict [create_video_object] builds for a video that carries the
    id [activitypub_id]. [created_at] is the text of
    [video_post.created_at.isoformat()], a column the model above does
    not keep. *)
Definition video_object (video_post : VideoPost.t) (activitypub_id : string)
    (created_at : string) (user : User.t) : json :=
  let base :=
    [ ("@context", JStr activitystreams);
      ("id", JStr activitypub_id);
      ("type", JStr "Video");
      ("name", JStr (VideoPost.title video_post));
      ("content", JStr (VideoPost.description video_post));
      ("published", JStr (created_at ++ "Z"));
      ("attributedTo",
       JStr (instance_url ++ "/users/" ++ User.username user));
      ("duration",
       match VideoPost.duration video_post with
       | Some n =>
           if Z.eqb n 0 then JNull else JStr ("PT" ++ PyStr.of_int n ++ "S")
       | None => JNull
       end);
      ("url", JStr activitypub_id);
      ("mediaType", JStr "video/mp4");
      ("tag",
       JList (map (fun tag => JObj [ ("type", JStr "Hashtag");
                                     ("name", JStr ("#" ++ tag)) ])
                (VideoPost.tags video_post))) ] in
  let with_attachments :=
    match _create_resolution_attachments video_post with
    | [] => base
    | attachments => Py.set "attachment" (JList attachments) base
    end in
  JObj
    match VideoPost.thumbnail_large video_post with
    | Some thumbnail_large =>
        if String.eqb thumbnail_large EmptyString then with_attachments
        else
          Py.set "icon"
            (JObj [ ("type", JStr "Image");
                    ("mediaType", JStr "image/jpeg");
                    ("url", JStr (instance_url ++ "/" ++ thumbnail_large)) ])
            with_attachments
    | None => with_attachments
    end.

(** [create_video_object]: a video without an ActivityPub id is given
    one first, which is committed; the UNIQUE column refuses an id
    another row carries, and the exception is raised again. *)
Definition create_video_object (video_post : VideoPost.t)
    (created_at : string) (user : User.t) : M json :=
  if has_activitypub_id video_post
  then
    ret (video_object video_post
           (match VideoPost.activitypub_id video_post with
            | Some i => i
            | None => EmptyString
            end) created_at user)
  else
    d <-- get_db ;;
    let video_post' := set_activitypub_id (video_url video_post) video_post in
    if existsb
         (fun x => negb (Z.eqb (VideoPost.id x) (VideoPost.id video_post))
                   && match VideoPost.activitypub_id x with
                      | Some i => String.eqb i (video_url video_post)
                      | None => false
                      end)
         (video_posts d)
    then raise IntegrityError
    else
      commit (with_video_posts
                (map (fun x => if Z.eqb (VideoPost.id x)
                                    (VideoPost.id video_post)
                               then video_post' else x) (video_posts d)) d) ;;;
      ret (video_object video_post' (video_url video_post) created_at user).

(** [activity.update(additional_fields)] *)
Definition update (d additional_fields : list (string * json))
  : list (string * json) :=
  fold_left (fun acc kv => Py.set (fst kv) (snd kv) acc) additional_fields d.

(** [create_activity] *)
Definition create_activity (clock : Clock) (activity_type actor : string)
    (object_data : json) (additional_fields : option (list (string * json)))
  : json :=
  let activity_id :=
    instance_url ++ "/activities/" ++ posix_timestamp clock in
  let activity :=
    [ ("@context", JStr activitystreams);
      ("id", JStr activity_id);
      ("type", JStr activity_type);
      ("actor", JStr actor);
      ("object", object_data);
      ("published", JStr (isoformat clock ++ "Z")) ] in
  JObj
    match additional_fields with
    | Some (f :: fs) => update activity (f :: fs)
    | _ => activity
    end.

(** [create_create_activity] *)
Definition create_create_activity (clock : Clock) (video_post : VideoPost.t)
    (created_at : string) (user : User.t) : M json :=
  video_object <-- create_video_object video_post created_at user ;;
  let actor_id := instance_url ++ "/users/" ++ User.username user in
  ret (create_activity clock "Create" actor_id video_object
         (Some [ ("to", JList [JStr (activitystreams ++ "#Public")]);
                 ("cc", JList [JStr (actor_id ++ "/followers")]) ])).

End Service.
End Service.

(** ** InboxHandler (app/federation/inbox.py) *)

Module Inbox.
Section Handler.

Context {L : Libs}.
Variable env : Env.

(** [os.path.join(settings.UPLOAD_DIR, "federated")] *)
Definition federated_content_dir : string := "uploads/federated".

(** The byte cap of a federated download: 500 MB. *)
Definition max_size : N := 500 * 1024 * 1024.

(** [_parse_duration]: a value that is not a string is either falsy or
    has no [startswith], and gives [None] both ways. *)
Definition _parse_duration (duration_str : json) : option Z :=
  match duration_str with
  | JStr s =>
      if String.eqb s EmptyString || negb (PyStr.startswith "PT" s)
      then None
      else
        let s := PyStr.drop 2 s in
        if PyStr.endswith_char "S" s
        then PyStr.int (int_max_str_digits env) (PyStr.drop_last s)
        else None
  | _ => None
  end.

(** [duration and duration > 180] *)
Definition exceeds_limit (duration : option Z) : bool :=
  match duration with
  | Some n => negb (Z.eqb n 0) && Z.ltb 180 n
  | None => false
  end.

(** [_send_reject_activity]: looks the inbox of the actor up and logs;
    nothing is sent, and no exception leaves it. *)
Definition _send_reject_activity (original_activity : json) (reason : string)
  : M unit :=
  match Py.get original_activity "actor" JNull with
  | Ok actor => emit (ActorFetched actor)
  | Raise _ => ret tt
  end.

(** The chunk loop of [download_federated_video]. *)
Fixpoint download_chunks (file_path : string) (chunks : list N)
    (downloaded_size : N) : M N :=
  match chunks with
  | [] => ret downloaded_size
  | chunk :: rest =>
      let downloaded_size := (downloaded_size + chunk)%N in
      if (max_size <? downloaded_size)%N
      then Os.remove file_path ;;; raise ValueError
      else Os.write file_path chunk ;;;
           download_chunks file_path rest downloaded_size
  end.

(** The test of the declared size: [content_length and
    int(content_length) > max_size]. *)
Definition check_content_length (content_length : option string)
  : result unit :=
  match content_length with
  | Some cl =>
      if String.eqb cl EmptyString then Ok tt
      else
        n <- of_option ValueError (PyStr.int (int_max_str_digits env) cl) ;;
        if (Z.of_N max_size <? n)%Z then Raise ValueError else Ok tt
  | None => Ok tt
  end.

(** The transfer proper: the body is written chunk by chunk to the file,
    then the declared duration is validated again. *)
Definition write_stream (file_path : string) (chunks : list N) (broken : bool)
    (video_object : json) : M string :=
  Os.open_wb file_path ;;;
  downloaded_size <-- download_chunks file_path chunks 0%N ;;
  (if broken then raise TransportError else ret tt) ;;;
  duration_str <-- lift (Py.get video_object "duration" JNull) ;;
  (if Py.truthy duration_str
      && exceeds_limit (_parse_duration duration_str)
   then Os.remove file_path ;;; raise ValueError
   else ret tt) ;;;
  ret file_path.

(** The body of the [try] of [download_federated_video]. *)
Definition download_body (file_path : string) (video_url video_object : json)
  : M string :=
  url <-- lift (match video_url with
                | JStr u => Ok u
                | _ => Raise TypeError
                end) ;;
  emit (StreamOpened video_url) ;;;
  match media_stream env url with
  | ConnectError => raise TransportError
  | Response status_ok content_length chunks broken =>
      (if status_ok then ret tt else raise HTTPStatusError) ;;;
      lift (check_content_length content_length) ;;;
      write_stream file_path chunks broken video_object
  end.

(** The file a download is written to: the directory of federated
    content joined with [federated_<timestamp>.mp4]. *)
Definition download_path : string :=
  federated_content_dir ++ "/" ++ "federated_" ++ timestamp env ++ ".mp4".

(** [download_federated_video]: the path of the downloaded file; on any
    exception the partial download is removed and the exception raised
    again. *)
Definition download_federated_video (video_url video_object : json)
  : M string :=
  let file_path := download_path in
  try_except (download_body file_path video_url video_object)
    (fun e w =>
       if Os.exists_ file_path w
       then (Os.remove file_path ;;; raise e) w
       else raise e w).

(** [x[:n]] on what [get] returned: strings and lists can be sliced. *)
Definition slice_to (n : nat) (x : json) : result json :=
  match x with
  | JStr s => Ok (JStr (PyStr.take n s))
  | JList l => Ok (JList (firstn n l))
  | _ => Raise TypeError
  end.

(** [for tag in x]: a list gives its items, a dict its keys, a string
    its characters. *)
Definition iterate (x : json) : result (list json) :=
  match x with
  | JList l => Ok l
  | JObj d => Ok (map (fun kv => JStr (fst kv)) d)
  | JStr s =>
      Ok (map (fun c => JStr (String c EmptyString)) (list_ascii_of_string s))
  | _ => Raise TypeError
  end.

(** The loop that collects the hashtags of a video object. *)
Fixpoint collect_tags (items : list json) (tags : list string)
  : result (list string) :=
  match items with
  | [] => Ok tags
  | tag :: rest =>
      ty <- Py.get tag "type" JNull ;;
      if Service.eq_str ty "Hashtag"
      then
        name <- Py.get tag "name" (JStr EmptyString) ;;
        match name with
        | JStr n =>
            let tag_name := PyStr.lstrip (Ascii.eqb "#") n in
            if String.eqb tag_name EmptyString then collect_tags rest tags
            else collect_tags rest (tags ++ [tag_name])%list
        | _ => Raise AttributeError
        end
      else collect_tags rest tags
  end.

(** [_extract_instance_from_url] *)
Definition _extract_instance_from_url (url : json) : json :=
  match url with
  | JStr u => JStr (urlparse_scheme u ++ "://" ++ urlparse_netloc u)
  | _ => url
  end.

Definition update_video (v : VideoPost.t) (vs : list VideoPost.t)
  : list VideoPost.t :=
  map (fun x => if Z.eqb (VideoPost.id x) (VideoPost.id v) then v else x) vs.

(** [_process_federated_video] *)
Definition _process_federated_video (activity video_obj : json) : M response :=
  try_except
    (actor <-- lift (Py.get activity "actor" JNull) ;;
     video_url <-- lift (Py.get video_obj "url" JNull) ;;
     video_id <-- lift (Py.get video_obj "id" JNull) ;;
     d <-- get_db ;;
     existing <-- lift (first_where VideoPost.activitypub_id video_id
                          (video_posts d)) ;;
     match existing with
     | Some _ => ret (mkResponse 200 "Video already processed")
     | None =>
         title <-- lift (x <- Py.get video_obj "name" (JStr "Untitled") ;;
                         slice_to 200 x) ;;
         description <-- lift (x <- Py.get video_obj "content" (JStr EmptyString) ;;
                               slice_to 2000 x) ;;
         duration_str <-- lift (Py.get video_obj "duration" (JStr EmptyString)) ;;
         let duration := _parse_duration duration_str in
         tags <-- lift (tag <- Py.get video_obj "tag" (JList []) ;;
                        items <- iterate tag ;;
                        collect_tags items []) ;;
         let tags := firstn 10 tags in
         if exceeds_limit duration
         then _send_reject_activity activity "Duration exceeds 180 seconds" ;;;
              ret (mkResponse 400 "Duration exceeds limit")
         else
           fun w =>
             match download_federated_video video_url video_obj w with
             | (w', Raise e) =>
                 (_send_reject_activity activity "Download failed" ;;;
                  ret (mkResponse 500 "Failed to download video")) w'
             | (w', Ok file_path) =>
                 (let origin_instance := _extract_instance_from_url actor in
                  c_title <-- lift (column_str title) ;;
                  c_description <-- lift (column_str description) ;;
                  c_origin_instance <-- lift (column_str_nullable origin_instance) ;;
                  c_origin_actor_did <-- lift (column_str_nullable actor) ;;
                  c_activitypub_id <-- lift (column_str_nullable video_id) ;;
                  let video_post :=
                    VideoPost.mk (next_id VideoPost.id (video_posts d)) 1
                      c_title c_description tags duration "processing"
                      (Some file_path) None None None [] true
                      c_origin_instance c_origin_actor_did c_activitypub_id
                      0 0 0 0 0%Q "pending" in
                  commit (with_video_posts
                            (video_posts d ++ [video_post])%list d) ;;;
                  emit (TaskEnqueued "transcode_video"
                          (VideoPost.id video_post)) ;;;
                  ret (mkResponse 202 "Video accepted for processing")) w'
             end
     end)
    (fun e =>
       _send_reject_activity activity "" ;;;
       ret (mkResponse 500 "Failed to process video")).

(** [_process_federated_comment] *)
Definition _process_federated_comment (activity note_obj : json) : M response :=
  try_except
    (actor <-- lift (Py.get activity "actor" JNull) ;;
     note_id <-- lift (Py.get note_obj "id" JNull) ;;
     content <-- lift (Py.get note_obj "content" (JStr EmptyString)) ;;
     in_reply_to <-- lift (Py.get note_obj "inReplyTo" JNull) ;;
     if negb (Py.truthy in_reply_to)
     then ret (mkResponse 400 "Note must be in reply to a video")
     else
       d <-- get_db ;;
       video_post <-- lift (first_where VideoPost.activitypub_id in_reply_to
                              (video_posts d)) ;;
       match video_post with
       | None => ret (mkResponse 404 "Video not found")
       | Some video_post =>
           existing <-- lift (first_where Comment.activitypub_id note_id
                                (comments d)) ;;
           match existing with
           | Some _ => ret (mkResponse 200 "Comment already processed")
           | None =>
               c_content <-- lift (x <- slice_to 2000 content ;; column_str x) ;;
               c_note_id <-- lift (column_str_nullable note_id) ;;
               let comment :=
                 Comment.mk (next_id Comment.id (comments d))
                   (VideoPost.id video_post) 1 c_content true c_note_id in
               let video_post :=
                 VideoPost.set_comment_count
                   (VideoPost.comment_count video_post + 1)%Z video_post in
               commit (with_comments (comments d ++ [comment])%list
                         (with_video_posts
                            (update_video video_post (video_posts d)) d)) ;;;
               ret (mkResponse 200 "Comment processed")
           end
       end)
    (fun e => ret (mkResponse 500 "Failed to process comment")).

(** [process_create_activity] *)
Definition process_create_activity (activity : json) : M response :=
  try_except
    (obj <-- lift (Py.get activity "object" (JObj [])) ;;
     obj_type <-- lift (Py.get obj "type" JNull) ;;
     if Service.eq_str obj_type "Video"
     then _process_federated_video activity obj
     else if Service.eq_str obj_type "Note"
     then _process_federated_comment activity obj
     else ret (mkResponse 400
                 ("Unsupported object type: " ++ Service.py_str obj_type)))
    (fun e =>
       _send_reject_activity activity "" ;;;
       ret (mkResponse 500 "Failed to process Create activity")).

(** The target of a Like, Announce or Delete: [object], or its [id]
    when [object] is a dict. *)
Definition object_id_of (activity : json) : result json :=
  object_id <- Py.get activity "object" JNull ;;
  if Py.is_dict object_id then Py.get object_id "id" JNull else Ok object_id.

(** The engagement score both interaction handlers store. *)
Definition engagement (v : VideoPost.t) : Q :=
  (inject_Z (VideoPost.like_count v) * 2
   + inject_Z (VideoPost.comment_count v) * 3
   + inject_Z (VideoPost.share_count v) * 4
   + inject_Z (VideoPost.view_count v) * (1 # 10))%Q.

(** [process_like_activity] *)
Definition process_like_activity (activity : json) : M response :=
  try_except
    (actor <-- lift (Py.get activity "actor" JNull) ;;
     object_id <-- lift (object_id_of activity) ;;
     d <-- get_db ;;
     video_post <-- lift (first_where VideoPost.activitypub_id object_id
                            (video_posts d)) ;;
     match video_post with
     | None => ret (mkResponse 404 "Video not found")
     | Some video_post =>
         activity_id <-- lift (Py.get activity "id" JNull) ;;
         existing <-- lift (first_where
                              (fun a => Some (Activity.activity_id a))
                              activity_id (activities d)) ;;
         match existing with
         | Some _ => ret (mkResponse 200 "Like already processed")
         | None =>
             let video_post :=
               VideoPost.set_like_count
                 (VideoPost.like_count video_post + 1)%Z video_post in
             let video_post :=
               VideoPost.set_engagement_score (engagement video_post)
                 video_post in
             commit (with_video_posts
                       (update_video video_post (video_posts d)) d) ;;;
             ret (mkResponse 200 "Like processed")
         end
     end)
    (fun e => ret (mkResponse 500 "Failed to process Like")).

(** [process_announce_activity] *)
Definition process_announce_activity (activity : json) : M response :=
  try_except
    (actor <-- lift (Py.get activity "actor" JNull) ;;
     object_id <-- lift (object_id_of activity) ;;
     d <-- get_db ;;
     video_post <-- lift (first_where VideoPost.activitypub_id object_id
                            (video_posts d)) ;;
     match video_post with
     | None => ret (mkResponse 404 "Video not found")
     | Some video_post =>
         activity_id <-- lift (Py.get activity "id" JNull) ;;
         existing <-- lift (first_where
                              (fun a => Some (Activity.activity_id a))
                              activity_id (activities d)) ;;
         match existing with
         | Some _ => ret (mkResponse 200 "Announce already processed")
         | None =>
             let video_post :=
               VideoPost.set_share_count
                 (VideoPost.share_count video_post + 1)%Z video_post in
             let video_post :=
               VideoPost.set_engagement_score (engagement video_post)
                 video_post in
             commit (with_video_posts
                       (update_video video_post (video_posts d)) d) ;;;
             ret (mkResponse 200 "Announce processed")
         end
     end)
    (fun e => ret (mkResponse 500 "Failed to process Announce")).

(** [if path and os.path.exists(path): os.remove(path)] *)
Definition remove_if_exists (path : option string) : M unit :=
  match path with
  | Some p =>
      if String.eqb p EmptyString then ret tt
      else fun w => if Os.exists_ p w then Os.remove p w else ret tt w
  | None => ret tt
  end.

Fixpoint remove_all (paths : list string) : M unit :=
  match paths with
  | [] => ret tt
  | p :: rest =>
      (fun w => if Os.exists_ p w then Os.remove p w else ret tt w) ;;;
      remove_all rest
  end.

(** [process_delete_activity]. The comments of a video refer to it by a
    foreign key, so the row of a commented video cannot be deleted. *)
Definition process_delete_activity (activity : json) : M response :=
  try_except
    (object_id <-- lift (object_id_of activity) ;;
     d <-- get_db ;;
     video_post <-- lift (first_where VideoPost.activitypub_id object_id
                            (video_posts d)) ;;
     match video_post with
     | None => ret (mkResponse 404 "Video not found")
     | Some video_post =>
         remove_if_exists (VideoPost.original_file_path video_post) ;;;
         remove_all (map snd (VideoPost.resolutions video_post)) ;;;
         remove_if_exists (VideoPost.thumbnail_small video_post) ;;;
         remove_if_exists (VideoPost.thumbnail_medium video_post) ;;;
         remove_if_exists (VideoPost.thumbnail_large video_post) ;;;
         emit (EmbeddingDeleted (VideoPost.id video_post)) ;;;
         (if existsb
               (fun c => Z.eqb (Comment.video_post_id c)
                           (VideoPost.id video_post))
               (comments d)
          then raise IntegrityError
          else commit (with_video_posts
                         (filter
                            (fun v => negb (Z.eqb (VideoPost.id v)
                                              (VideoPost.id video_post)))
                            (video_posts d)) d)) ;;;
         ret (mkResponse 200 "Video deleted")
     end)
    (fun e => ret (mkResponse 500 "Failed to process Delete")).



(** The unique index on (user_id, follower_actor). *)
Fixpoint followers_unique (fs : list Follower.t) : bool :=
  match fs with
  | [] => true
  | f :: fs' =>
      negb (existsb
              (fun g => Z.eqb (Follower.user_id g) (Follower.user_id f)
                        && String.eqb (Follower.follower_actor g)
                             (Follower.follower_actor f)) fs')
      && followers_unique fs'
  end.

(** [process_move_activity] *)
Definition process_move_activity (activity : json) : M response :=
  try_except
    (actor <-- lift (Py.get activity "actor" JNull) ;;
     target <-- lift (Py.get activity "target" JNull) ;;
     if negb (Py.truthy target)
     then ret (mkResponse 400 "Missing target")
     else
       d <-- get_db ;;
       match actor with
       | JStr a =>
           if existsb (fun f => String.eqb (Follower.follower_actor f) a)
                (followers d)
           then
             c_target <-- lift (column_str target) ;;
             let followers' :=
               map (fun f =>
                      if String.eqb (Follower.follower_actor f) a
                      then Follower.set_follower_actor c_target f else f)
                 (followers d) in
             if followers_unique followers'
             then commit (with_followers followers' d) ;;;
                  ret (mkResponse 200 "Move processed")
             else raise IntegrityError
           else ret (mkResponse 200 "Move processed")
       | JNull => ret (mkResponse 200 "Move processed")
       | _ => raise DBAPIError
       end)
    (fun e => ret (mkResponse 500 "Failed to process Move")).

(** A video object whose name, content and tags can be read. *)
Definition metadata_ok (video_obj : json) : bool :=
  is_ok (x <- Py.get video_obj "name" (JStr "Untitled") ;; slice_to 200 x)
  && is_ok (x <- Py.get video_obj "content" (JStr EmptyString) ;;
            slice_to 2000 x)
  && is_ok (tag <- Py.get video_obj "tag" (JList []) ;;
            items <- iterate tag ;;
            collect_tags items []).

(** A video object whose id no local video post carries yet. *)
Definition is_new (video_obj : json) (d : DB) : bool :=
  match (video_id <- Py.get video_obj "id" JNull ;;
         first_where VideoPost.activitypub_id video_id (video_posts d)) with
  | Ok None => true
  | _ => false
  end.

(** [_fetch_actor_public_key]: the [publicKeyPem] of the actor
    document, or [None]. *)
Definition _fetch_actor_public_key (actor_url : json) : M (option json) :=
  emit (ActorFetched actor_url) ;;;
  match actor_document env actor_url with
  | None => ret None
  | Some actor_data =>
      match (public_key_obj <- Py.get actor_data "publicKey" (JObj []) ;;
             Py.get public_key_obj "publicKeyPem" JNull) with
      | Ok public_key_pem =>
          if Py.truthy public_key_pem then ret (Some public_key_pem)
          else ret None
      | Raise _ => ret None
      end
  end.

(** The call of [verify_signature] on the fetched key: a key that is
    not a string cannot be encoded, which the verification catches. *)
Definition signature_is_valid
    (signature request_target host date digest : string) (public_key : json)
  : bool :=
  match public_key with
  | JStr public_key_pem =>
      ActivityPub.verify_signature signature request_target host date digest
        public_key_pem
  | _ => false
  end.

(** The routing step of [handle_activity]. *)
Definition route (parsed_activity : json) : option (M response) :=
  match Py.get parsed_activity "type" JNull with
  | Ok activity_type =>
      if Service.eq_str activity_type "Create"
      then Some (process_create_activity parsed_activity)
      else if Service.eq_str activity_type "Like"
      then Some (process_like_activity parsed_activity)
      else if Service.eq_str activity_type "Announce"
      then Some (process_announce_activity parsed_activity)
      else if Service.eq_str activity_type "Delete"
      then Some (process_delete_activity parsed_activity)
      else if Service.eq_str activity_type "Move"
      then Some (process_move_activity parsed_activity)
      else None
  | Raise _ => None
  end.

(** The last two steps of [handle_activity]: the activity goes to the
    handler of its type, then it is stored for the audit trail. An
    unsupported type is answered at once and not stored. *)
Definition dispatch (parsed_activity : json) : M response :=
  match route parsed_activity with
  | None =>
      activity_type <-- lift (Py.get parsed_activity "type" JNull) ;;
      ret (mkResponse 400
             ("Unsupported activity type: " ++ Service.py_str activity_type))
  | Some handler =>
      result <-- handler ;;
      Service.store_activity env parsed_activity false ;;;
      ret result
  end.

(** [handle_activity] *)
Definition handle_activity (activity : json)
    (signature request_target host date digest : string) : M response :=
  try_except
    (actor_url <-- lift (Py.get activity "actor" JNull) ;;
     if negb (Py.truthy actor_url)
     then ret (mkResponse 401 "Missing actor")
     else
       public_key <-- _fetch_actor_public_key actor_url ;;
       match public_key with
       | None => ret (mkResponse 401 "Could not verify signature")
       | Some public_key =>
           if negb (signature_is_valid signature request_target host date
                      digest public_key)
           then ret (mkResponse 401 "Invalid signature")
           else
             match Service.parse_activity activity with
             | None => ret (mkResponse 400 "Invalid activity format")
             | Some parsed_activity =>
                 if negb (Service.validate_activity_schema parsed_activity)
                 then ret (mkResponse 400 "Invalid activity schema")
                 else dispatch parsed_activity
             end
       end)
    (fun e => ret (mkResponse 500 "Internal server error")).



End Handler.
End Inbox.

(** ** OutboxHandler (the source kept in scripts/write_outbox.py) *)

(** What a POST to a remote inbox comes back with. *)
Inductive http_outcome : Type :=
| Status (code : Z) (text : string)
| Timeout (msg : string)
| Failure (msg : string).

(** The network and the clock during one delivery attempt: the answer to
    the POST, the date [sign_activity] formats, and the two readings of
    [datetime.utcnow()] the attempt takes. *)
Record DeliveryEnv : Type := mkDeliveryEnv {
  post_inbox : string -> string -> json -> http_outcome;
  sign_date : string;
  utcnow_attempt : Z;
  utcnow_schedule : Z
}.

Module Outbox.
Section Handler.

Context {L : Libs}.
Variable instance_url : string.

(** [settings.DELIVERY_RETRY_ATTEMPTS] and
    [settings.DELIVERY_RETRY_DELAYS_MIN] (app/config.py). *)
Definition DELIVERY_RETRY_ATTEMPTS : Z := 5.
Definition DELIVERY_RETRY_DELAYS_MIN : list Z := [1; 5; 15; 60; 240]%Z.

Definition max_attempts : Z := DELIVERY_RETRY_ATTEMPTS.
Definition retry_delays : list Z := DELIVERY_RETRY_DELAYS_MIN.

(** A [datetime] is a count of microseconds; [timedelta(minutes=m)]. *)
Definition minutes (m : Z) : Z := (m * 60000000)%Z.

(** [xs[i]]: a negative index counts from the end. *)
Definition index (xs : list Z) (i : Z) : result Z :=
  let n := Z.of_nat (length xs) in
  let j := if (i <? 0)%Z then (i + n)%Z else i in
  if (j <? 0)%Z || (n <=? j)%Z then Raise IndexError
  else of_option IndexError (nth_error xs (Z.to_nat j)).

Definition string_of_Z (z : Z) : string :=
  NilZero.string_of_int (Z.to_int z).

(** [get_follower_inboxes] *)
Definition get_follower_inboxes (user_id : Z) (d : DB) : list string :=
  map Follower.follower_inbox
    (filter (fun f => negb (String.eqb (Follower.follower_inbox f) EmptyString))
       (filter (fun f => Z.eqb (Follower.user_id f) user_id) (followers d))).

(** The records [create_delivery_tasks] adds, one per inbox. *)
Fixpoint new_records (activity_id : Z) (inbox_urls : list string) (now : Z)
    (next : Z) : list DeliveryRecord.t :=
  match inbox_urls with
  | [] => []
  | inbox_url :: rest =>
      DeliveryRecord.mk next activity_id inbox_url "pending" 0 None
        (Some now) None now
      :: new_records activity_id rest now (next + 1)%Z
  end.

(** [create_delivery_tasks] *)
Definition create_delivery_tasks (now : Z) (activity : Activity.t)
    (inbox_urls : list string) (d : DB) : DB * list DeliveryRecord.t :=
  let records :=
    new_records (Activity.id activity) inbox_urls now
      (next_id DeliveryRecord.id (delivery_records d)) in
  (with_delivery_records (delivery_records d ++ records)%list d, records).

(** [deliver_activity]: success and error message; no exception leaves
    it. *)
Definition deliver_activity (env : DeliveryEnv) (activity : Activity.t)
    (inbox_url signature_header : string) : bool * option string :=
  match post_inbox env inbox_url signature_header (Activity.content activity) with
  | Status code text =>
      if (200 <=? code)%Z && (code <? 300)%Z then (true, None)
      else if (400 <=? code)%Z && (code <? 500)%Z
      then (false, Some ("Client error " ++ string_of_Z code ++ ": "
                         ++ PyStr.take 200 text))
      else (false, Some ("Server error " ++ string_of_Z code ++ ": "
                         ++ PyStr.take 200 text))
  | Timeout msg => (false, Some ("Timeout: " ++ msg))
  | Failure msg => (false, Some ("Error: " ++ msg))
  end.

Definition replace_record (r : DeliveryRecord.t) (d : DB) : DB :=
  with_delivery_records
    (map (fun x => if Z.eqb (DeliveryRecord.id x) (DeliveryRecord.id r)
                   then r else x) (delivery_records d)) d.

Import DeliveryRecord.

Definition set_failed (msg : string) (r : DeliveryRecord.t) : DeliveryRecord.t :=
  mk (id r) (activity_id r) (inbox_url r) "failed" (attempts r)
    (last_attempt_at r) (next_retry_at r) (Some msg) (created_at r).

(** The part of [process_delivery_record] after the delivery: count the
    attempt, then mark the record delivered or failed, or schedule the
    retry. *)
Definition record_attempt (env : DeliveryEnv) (success : bool)
    (error_msg : option string) (r : DeliveryRecord.t)
  : result DeliveryRecord.t :=
  let attempts := (attempts r + 1)%Z in
  let last_attempt_at := Some (utcnow_attempt env) in
  if success
  then Ok (mk (id r) (activity_id r) (inbox_url r) "delivered" attempts
             last_attempt_at None (error_message r) (created_at r))
  else if (max_attempts <=? attempts)%Z
  then Ok (mk (id r) (activity_id r) (inbox_url r) "failed" attempts
             last_attempt_at None error_msg (created_at r))
  else
    delay_minutes <- index retry_delays (attempts - 1)%Z ;;
    Ok (mk (id r) (activity_id r) (inbox_url r) (status r) attempts
          last_attempt_at
          (Some (utcnow_schedule env + minutes delay_minutes)%Z)
          error_msg (created_at r)).

(** The last element of [actor.split("/")]. *)
Definition last_segment (actor : string) : string :=
  last (PyStr.split "/" actor) EmptyString.

(** The body of the [try] of [process_delivery_record]: the record to
    commit and the value to return. *)
Definition process_body (env : DeliveryEnv) (d : DB) (r : DeliveryRecord.t)
  : result (DeliveryRecord.t * bool) :=
  match find (fun a => Z.eqb (Activity.id a) (activity_id r)) (activities d) with
  | None => Ok (set_failed "Activity not found" r, false)
  | Some activity =>
      let user :=
        find (fun u => String.eqb (User.username u)
                         (last_segment (Activity.actor activity)))
          (users d) in
      let did_document :=
        match user with
        | Some u =>
            find (fun x => Z.eqb (DIDDocument.user_id x) (User.id u))
              (did_documents d)
        | None => None
        end in
      match user, did_document with
      | Some user, Some did_document =>
          let key_id :=
            instance_url ++ "/users/" ++ User.username user ++ "#main-key" in
          signature_header <-
            ActivityPub.sign_activity instance_url (sign_date env)
              (Activity.content activity)
              (DIDDocument.encrypted_private_key did_document) key_id ;;
          let '(success, error_msg) :=
            deliver_activity env activity (inbox_url r) signature_header in
          r' <- record_attempt env success error_msg r ;;
          Ok (r', success)
      | _, _ => Ok (set_failed "User or DID not found" r, false)
      end
  end.

(** [process_delivery_record]: an exception rolls the record back. *)
Definition process_delivery_record (env : DeliveryEnv) (d : DB)
    (r : DeliveryRecord.t) : DB * DeliveryRecord.t * bool :=
  match process_body env d r with
  | Ok (r', success) => (replace_record r' d, r', success)
  | Raise _ => (d, r, false)
  end.

(** The filter of [process_pending_deliveries]: pending and due. *)
Definition is_due (now : Z) (r : DeliveryRecord.t) : bool :=
  String.eqb (status r) "pending"
  && match next_retry_at r with
     | Some t => (t <=? now)%Z
     | None => false
     end.

(** [process_pending_deliveries]: every selected record is processed,
    each in the environment it meets. *)
Definition process_pending_deliveries (env_of : Z -> DeliveryEnv) (now : Z)
    (batch_size : nat) (d : DB) : DB * nat :=
  let pending := firstn batch_size (filter (is_due now) (delivery_records d)) in
  fold_left
    (fun acc r =>
       let '(d', _, _) := process_delivery_record (env_of (id r)) (fst acc) r in
       (d', S (snd acc)))
    pending (d, O).


(** [get_delivery_stats] *)
Record stats : Type := mkStats {
  total : nat;
  delivered : nat;
  pending : nat;
  failed : nat
}.

Definition count_status (s : string) (records : list DeliveryRecord.t) : nat :=
  length (filter (fun r => String.eqb (status r) s) records).

Definition get_delivery_stats (activity_id : Z) (d : DB) : stats :=
  let records :=
    filter (fun r => Z.eqb (DeliveryRecord.activity_id r) activity_id)
      (delivery_records d) in
  mkStats (length records) (count_status "delivered" records)
    (count_status "pending" records) (count_status "failed" records).

(** The three states of a delivery record. *)
Definition status_ok (r : DeliveryRecord.t) : Prop :=
  status r = "pending" \/ status r = "delivered" \/ status r = "failed".

(** A pending record has been attempted fewer times than the handler
    allows. *)
Definition pending_in_range (r : DeliveryRecord.t) : Prop :=
  status r = "pending" -> (0 <= attempts r < max_attempts)%Z.

(** What an attempt meets when the activity, the signing user and the
    key are on file and signing succeeds: the answer of
    [deliver_activity]. [None] when the attempt does not get that far. *)
Definition attempted (env : DeliveryEnv) (d : DB) (r : DeliveryRecord.t)
  : option (bool * option string) :=
  match find (fun a => Z.eqb (Activity.id a) (activity_id r)) (activities d) with
  | None => None
  | Some activity =>
      match find (fun u => String.eqb (User.username u)
                             (last_segment (Activity.actor activity)))
              (users d) with
      | None => None
      | Some user =>
          match find (fun x => Z.eqb (DIDDocument.user_id x) (User.id user))
                  (did_documents d) with
          | None => None
          | Some did_document =>
              match ActivityPub.sign_activity instance_url (sign_date env)
                      (Activity.content activity)
                      (DIDDocument.encrypted_private_key did_document)
                      (instance_url ++ "/users/" ++ User.username user
                       ++ "#main-key") with
              | Ok signature_header =>
                  Some (deliver_activity env activity (inbox_url r)
                          signature_header)
              | Raise _ => None
              end
          end
      end
  end.

(** Successive runs of [process_delivery_record] on one record, one
    environment per run. *)
Fixpoint run_attempts (envs : list DeliveryEnv) (d : DB) (r : DeliveryRecord.t)
  : DB * DeliveryRecord.t :=
  match envs with
  | [] => (d, r)
  | env :: rest =>
      let '(d', r', _) := process_delivery_record env d r in
      run_attempts rest d' r'
  end.

(** The databases the outbox handler can produce: it starts without
    delivery records, creates them, and processes the ones it finds;
    other code leaves the delivery records alone. *)
Inductive reachable : DB -> Prop :=
| reach_init (d : DB) :
    delivery_records d = [] -> reachable d
| reach_other (d d' : DB) :
    reachable d -> delivery_records d' = delivery_records d -> reachable d'
| reach_create (d : DB) (now : Z) (activity : Activity.t)
    (inbox_urls : list string) :
    reachable d ->
    reachable (fst (create_delivery_tasks now activity inbox_urls d))
| reach_process (d : DB) (env : DeliveryEnv) (r : DeliveryRecord.t) :
    reachable d -> In r (delivery_records d) ->
    reachable (fst (fst (process_delivery_record env d r)))
| reach_sweep (d : DB) (env_of : Z -> DeliveryEnv) (now : Z) (batch_size : nat) :
    reachable d ->
    reachable (fst (process_pending_deliveries env_of now batch_size d)).

End Handler.
End Outbox.

(** ** IdentityService (app/services/identity.py) *)

Module Identity.

(** [verify_move_activity]: looks the claimed DID up; the signature is
    not read. *)
Definition verify_move_activity (d : DB) (move_activity : json)
    (signature : string) : bool :=
  match (actor_did <- Py.get move_activity "actor" JNull ;;
         first_where (fun x => Some (DIDDocument.did x)) actor_did
           (did_documents d)) with
  | Ok (Some did_document) => true
  | Ok None => false
  | Raise _ => false
  end.

(** The columns of a user the actor object shows besides the name. *)
Record Profile : Type := mkProfile {
  display_name : option string;
  bio : option string;
  avatar_url : option string
}.

(** [x or default] on a nullable text column. *)
Definition or_default (x : option string) (default : string) : string :=
  match x with
  | Some s => if String.eqb s EmptyString then default else s
  | None => default
  end.

(** [get_actor_object]: the actor document of a user, the DID as its
    id. *)
Definition get_actor_object (instance_url : string) (user : User.t)
    (profile : Profile) (did_document : DIDDocument.t) : json :=
  let actor :=
    [ ("@context",
       JList [ JStr "https://www.w3.org/ns/activitystreams";
               JStr "https://w3id.org/security/v1" ]);
      ("id", JStr (DIDDocument.did did_document));
      ("type", JStr "Person");
      ("preferredUsername", JStr (User.username user));
      ("name", JStr (or_default (display_name profile) (User.username user)));
      ("summary", JStr (or_default (bio profile) EmptyString));
      ("inbox", JStr (instance_url ++ "/api/federation/inbox"));
      ("outbox", JStr (instance_url ++ "/api/federation/outbox"));
      ("followers",
       JStr (instance_url ++ "/users/" ++ User.username user ++ "/followers"));
      ("following",
       JStr (instance_url ++ "/users/" ++ User.username user ++ "/following"));
      ("publicKey",
       JObj [ ("id", JStr (DIDDocument.did did_document ++ "#main-key"));
              ("owner", JStr (DIDDocument.did did_document));
              ("publicKeyPem", JStr (DIDDocument.public_key did_document)) ]) ] in
  JObj
    match avatar_url profile with
    | Some url =>
        if String.eqb url EmptyString then actor
        else Py.set "icon"
               (JObj [ ("type", JStr "Image");
                       ("mediaType", JStr "image/jpeg");
                       ("url", JStr url) ]) actor
    | None => actor
    end.

(** [update_follower_records]: the database with the rows rewritten,
    and their number. A commit the unique index on (user_id,
    follower_actor) refuses is rolled back and the exception raised
    again. *)
Definition update_follower_records (old_actor new_actor : string) (d : DB)
  : result (DB * Z) :=
  let matching :=
    filter (fun f => String.eqb (Follower.follower_actor f) old_actor)
      (followers d) in
  let followers' :=
    map (fun f =>
           if String.eqb (Follower.follower_actor f) old_actor
           then Follower.set_follower_actor new_actor f else f)
      (followers d) in
  match matching with
  | [] => Ok (d, 0%Z)
  | _ =>
      if Inbox.followers_unique followers'
      then Ok (with_followers followers' d, Z.of_nat (length matching))
      else Raise IntegrityError
  end.

End Identity.

(** ** InteractionService (app/services/interaction_service.py): the
    activities built for local interactions *)

Module Interaction.
Section Service.

Context {L : Libs}.
Variable env : Env.
Variable instance_url : string.

(** A nullable text column as a Python value. *)
Definition column_value (x : option string) : json :=
  match x with
  | Some s => JStr s
  | None => JNull
  end.

Definition actor_id (user : User.t) : string :=
  instance_url ++ "/users/" ++ User.username user.

(** The dict [_create_like_activity] builds. *)
Definition like_activity (clock : Clock) (user : User.t)
    (video_post : VideoPost.t) : json :=
  JObj [ ("@context", JStr "https://www.w3.org/ns/activitystreams");
         ("id", JStr (instance_url ++ "/activities/like/"
                      ++ posix_timestamp clock));
         ("type", JStr "Like");
         ("actor", JStr (actor_id user));
         ("object", column_value (VideoPost.activitypub_id video_post));
         ("published", JStr (isoformat clock ++ "Z")) ].

(** [_create_like_activity] *)
Definition _create_like_activity (clock : Clock) (user : User.t)
    (video_post : VideoPost.t) : M json :=
  let activity := like_activity clock user video_post in
  Service.store_activity env activity true ;;;
  ret activity.

(** The dict [_create_comment_activity] builds; [created_at] is the text
    of [comment.created_at.isoformat()]. *)
Definition comment_activity (clock : Clock) (user : User.t)
    (video_post : VideoPost.t) (comment : Comment.t) (created_at : string)
  : json :=
  let note :=
    JObj [ ("id", column_value (Comment.activitypub_id comment));
           ("type", JStr "Note");
           ("attributedTo", JStr (actor_id user));
           ("content", JStr (Comment.content comment));
           ("inReplyTo", column_value (VideoPost.activitypub_id video_post));
           ("published", JStr (created_at ++ "Z")) ] in
  JObj [ ("@context", JStr "https://www.w3.org/ns/activitystreams");
         ("id", JStr (instance_url ++ "/activities/create/"
                      ++ posix_timestamp clock));
         ("type", JStr "Create");
         ("actor", JStr (actor_id user));
         ("object", note);
         ("published", JStr (isoformat clock ++ "Z")) ].

(** [_create_comment_activity] *)
Definition _create_comment_activity (clock : Clock) (user : User.t)
    (video_post : VideoPost.t) (comment : Comment.t) (created_at : string)
  : M json :=
  let activity := comment_activity clock user video_post comment created_at in
  Service.store_activity env activity true ;;;
  ret activity.

(** The dict [_create_announce_activity] builds. *)
Definition announce_activity (clock : Clock) (user : User.t)
    (video_post : VideoPost.t) : json :=
  let object_id :=
    match VideoPost.activitypub_id video_post with
    | Some i =>
        if String.eqb i EmptyString
        then instance_url ++ "/videos/" ++ PyStr.of_int (VideoPost.id video_post)
        else i
    | None =>
        instance_url ++ "/videos/" ++ PyStr.of_int (VideoPost.id video_post)
    end in
  JObj [ ("@context", JStr "https://www.w3.org/ns/activitystreams");
         ("id", JStr (instance_url ++ "/activities/announce/"
                      ++ posix_timestamp clock));
         ("type", JStr "Announce");
         ("actor", JStr (actor_id user));
         ("object", JStr object_id);
         ("published", JStr (isoformat clock ++ "Z"));
         ("to", JList [JStr "https://www.w3.org/ns/activitystreams#Public"]);
         ("cc", JList [JStr (actor_id user ++ "/followers")]) ].

(** [_create_announce_activity] *)
Definition _create_announce_activity (clock : Clock) (user : User.t)
    (video_post : VideoPost.t) : M json :=
  let activity := announce_activity clock user video_post in
  Service.store_activity env activity true ;;;
  ret activity.

End Service.
End Interaction.

(** ** The federation router (app/routers/federation.py) *)

(** A request as the endpoint reads it: the raw body, what
    [request.json()] makes of it ([None] when it is no JSON), and the
    headers, their names in lower case. *)
Record Request : Type := mkRequest {
  body : string;
  json_body : option json;
  headers : list (string * string)
}.

(** What the endpoint comes back with: the accepted answer with its
    message, or an [HTTPException]. *)
Inductive endpoint_result : Type :=
| Accepted (message : string)
| HTTPException (status_code : Z) (detail : string).

Module Router.
Section Endpoints.

Context {L : Libs}.
Variable env : Env.

(** [request.headers.get(name, "")] *)
Definition header (request : Request) (name : string) : string :=
  match Py.assoc name (headers request) with
  | Some value => value
  | None => EmptyString
  end.

(** The digest the endpoint computes from the body. *)
Definition body_digest (request : Request) : string :=
  "SHA-256=" ++ b64encode (sha256 (body request)).

Definition inbox_request_target : string := "post /api/federation/inbox".

(** The answer of the handler turned into the answer of the endpoint. *)
Definition handle_result (result : response) : endpoint_result :=
  let result_status := status result in
  let result_message := message result in
  if Z.eqb result_status 401 then HTTPException 401 result_message
  else if Z.eqb result_status 400 then HTTPException 400 result_message
  else if Z.eqb result_status 404 then HTTPException 404 result_message
  else if Z.leb 500 result_status then HTTPException 500 result_message
  else Accepted result_message.

(** [inbox_endpoint]: an [HTTPException] raised on the way is raised
    again, any other exception becomes a 500. *)
Definition inbox_endpoint (request : Request) : World -> World * endpoint_result :=
  fun w =>
    match json_body request with
    | None => (w, HTTPException 500 "Internal server error")
    | Some activity =>
        let signature := header request "signature" in
        let date := header request "date" in
        let host := header request "host" in
        let digest := body_digest request in
        let digest_header := header request "digest" in
        if negb (String.eqb digest_header EmptyString)
           && negb (String.eqb digest_header digest)
        then (w, HTTPException 400 "Digest mismatch")
        else if String.eqb signature EmptyString
        then (w, HTTPException 401 "Missing signature")
        else if String.eqb date EmptyString
        then (w, HTTPException 400 "Missing date header")
        else
          match Inbox.handle_activity env activity signature
                  inbox_request_target host date digest w with
          | (w', Ok result) => (w', handle_result result)
          | (w', Raise _) => (w', HTTPException 500 "Internal server error")
          end
    end.

End Endpoints.
End Router.

(** ** A small instance of the library interface

    Keys are single characters, a signature is the key followed by the
    message, the digest is the text itself and the transfer encoding is
    hexadecimal. It serves to run the handlers on concrete requests. *)

Module Toy.

Definition hex_digit (n : nat) : ascii :=
  match n with
  | 0 => "0" | 1 => "1" | 2 => "2" | 3 => "3" | 4 => "4" | 5 => "5"
  | 6 => "6" | 7 => "7" | 8 => "8" | 9 => "9" | 10 => "a" | 11 => "b"
  | 12 => "c" | 13 => "d" | 14 => "e" | _ => "f"
  end%char.

Definition hex_val (c : ascii) : option nat :=
  let n := nat_of_ascii c in
  if ((48 <=? n) && (n <=? 57))%nat then Some (n - 48)
  else if ((97 <=? n) && (n <=? 102))%nat then Some (n - 87)
  else None.

Fixpoint encode (s : string) : string :=
  match s with
  | EmptyString => EmptyString
  | String c s' =>
      let n := nat_of_ascii c in
      String (hex_digit (n / 16)) (String (hex_digit (n mod 16)) (encode s'))
  end.

Fixpoint decode (s : string) : option string :=
  match s with
  | EmptyString => Some EmptyString
  | String a (String b s') =>
      match hex_val a, hex_val b, decode s' with
      | Some h, Some l, Some r => Some (String (ascii_of_nat (16 * h + l)) r)
      | _, _, _ => None
      end
  | String _ EmptyString => None
  end.

Fixpoint dumps (j : json) : string :=
  match j with
  | JNull => "null"
  | JBool true => "true"
  | JBool false => "false"
  | JInt z => NilZero.string_of_int (Z.to_int z)
  | JStr s => q ++ s ++ q
  | JList l =>
      "[" ++ (fix items (l : list json) : string :=
                match l with
                | [] => EmptyString
                | [x] => dumps x
                | x :: r => dumps x ++ ", " ++ items r
                end) l ++ "]"
  | JObj d =>
      "{" ++ (fix members (d : list (string * json)) : string :=
                match d with
                | [] => EmptyString
                | [(k, v)] => q ++ k ++ q ++ ": " ++ dumps v
                | (k, v) :: r => q ++ k ++ q ++ ": " ++ dumps v ++ ", " ++ members r
                end) d ++ "}"
  end.

(** Scheme and host of [scheme://host/path]. *)
Definition scheme (url : string) : string :=
  match PyStr.split ":" url with
  | s :: _ :: _ => s
  | _ => EmptyString
  end.

Definition netloc (url : string) : string :=
  match PyStr.split "/" url with
  | _ :: EmptyString :: host :: _ => host
  | _ => EmptyString
  end.

Definition load_key (pem : string) : option ascii :=
  match pem with
  | String c EmptyString => Some c
  | _ => None
  end.

Definition libs : Libs := {|
  private_key := ascii;
  public_key := ascii;
  sha256 := fun s => s;
  b64encode := encode;
  b64decode := decode;
  json_dumps_sorted := dumps;
  repr := dumps;
  urlparse_scheme := scheme;
  urlparse_netloc := netloc;
  load_pem_private_key := load_key;
  load_pem_public_key := load_key;
  public_key_of := fun sk => sk;
  rsa_sign := fun sk m => String sk m;
  rsa_verify := fun pk sig m => String.eqb sig (String pk m)
|}.

End Toy.

(** ** Concrete requests

    The data of the examples below: an instance, a remote actor whose
    key is the character [K], and activities it sends. *)

Module Example.

Definition instance_url : string := "https://civic.example".
Definition remote_url : string := "https://remote.example".
Definition bob : string := "https://remote.example/users/bob".
Definition video_id : string := "https://civic.example/videos/1".
Definition date : string := "Tue, 03 Nov 2026 10:00:00 GMT".

Definition like : json :=
  JObj [ ("@context", JStr "https://www.w3.org/ns/activitystreams");
         ("id", JStr "https://remote.example/activities/1");
         ("type", JStr "Like");
         ("actor", JStr bob);
         ("object", JStr video_id) ].

(** The header the toy signer gives an activity under the key [K]. *)
Definition signed (key_id : string) (activity : json) : string :=
  match ActivityPub.sign_activity (L := Toy.libs) remote_url date activity
          "K" key_id with
  | Ok header => header
  | Raise _ => EmptyString
  end.

Definition digest_of (activity : json) : string :=
  "SHA-256=" ++ ActivityPub.digest_b64_of (L := Toy.libs) activity.

(** The local side: the user alice with her DID document, one video,
    one follower and one published activity. *)
Definition alice_did : string := "did:key:zQWxpY2U".

Definition video : VideoPost.t :=
  VideoPost.mk 1 1 "A walk" "" [] (Some 60%Z) "ready" None None None None []
    false None None (Some video_id) 0 0 0 0 0%Q "approved".

Definition published : Activity.t :=
  Activity.mk 1 "https://civic.example/activities/7" "Create"
    "https://civic.example/users/alice" video_id (Some "Video")
    (JObj [("type", JStr "Create")]) true 0.

Definition database : DB :=
  mkDB [User.mk 1 "alice"] [video] [published] []
    [Follower.mk 1 1 bob "https://remote.example/inbox" false]
    [DIDDocument.mk 1 1 alice_did "K" "K" instance_url None None] [].

Definition world : World := mkWorld database [] [].

(** The same database with the private key of alice kept as
    [encrypt_private_key] leaves it, which is no PEM, and with one
    delivery record waiting. *)
Definition encrypted_key_database : DB :=
  mkDB [User.mk 1 "alice"] [video] [published] []
    [Follower.mk 1 1 bob "https://remote.example/inbox" false]
    [DIDDocument.mk 1 1 alice_did "K" "c2FsdG5vbmNlY2lwaGVy" instance_url
       None None]
    [DeliveryRecord.mk 1 1 "https://remote.example/inbox" "pending" 0 None
       (Some 0%Z) None 0].

(** A remote inbox that is down: every POST is answered 503. *)
Definition inbox_down (now : Z) : DeliveryEnv :=
  mkDeliveryEnv (fun _ _ _ => Status 503 "Service Unavailable") date now now.

Definition inbox_up (now : Z) : DeliveryEnv :=
  mkDeliveryEnv (fun _ _ _ => Status 202 "Accepted") date now now.

Definition pending_record : DeliveryRecord.t :=
  DeliveryRecord.mk 1 1 "https://remote.example/inbox" "pending" 0 None
    (Some 0%Z) None 0.

(** The remote side: the actor document of bob, and a media server that
    answers every request with a file of three bytes. *)
Definition bob_document : json :=
  JObj [ ("id", JStr bob);
         ("inbox", JStr "https://remote.example/inbox");
         ("publicKey",
          JObj [ ("id", JStr "https://remote.example/users/bob#main-key");
                 ("owner", JStr bob);
                 ("publicKeyPem", JStr "K") ]) ].

Definition env : Env :=
  mkEnv (fun actor_url =>
           match actor_url with
           | JStr u => if String.eqb u bob then Some bob_document else None
           | _ => None
           end)
        (fun _ => Response true (Some "3") [3%N] false)
        "20261103_100000" 0 4300.

(** A Create(Video) of 200 seconds, under an id the instance already
    holds, and the same under a new id. *)
Definition create_video (id duration : string) : json :=
  JObj [ ("@context", JStr "https://www.w3.org/ns/activitystreams");
         ("id", JStr "https://remote.example/activities/2");
         ("type", JStr "Create");
         ("actor", JStr bob);
         ("object",
          JObj [ ("id", JStr id);
                 ("type", JStr "Video");
                 ("name", JStr "A long walk");
                 ("duration", JStr duration);
                 ("url", JStr "https://remote.example/media/2.mp4") ]) ].

(** A Note of bob in reply to the video of alice, and the Create that
    carries it. *)
Definition note : list (string * json) :=
  [ ("id", JStr "https://remote.example/notes/1");
    ("type", JStr "Note");
    ("attributedTo", JStr bob);
    ("content", JStr "A fine walk");
    ("inReplyTo", JStr video_id) ].


(** The Move by which bob leaves for another instance. *)
Definition move_of_bob : list (string * json) :=
  [ ("@context", JStr "https://www.w3.org/ns/activitystreams");
    ("id", JStr "https://remote.example/activities/move/1");
    ("type", JStr "Move");
    ("actor", JStr bob);
    ("object", JStr bob);
    ("target", JStr "https://elsewhere.example/users/bob") ].

(** A video the remote instance publishes by its user carol, and the
    clock at the time. *)
Definition carol : User.t := User.mk 7 "carol".

Definition remote_video : VideoPost.t :=
  VideoPost.mk 9 7 "Along the river" "An evening walk." ["walks"; "#river"]
    (Some 75%Z) "ready" (Some "uploads/9.mp4") None None
    (Some "processed/thumbnails/9_large.jpg")
    [("720p", "processed/720p/9.mp4")] false None None None
    0 0 0 0 0%Q "approved".

Definition clock : Clock := mkClock "1793700000.25" "2026-11-03T10:00:00.250000".

(** A Move activity that claims the DID of alice. *)
Definition move : json :=
  JObj [ ("@context", JStr "https://www.w3.org/ns/activitystreams");
         ("id", JStr "https://evil.example/activities/move/1");
         ("type", JStr "Move");
         ("actor", JStr alice_did);
         ("object", JStr alice_did);
         ("target", JStr "https://evil.example/users/mallory") ].

End Example.

Module Run.

(** The database after the activity of the examples has been published
    to its one follower, and after five attempts on a dead inbox. *)
Definition fanned_out : DB :=
  fst (Outbox.create_delivery_tasks 0 Example.published
         (Outbox.get_follower_inboxes 1 Example.database) Example.database).

Definition five_failures : list DeliveryEnv :=
  [ Example.inbox_down 10; Example.inbox_down 20; Example.inbox_down 30;
    Example.inbox_down 40; Example.inbox_down 50 ].

Definition after_five : DB * DeliveryRecord.t :=
  Outbox.run_attempts (L := Toy.libs) Example.instance_url five_failures
    fanned_out Example.pending_record.

(** The Like of the examples, signed by bob, delivered to the inbox. *)
Definition deliver (activity : json) : M response :=
  Inbox.handle_activity (L := Toy.libs) Example.env activity
    (Example.signed "https://remote.example/users/bob#main-key" activity)
    "post /inbox" "remote.example" Example.date (Example.digest_of activity).

Definition liked_once : World * result response :=
  deliver Example.like Example.world.

Definition liked_twice : World * result response :=
  deliver Example.like (fst liked_once).

(** The same Like with its target given as an object. *)
Definition like_of_object : json :=
  JObj [ ("@context", JStr "https://www.w3.org/ns/activitystreams");
         ("id", JStr "https://remote.example/activities/1");
         ("type", JStr "Like");
         ("actor", JStr Example.bob);
         ("object", JObj [("id", JStr Example.video_id);
                          ("type", JStr "Video")]) ].

Definition liked_object_twice : World * result response :=
  deliver like_of_object (fst (deliver like_of_object Example.world)).




End Run.

(** * Properties *)

(** ** Strings *)

Lemma append_assoc (a b c : string) : (a ++ b) ++ c = a ++ (b ++ c).
Proof.
  induction a as [|x a IH]; simpl; [reflexivity | now rewrite IH].
Qed.

Lemma append_inj_l (a b c : string) : a ++ b = a ++ c -> b = c.
Proof.
  induction a as [|x a IH]; simpl; intros H; [exact H|].
  injection H as H. auto.
Qed.

Lemma contains_cons (c x : ascii) (s : string) :
  PyStr.contains c (String x s) = Ascii.eqb c x || PyStr.contains c s.
Proof. reflexivity. Qed.

Lemma contains_app (c : ascii) (a b : string) :
  PyStr.contains c (a ++ b) = PyStr.contains c a || PyStr.contains c b.
Proof.
  induction a as [|x a IH]; [reflexivity|].
  change (String x a ++ b) with (String x (a ++ b)).
  rewrite !contains_cons, IH. now rewrite orb_assoc.
Qed.

Lemma split_no_sep (c : ascii) (s : string) :
  PyStr.contains c s = false -> PyStr.split c s = [s].
Proof.
  induction s as [|x s IH]; [reflexivity|].
  rewrite contains_cons. intros H.
  apply orb_false_iff in H as [Hx Hs]. simpl.
  rewrite Ascii.eqb_sym, Hx, (IH Hs). reflexivity.
Qed.

Lemma split_app_sep (c : ascii) (a b : string) :
  PyStr.contains c a = false ->
  PyStr.split c (a ++ String c b) = a :: PyStr.split c b.
Proof.
  induction a as [|x a IH]; intros H.
  - simpl. now rewrite Ascii.eqb_refl.
  - rewrite contains_cons in H. apply orb_false_iff in H as [Hx Ha].
    simpl. rewrite Ascii.eqb_sym, Hx, (IH Ha). reflexivity.
Qed.

Lemma rstrip_app_one (p : ascii -> bool) (s : string) (c : ascii) :
  p c = true ->
  (forall x, PyStr.contains x s = true -> p x = false) ->
  PyStr.rstrip p (s ++ String c EmptyString) = s.
Proof.
  intros Hc. induction s as [|x s IH]; intros Hs.
  - simpl. now rewrite Hc.
  - simpl. rewrite IH.
    + destruct s; [|reflexivity].
      rewrite (Hs x); [reflexivity|].
      rewrite contains_cons, Ascii.eqb_refl. reflexivity.
    + intros y Hy. apply Hs. rewrite contains_cons, Hy. apply orb_true_r.
Qed.

(** Stripping the quotes of a quoted text that holds none gives the text
    back. *)
Lemma strip_quoted (s : string) :
  PyStr.contains dquote s = false ->
  PyStr.strip_chars [dquote] (q ++ s ++ q) = s.
Proof.
  intros H. unfold PyStr.strip_chars.
  assert (Hp : forall x, PyStr.contains x s = true ->
                         PyStr.mem x [dquote] = false).
  { intros x Hx. unfold PyStr.mem. simpl. rewrite orb_false_r.
    destruct (Ascii.eqb_spec x dquote) as [->|]; [congruence | reflexivity]. }
  change (q ++ s ++ q) with (String dquote (s ++ q)).
  cbn [PyStr.lstrip].
  change (PyStr.mem dquote [dquote]) with true. cbv iota.
  destruct s as [|x s].
  - reflexivity.
  - change ((String x s ++ q)) with (String x (s ++ q)).
    assert (Hx : PyStr.mem x [dquote] = false)
      by (apply Hp; rewrite contains_cons, Ascii.eqb_refl; reflexivity).
    cbn [PyStr.lstrip]. rewrite Hx.
    change (String x (s ++ q)) with (String x s ++ String dquote EmptyString).
    apply rstrip_app_one; [reflexivity | exact Hp].
Qed.

Lemma assoc_set_same {A : Type} (k : string) (v : A) (d : list (string * A)) :
  Py.assoc k (Py.set k v d) = Some v.
Proof.
  induction d as [|[k' v'] d IH]; simpl.
  - now rewrite String.eqb_refl.
  - destruct (String.eqb k k') eqn:E; simpl.
    + now rewrite String.eqb_refl.
    + now rewrite E.
Qed.


(** ** The small library instance satisfies the laws *)

Lemma toy_hex_byte (c : ascii) :
  Toy.hex_val (Toy.hex_digit (nat_of_ascii c / 16)) = Some (nat_of_ascii c / 16)
  /\ Toy.hex_val (Toy.hex_digit (nat_of_ascii c mod 16))
     = Some (nat_of_ascii c mod 16)
  /\ ascii_of_nat (16 * (nat_of_ascii c / 16) + nat_of_ascii c mod 16) = c.
Proof.
  destruct c as [[] [] [] [] [] [] [] []]; vm_compute; auto.
Qed.

Lemma toy_hex_digit_plain (c x : ascii) :
  x = ","%char \/ x = dquote ->
  Ascii.eqb x (Toy.hex_digit (nat_of_ascii c / 16)) = false
  /\ Ascii.eqb x (Toy.hex_digit (nat_of_ascii c mod 16)) = false.
Proof.
  intros [-> | ->];
    destruct c as [[] [] [] [] [] [] [] []]; vm_compute; auto.
Qed.

Lemma toy_decode_encode (s : string) : Toy.decode (Toy.encode s) = Some s.
Proof.
  induction s as [|c s IH]; [reflexivity|].
  destruct (toy_hex_byte c) as (Hh & Hl & Hc).
  cbn [Toy.encode Toy.decode]. rewrite Hh, Hl, IH, Hc. reflexivity.
Qed.

Lemma toy_encode_plain (x : ascii) (s : string) :
  x = ","%char \/ x = dquote -> PyStr.contains x (Toy.encode s) = false.
Proof.
  intros Hx. induction s as [|c s IH]; [reflexivity|].
  destruct (toy_hex_digit_plain c x Hx) as [Hh Hl].
  cbn [Toy.encode]. rewrite !contains_cons, Hh, Hl, IH. reflexivity.
Qed.

Lemma toy_laws : LibsLaws Toy.libs.
Proof.
  split; simpl.
  - apply toy_decode_encode.
  - intros s. apply toy_encode_plain. now left.
  - intros s. apply toy_encode_plain. now right.
  - intros [|c s] H; [congruence | discriminate].
  - discriminate.
  - intros sk m. now rewrite Ascii.eqb_refl, String.eqb_refl.
Qed.

Lemma toy_unforgeable : unforgeable Toy.libs.
Proof.
  intros sk pk m m'. unfold rsa_verify, rsa_sign, public_key_of, Toy.libs.
  intros H. apply String.eqb_eq in H. injection H as -> ->. auto.
Qed.

(** ** Signing and verification *)

Section Signatures.

Context {L : Libs}.

Lemma header_text_split (key_id signature_b64 : string) :
  PyStr.contains "," key_id = false ->
  PyStr.contains "," signature_b64 = false ->
  PyStr.split "," (ActivityPub.header_text key_id signature_b64)
  = [ "keyId=" ++ q ++ key_id ++ q;
      "algorithm=" ++ q ++ "rsa-sha256" ++ q;
      "headers=" ++ q ++ "(request-target) host date digest" ++ q;
      "signature=" ++ q ++ signature_b64 ++ q ].
Proof.
  intros Hk Hs.
  assert (Hq : forall s, PyStr.contains "," s = false ->
                         PyStr.contains "," (q ++ s ++ q) = false).
  { intros s H. rewrite !contains_app, H. reflexivity. }
  unfold ActivityPub.header_text.
  replace ("keyId=" ++ q ++ key_id ++ q ++ "," ++ "algorithm=" ++ q
           ++ "rsa-sha256" ++ q ++ "," ++ "headers=" ++ q
           ++ "(request-target) host date digest" ++ q ++ ","
           ++ "signature=" ++ q ++ signature_b64 ++ q)
    with (("keyId=" ++ q ++ key_id ++ q)
          ++ String ","
               (("algorithm=" ++ q ++ "rsa-sha256" ++ q)
                ++ String ","
                     (("headers=" ++ q
                       ++ "(request-target) host date digest" ++ q)
                      ++ String "," ("signature=" ++ q ++ signature_b64 ++ q)))).
  - rewrite split_app_sep.
    2:{ rewrite contains_app, (Hq _ Hk). reflexivity. }
    rewrite split_app_sep by reflexivity.
    rewrite split_app_sep by reflexivity.
    rewrite split_no_sep.
    2:{ rewrite contains_app, (Hq _ Hs). reflexivity. }
    reflexivity.
  - change (q ++ key_id ++ q ++ "," ++ "algorithm=" ++ q ++ "rsa-sha256"
            ++ q ++ "," ++ "headers=" ++ q
            ++ "(request-target) host date digest" ++ q ++ ","
            ++ "signature=" ++ q ++ signature_b64 ++ q)
      with (q ++ key_id ++ q
            ++ String ","
                 (("algorithm=" ++ q ++ "rsa-sha256" ++ q)
                  ++ String ","
                       (("headers=" ++ q
                         ++ "(request-target) host date digest" ++ q)
                        ++ String ","
                             ("signature=" ++ q ++ signature_b64 ++ q)))).
    now rewrite !append_assoc.
Qed.

Lemma header_text_parse (key_id signature_b64 : string) :
  PyStr.contains "," key_id = false ->
  PyStr.contains "," signature_b64 = false ->
  PyStr.contains dquote signature_b64 = false ->
  exists key_value,
    ActivityPub.parse_sig_parts
      (PyStr.split "," (ActivityPub.header_text key_id signature_b64)) []
    = Ok [ ("keyId", key_value); ("algorithm", "rsa-sha256");
           ("headers", "(request-target) host date digest");
           ("signature", signature_b64) ].
Proof.
  intros Hk Hs Hq.
  exists (PyStr.strip_chars [dquote] (q ++ key_id ++ q)).
  rewrite header_text_split by assumption.
  cbn [ActivityPub.parse_sig_parts].
  change (PyStr.split1 "=" ("keyId=" ++ q ++ key_id ++ q))
    with ["keyId"; q ++ key_id ++ q].
  change (PyStr.split1 "=" ("algorithm=" ++ q ++ "rsa-sha256" ++ q))
    with ["algorithm"; q ++ "rsa-sha256" ++ q].
  change (PyStr.split1 "="
            ("headers=" ++ q ++ "(request-target) host date digest" ++ q))
    with ["headers"; q ++ "(request-target) host date digest" ++ q].
  change (PyStr.split1 "=" ("signature=" ++ q ++ signature_b64 ++ q))
    with ["signature"; q ++ signature_b64 ++ q].
  cbv iota.
  rewrite (strip_quoted signature_b64 Hq).
  rewrite (strip_quoted "rsa-sha256") by reflexivity.
  rewrite (strip_quoted "(request-target) host date digest") by reflexivity.
  change (PyStr.strip "keyId") with "keyId".
  change (PyStr.strip "algorithm") with "algorithm".
  change (PyStr.strip "headers") with "headers".
  change (PyStr.strip "signature") with "signature".
  reflexivity.
Qed.

Lemma verify_signature_true_iff
  (signature_header request_target host date digest public_key_pem : string) :
  ActivityPub.verify_signature signature_header request_target host date digest
    public_key_pem = true
  <-> exists sig_parts signature_b64 signature public_key,
      ActivityPub.parse_sig_parts (PyStr.split "," signature_header) []
      = Ok sig_parts
      /\ Py.assoc "signature" sig_parts = Some signature_b64
      /\ signature_b64 <> EmptyString
      /\ b64decode signature_b64 = Some signature
      /\ load_pem_public_key public_key_pem = Some public_key
      /\ rsa_verify public_key signature
           (ActivityPub.reconstruct sig_parts request_target host date digest)
         = true.
Proof.
  unfold ActivityPub.verify_signature, ActivityPub.verify_signature_body.
  destruct (ActivityPub.parse_sig_parts _ _) as [sig_parts|e] eqn:Hparse;
    cbn [bind].
  2:{ split; [discriminate | intros (? & ? & ? & ? & H & _); discriminate]. }
  destruct (Py.assoc "signature" sig_parts) as [[|c b]|] eqn:Hsig.
  - split; [discriminate|].
    intros (? & ? & ? & ? & H & H1 & H2 & _). congruence.
  - destruct (b64decode (String c b)) as [signature|] eqn:Hdec; cbn.
    + destruct (load_pem_public_key public_key_pem) as [pk|] eqn:Hkey; cbn.
      * split.
        -- intros H. exists sig_parts, (String c b), signature, pk.
           repeat split; auto. discriminate.
        -- intros (sp & b' & s' & pk' & H & H1 & H2 & H3 & H4 & H5).
           congruence.
      * split; [discriminate|].
        intros (? & ? & ? & ? & _ & _ & _ & _ & H & _). congruence.
    + split; [discriminate|].
      intros (sp & b' & s' & pk' & H & H1 & H2 & H3 & _). congruence.
  - split; [discriminate|].
    intros (? & ? & ? & ? & H & H1 & _). congruence.
Qed.

(** A header that carries a signature and no list of headers is checked
    against the empty signing string: it is accepted as soon as the
    signature is one of the empty text. *)
Lemma verify_signature_without_headers (laws : LibsLaws L)
  (sk : private_key) (request_target host date digest public_key_pem : string) :
  load_pem_public_key public_key_pem = Some (public_key_of sk) ->
  let header :=
    "signature=" ++ q ++ b64encode (rsa_sign sk EmptyString) ++ q in
  ActivityPub.parse_sig_parts (PyStr.split "," header) []
  = Ok [("signature", b64encode (rsa_sign sk EmptyString))]
  /\ ActivityPub.verify_signature header request_target host date digest
       public_key_pem = true.
Proof.
  intros Hkey header.
  assert (Hparse :
            ActivityPub.parse_sig_parts (PyStr.split "," header) []
            = Ok [("signature", b64encode (rsa_sign sk EmptyString))]).
  { unfold header. rewrite split_no_sep.
    2:{ rewrite !contains_app, b64_no_comma. reflexivity. }
    cbn [ActivityPub.parse_sig_parts].
    change (PyStr.split1 "="
              ("signature=" ++ q ++ b64encode (rsa_sign sk EmptyString) ++ q))
      with ["signature"; q ++ b64encode (rsa_sign sk EmptyString) ++ q].
    cbv iota. rewrite strip_quoted by apply b64_no_quote. reflexivity. }
  split; [exact Hparse|].
  apply verify_signature_true_iff.
  exists [("signature", b64encode (rsa_sign sk EmptyString))],
         (b64encode (rsa_sign sk EmptyString)),
         (rsa_sign sk EmptyString), (public_key_of sk).
  repeat split; auto.
  - apply b64_nonempty, rsa_sign_nonempty.
  - apply b64_roundtrip.
  - apply rsa_sign_verify.
Qed.

(** A key id with a comma in it breaks the header apart: the piece after
    the comma has no [=], the unpacking raises, and the header the
    service has just signed is refused. *)
Lemma verify_signature_comma_key_id
  (signature_b64 request_target host date digest public_key_pem : string) :
  ActivityPub.verify_signature (ActivityPub.header_text "a,b" signature_b64)
    request_target host date digest public_key_pem = false.
Proof.
  unfold ActivityPub.verify_signature, ActivityPub.verify_signature_body.
  unfold ActivityPub.header_text.
  set (rest := "algorithm=" ++ q ++ "rsa-sha256" ++ q ++ "," ++ "headers=" ++ q
               ++ "(request-target) host date digest" ++ q ++ ","
               ++ "signature=" ++ q ++ signature_b64 ++ q).
  change ("keyId=" ++ q ++ "a,b" ++ q ++ "," ++ rest)
    with (("keyId=" ++ q ++ "a") ++ String "," (("b" ++ q) ++ String "," rest)).
  rewrite !split_app_sep by reflexivity.
  reflexivity.
Qed.

Lemma b64encode_inj (laws : LibsLaws L) (a b : string) :
  b64encode a = b64encode b -> a = b.
Proof.
  intros H. assert (Some a = Some b) as E; [|now injection E].
  rewrite <- (b64_roundtrip a), <- (b64_roundtrip b). now rewrite H.
Qed.

Lemma signing_string_inj (host date a b : string) :
  ActivityPub.signing_string host date a = ActivityPub.signing_string host date b ->
  a = b.
Proof.
  unfold ActivityPub.signing_string. intros H.
  repeat (apply append_inj_l in H). exact H.
Qed.

(** The signing string the verifier rebuilds from the header list of
    [sign_activity] is the one the signer signed. *)
Lemma reconstruct_signed (key_value signature_b64 host date digest_b64 : string) :
  ActivityPub.reconstruct
    [ ("keyId", key_value); ("algorithm", "rsa-sha256");
      ("headers", "(request-target) host date digest");
      ("signature", signature_b64) ]
    "post /inbox" host date ("SHA-256=" ++ digest_b64)
  = ActivityPub.signing_string host date digest_b64.
Proof.
  unfold ActivityPub.reconstruct, ActivityPub.signing_string.
  assert (Hs : PyStr.split_ws "(request-target) host date digest"
               = ["(request-target)"; "host"; "date"; "digest"])
    by reflexivity.
  cbn [Py.assoc String.eqb Ascii.eqb Bool.eqb]. rewrite Hs.
  unfold flat_map, ActivityPub.signature_part.
  cbn [String.eqb Ascii.eqb Bool.eqb app PyStr.join].
  rewrite !append_assoc. reflexivity.
Qed.

(** What verification of a freshly signed header comes down to. *)
Lemma verify_signed_header (laws : LibsLaws L)
  (key_id signature host date digest_b64 public_key_pem : string) :
  PyStr.contains "," key_id = false ->
  signature <> EmptyString ->
  ActivityPub.verify_signature
    (ActivityPub.header_text key_id (b64encode signature))
    "post /inbox" host date ("SHA-256=" ++ digest_b64) public_key_pem
  = match load_pem_public_key public_key_pem with
    | Some public_key =>
        rsa_verify public_key signature
          (ActivityPub.signing_string host date digest_b64)
    | None => false
    end.
Proof.
  intros Hk Hne.
  destruct (header_text_parse key_id (b64encode signature) Hk
              (b64_no_comma _) (b64_no_quote _)) as [kv Hparse].
  unfold ActivityPub.verify_signature, ActivityPub.verify_signature_body.
  rewrite Hparse. cbn [bind].
  change (Py.assoc "signature" _) with (Some (b64encode signature)).
  destruct (b64encode signature) as [|c b] eqn:Hb.
  { exfalso. now apply (b64_nonempty signature Hne). }
  rewrite <- Hb. rewrite b64_roundtrip. cbn [of_option bind].
  rewrite reconstruct_signed.
  destruct (load_pem_public_key public_key_pem); reflexivity.
Qed.

(** C1 (as amended). A header produced by [sign_activity] with a key id
    that holds no comma verifies under the public half of the signing
    key, with the request target, host, date and digest the signer
    embedded. With a signature scheme that admits no forgery it is
    refused under every other key, and refused as soon as the digest of
    the envelope has changed. *)
Theorem sign_activity_then_verify (laws : LibsLaws L)
  (instance_url date private_key_pem key_id header : string)
  (activity : json) (sk : private_key) :
  PyStr.contains "," key_id = false ->
  load_pem_private_key private_key_pem = Some sk ->
  ActivityPub.sign_activity instance_url date activity private_key_pem key_id
  = Ok header ->
  let host := urlparse_netloc instance_url in
  let digest := "SHA-256=" ++ ActivityPub.digest_b64_of activity in
  (forall public_key_pem,
      load_pem_public_key public_key_pem = Some (public_key_of sk) ->
      ActivityPub.verify_signature header "post /inbox" host date digest
        public_key_pem = true)
  /\ (unforgeable L ->
      forall public_key_pem,
        load_pem_public_key public_key_pem <> Some (public_key_of sk) ->
        ActivityPub.verify_signature header "post /inbox" host date digest
          public_key_pem = false)
  /\ (unforgeable L ->
      forall canonical' public_key_pem,
        sha256 canonical' <> sha256 (json_dumps_sorted activity) ->
        ActivityPub.verify_signature header "post /inbox" host date
          ("SHA-256=" ++ b64encode (sha256 canonical')) public_key_pem = false).
Proof.
  intros Hk Hsk Hsign host digest.
  unfold ActivityPub.sign_activity in Hsign.
  rewrite Hsk in Hsign. cbn [of_option bind] in Hsign.
  injection Hsign as <-.
  fold host.
  set (m := ActivityPub.signing_string host date
              (ActivityPub.digest_b64_of activity)).
  assert (Hne : rsa_sign sk m <> EmptyString) by apply rsa_sign_nonempty.
  repeat split.
  - intros pem Hpk. unfold digest.
    rewrite (verify_signed_header laws) by assumption.
    rewrite Hpk. apply rsa_sign_verify.
  - intros Hunf pem Hpk. unfold digest.
    rewrite (verify_signed_header laws) by assumption.
    destruct (load_pem_public_key pem) as [pk|]; [|reflexivity].
    destruct (rsa_verify pk (rsa_sign sk m) _) eqn:Hv; [|reflexivity].
    apply Hunf in Hv as [-> _]. congruence.
  - intros Hunf canonical' pem Hdig.
    rewrite (verify_signed_header laws) by assumption.
    destruct (load_pem_public_key pem) as [pk|]; [|reflexivity].
    destruct (rsa_verify pk (rsa_sign sk m) _) eqn:Hv; [|reflexivity].
    apply Hunf in Hv as [_ Hm]. unfold m in Hm.
    apply signing_string_inj in Hm. unfold ActivityPub.digest_b64_of in Hm.
    apply (b64encode_inj laws) in Hm. congruence.
Qed.

(** C8 (as amended). [verify_signature] returns a boolean on every
    input: whatever the body raises (a part of the header without [=],
    Base64 that does not decode, a key that does not load) becomes
    [false], a header without a signature gives [false], and [true] is
    returned only when the signing string rebuilt from the header
    verifies under the given key. A header without a [headers] field is
    not refused as such: the string rebuilt for it is the empty one. *)
Theorem verify_signature_never_raises
  (signature_header request_target host date digest public_key_pem : string) :
  (forall e,
      ActivityPub.verify_signature_body signature_header request_target host
        date digest public_key_pem = Raise e ->
      ActivityPub.verify_signature signature_header request_target host date
        digest public_key_pem = false)
  /\ (forall sig_parts,
        ActivityPub.parse_sig_parts (PyStr.split "," signature_header) []
        = Ok sig_parts ->
        Py.assoc "signature" sig_parts = None ->
        ActivityPub.verify_signature signature_header request_target host date
          digest public_key_pem = false)
  /\ (ActivityPub.verify_signature signature_header request_target host date
        digest public_key_pem = true ->
      exists sig_parts signature_b64 signature public_key,
        ActivityPub.parse_sig_parts (PyStr.split "," signature_header) []
        = Ok sig_parts
        /\ Py.assoc "signature" sig_parts = Some signature_b64
        /\ signature_b64 <> EmptyString
        /\ b64decode signature_b64 = Some signature
        /\ load_pem_public_key public_key_pem = Some public_key
        /\ rsa_verify public_key signature
             (ActivityPub.reconstruct sig_parts request_target host date digest)
           = true)
  /\ (forall sig_parts,
        Py.assoc "headers" sig_parts = None ->
        ActivityPub.reconstruct sig_parts request_target host date digest
        = EmptyString).
Proof.
  repeat split.
  - intros e H. unfold ActivityPub.verify_signature. now rewrite H.
  - intros sig_parts Hp Hs.
    unfold ActivityPub.verify_signature, ActivityPub.verify_signature_body.
    rewrite Hp. cbn [bind]. now rewrite Hs.
  - apply verify_signature_true_iff.
  - intros sig_parts H. unfold ActivityPub.reconstruct. now rewrite H.
Qed.

End Signatures.

(** Witness of C1: the toy signer and verifier on the Like of the
    examples. *)
Lemma sign_activity_then_verify_witness :
  PyStr.contains "," "bob#main-key" = false
  /\ ActivityPub.verify_signature (L := Toy.libs)
       (Example.signed "bob#main-key" Example.like) "post /inbox"
       "remote.example" Example.date (Example.digest_of Example.like) "K"
     = true.
Proof.
  split; [reflexivity|].
  destruct (sign_activity_then_verify (L := Toy.libs) toy_laws
              Example.remote_url Example.date "K" "bob#main-key"
              (Example.signed "bob#main-key" Example.like) Example.like
              "K"%char eq_refl eq_refl eq_refl) as [H _].
  apply (H "K"). reflexivity.
Defined.

(** Counterexample to C1 as stated: the service signs with the key id
    it is given, and a key id with a comma (the user name [a,b] gives
    one) yields a header its own verifier refuses. *)
Lemma sign_activity_comma_key_id_refused :
  ~ (forall (L : Libs), LibsLaws L ->
     forall (instance_url date private_key_pem key_id header public_key_pem : string)
            (activity : json) (sk : private_key),
       load_pem_private_key private_key_pem = Some sk ->
       load_pem_public_key public_key_pem = Some (public_key_of sk) ->
       ActivityPub.sign_activity instance_url date activity private_key_pem
         key_id = Ok header ->
       ActivityPub.verify_signature header "post /inbox"
         (urlparse_netloc instance_url) date
         ("SHA-256=" ++ ActivityPub.digest_b64_of activity) public_key_pem
       = true).
Proof.
  intros H.
  specialize (H Toy.libs toy_laws Example.remote_url Example.date "K" "a,b"
                (Example.signed "a,b" Example.like) "K" Example.like "K"%char
                eq_refl eq_refl eq_refl).
  unfold Example.signed, ActivityPub.sign_activity in H.
  cbn [load_pem_private_key Toy.libs Toy.load_key of_option bind] in H.
  rewrite verify_signature_comma_key_id in H. discriminate.
Qed.

(** Counterexample to C8 as stated: a header without a [headers] field
    is accepted when its signature is one of the empty text. *)
Lemma verify_signature_missing_headers_accepted :
  ~ (forall (L : Libs), LibsLaws L ->
     forall (signature_header request_target host date digest public_key_pem : string)
            (sig_parts : list (string * string)),
       ActivityPub.parse_sig_parts (PyStr.split "," signature_header) []
       = Ok sig_parts ->
       Py.assoc "headers" sig_parts = None ->
       ActivityPub.verify_signature signature_header request_target host date
         digest public_key_pem = false).
Proof.
  intros H.
  destruct (verify_signature_without_headers (L := Toy.libs) toy_laws "K"%char
              "post /inbox" "remote.example" Example.date
              (Example.digest_of Example.like) "K" eq_refl) as [Hparse Hv].
  rewrite (H Toy.libs toy_laws _ _ _ _ _ _ _ Hparse eq_refl) in Hv.
  discriminate.
Qed.

(** ** The identity service *)

(** C4. The code returns [True] for a Move whose claimed DID is on
    file, whatever the signature: the signature is never checked. *)
Theorem verify_move_activity_ignores_signature
  (d : DB) (move_activity : json) (actor_did : string) :
  Py.get move_activity "actor" JNull = Ok (JStr actor_did) ->
  existsb (fun x => String.eqb (DIDDocument.did x) actor_did) (did_documents d)
  = true ->
  forall signature : string,
    Identity.verify_move_activity d move_activity signature = true.
Proof.
  intros Hactor Hfile signature.
  unfold Identity.verify_move_activity. rewrite Hactor.
  cbn [bind first_where].
  destruct (find _ (did_documents d)) eqn:Hfind; [reflexivity|].
  apply existsb_exists in Hfile as (x & Hin & Hx).
  apply (find_none _ _ Hfind) in Hin. cbn in Hin. congruence.
Qed.

(** The Move of the examples, forged in the name of alice and sent with
    an empty signature, is accepted. *)
Lemma verify_move_activity_ignores_signature_witness :
  Py.get Example.move "actor" JNull = Ok (JStr Example.alice_did)
  /\ Identity.verify_move_activity Example.database Example.move EmptyString
     = true.
Proof.
  split; [reflexivity|].
  apply (verify_move_activity_ignores_signature Example.database Example.move
           Example.alice_did); reflexivity.
Defined.

(** ** The outbox *)

Section OutboxProperties.

Context {L : Libs}.
Variable instance_url : string.

Import DeliveryRecord.

Lemma record_attempt_status (env : DeliveryEnv) (success : bool)
  (msg : option string) (r r' : DeliveryRecord.t) :
  Outbox.record_attempt env success msg r = Ok r' ->
  id r' = id r /\ activity_id r' = activity_id r /\ inbox_url r' = inbox_url r
  /\ (status r' = status r \/ status r' = "delivered" \/ status r' = "failed").
Proof.
  unfold Outbox.record_attempt. intros H.
  destruct success.
  - injection H as <-. cbn. repeat split; auto.
  - destruct (Outbox.max_attempts <=? attempts r + 1)%Z.
    + injection H as <-. cbn. repeat split; auto.
    + destruct (Outbox.index _ _); cbn in H; [|discriminate].
      injection H as <-. cbn. repeat split; auto.
Qed.

Lemma process_body_status (env : DeliveryEnv) (d : DB)
  (r r' : DeliveryRecord.t) (b : bool) :
  Outbox.process_body instance_url env d r = Ok (r', b) ->
  id r' = id r /\ activity_id r' = activity_id r /\ inbox_url r' = inbox_url r
  /\ (status r' = status r \/ status r' = "delivered" \/ status r' = "failed").
Proof.
  unfold Outbox.process_body. intros H.
  destruct (find _ (activities d)) as [activity|].
  2:{ injection H as <- <-. cbn. repeat split; auto. }
  destruct (find _ (users d)) as [user|].
  2:{ injection H as <- <-. cbn. repeat split; auto. }
  destruct (find _ (did_documents d)) as [did_document|].
  2:{ injection H as <- <-. cbn. repeat split; auto. }
  destruct (ActivityPub.sign_activity _ _ _ _ _) as [header|]; [|discriminate].
  cbn [bind] in H.
  destruct (Outbox.deliver_activity _ _ _ _) as [success msg].
  destruct (Outbox.record_attempt env success msg r) as [r1|] eqn:Hr;
    [|discriminate].
  cbn [bind] in H. injection H as <- <-.
  apply (record_attempt_status _ _ _ _ _ Hr).
Qed.

Lemma replace_record_status_ok (r : DeliveryRecord.t) (d : DB) :
  Outbox.status_ok r ->
  Forall Outbox.status_ok (delivery_records d) ->
  Forall Outbox.status_ok (delivery_records (Outbox.replace_record r d)).
Proof.
  intros Hr Hd. unfold Outbox.replace_record. cbn.
  induction Hd as [|x l Hx Hl IH]; cbn; constructor; auto.
  destruct (id x =? id r)%Z; assumption.
Qed.

Lemma process_delivery_record_status_ok (env : DeliveryEnv) (d : DB)
  (r : DeliveryRecord.t) :
  Outbox.status_ok r ->
  Forall Outbox.status_ok (delivery_records d) ->
  Forall Outbox.status_ok
    (delivery_records
       (fst (fst (Outbox.process_delivery_record instance_url env d r)))).
Proof.
  intros Hr Hd. unfold Outbox.process_delivery_record.
  destruct (Outbox.process_body instance_url env d r) as [[r' b]|] eqn:Hb;
    cbn; [|assumption].
  apply replace_record_status_ok; [|assumption].
  destruct (process_body_status _ _ _ _ _ Hb) as (_ & _ & _ & Hs).
  unfold Outbox.status_ok in *. destruct Hs as [-> | [-> | ->]]; auto.
Qed.

Lemma new_records_status_ok (activity_id : Z) (inbox_urls : list string)
  (now next : Z) :
  Forall Outbox.status_ok (Outbox.new_records activity_id inbox_urls now next).
Proof.
  revert next. induction inbox_urls as [|u us IH]; intros next; cbn.
  - constructor.
  - constructor; [left; reflexivity | apply IH].
Qed.

Lemma sweep_status_ok (env_of : Z -> DeliveryEnv)
  (pending : list DeliveryRecord.t) (d : DB) (n : nat) :
  Forall Outbox.status_ok pending ->
  Forall Outbox.status_ok (delivery_records d) ->
  Forall Outbox.status_ok
    (delivery_records
       (fst (fold_left
               (fun acc r =>
                  let '(d', _, _) :=
                    Outbox.process_delivery_record instance_url
                      (env_of (id r)) (fst acc) r in
                  (d', S (snd acc)))
               pending (d, n)))).
Proof.
  intros Hp. revert d n.
  induction Hp as [|r rs Hr Hrs IH]; intros d n Hd; cbn [fold_left]; [exact Hd|].
  pose proof (process_delivery_record_status_ok (env_of (id r)) d r Hr Hd) as H.
  cbn [fst snd].
  destruct (Outbox.process_delivery_record instance_url (env_of (id r)) d r)
    as [[d' r'] b].
  apply IH. exact H.
Qed.

Lemma reachable_status_ok (d : DB) :
  Outbox.reachable instance_url d -> Forall Outbox.status_ok (delivery_records d).
Proof.
  induction 1 as [d Hd | d d' _ IH Heq | d now activity inbox_urls _ IH
                 | d env r _ IH Hin | d env_of now batch_size _ IH].
  - rewrite Hd. constructor.
  - rewrite Heq. exact IH.
  - cbn. apply Forall_app. split; [exact IH | apply new_records_status_ok].
  - apply process_delivery_record_status_ok; [|exact IH].
    rewrite Forall_forall in IH. auto.
  - unfold Outbox.process_pending_deliveries.
    apply sweep_status_ok; [|exact IH].
    rewrite Forall_forall in *. intros x Hx.
    apply IH.
    assert (Hin : In x (filter (Outbox.is_due now) (delivery_records d))).
    { rewrite <- (firstn_skipn batch_size). apply in_or_app. now left. }
    apply filter_In in Hin. tauto.
Qed.

Lemma count_status_partition (records : list DeliveryRecord.t) :
  Forall Outbox.status_ok records ->
  (Outbox.count_status "delivered" records
   + Outbox.count_status "pending" records
   + Outbox.count_status "failed" records = length records)%nat.
Proof.
  unfold Outbox.count_status.
  induction 1 as [|r l Hr _ IH]; [reflexivity|].
  cbn [filter length].
  destruct Hr as [-> | [-> | ->]]; cbn [String.eqb Ascii.eqb Bool.eqb length];
    lia.
Qed.

(** C10. Every delivery record of a database the outbox handler has
    produced is pending, delivered or failed, and the statistics of
    every activity add up: delivered + pending + failed = total. *)
Theorem delivery_stats_partition (d : DB) (activity_id : Z) :
  Outbox.reachable instance_url d ->
  Forall Outbox.status_ok (delivery_records d)
  /\ (Outbox.delivered (Outbox.get_delivery_stats activity_id d)
      + Outbox.pending (Outbox.get_delivery_stats activity_id d)
      + Outbox.failed (Outbox.get_delivery_stats activity_id d)
      = Outbox.total (Outbox.get_delivery_stats activity_id d))%nat.
Proof.
  intros Hreach. pose proof (reachable_status_ok d Hreach) as Hok.
  split; [exact Hok|].
  unfold Outbox.get_delivery_stats. cbn [Outbox.delivered Outbox.pending
    Outbox.failed Outbox.total].
  apply count_status_partition.
  rewrite Forall_forall in *. intros x Hx. apply filter_In in Hx. apply Hok, Hx.
Qed.

Lemma attempted_process_body (env : DeliveryEnv) (d : DB) (r : DeliveryRecord.t)
  (success : bool) (msg : option string) :
  Outbox.attempted instance_url env d r = Some (success, msg) ->
  Outbox.process_body instance_url env d r
  = (r' <- Outbox.record_attempt env success msg r ;; Ok (r', success)).
Proof.
  unfold Outbox.attempted, Outbox.process_body. intros H.
  destruct (find _ (activities d)) as [activity|]; [|discriminate].
  destruct (find _ (users d)) as [user|]; [|discriminate].
  destruct (find _ (did_documents d)) as [did_document|]; [|discriminate].
  destruct (ActivityPub.sign_activity _ _ _ _ _) as [header|]; [|discriminate].
  injection H as H. cbn [bind]. rewrite H. reflexivity.
Qed.

Lemma attempted_stable (env : DeliveryEnv) (d : DB)
  (r r' r'' : DeliveryRecord.t) :
  activity_id r'' = activity_id r ->
  inbox_url r'' = inbox_url r ->
  Outbox.attempted instance_url env (Outbox.replace_record r' d) r''
  = Outbox.attempted instance_url env d r.
Proof.
  intros Ha Hi. unfold Outbox.attempted, Outbox.replace_record.
  cbn [activities users did_documents with_delivery_records].
  rewrite Ha, Hi. reflexivity.
Qed.

(** One failed attempt on a record that has been tried fewer than four
    times: the attempt is counted and the retry scheduled from the
    table. *)
Lemma failed_attempt_schedules (env : DeliveryEnv) (d : DB)
  (r : DeliveryRecord.t) (msg : option string) (delay : Z) :
  Outbox.attempted instance_url env d r = Some (false, msg) ->
  (attempts r + 1 < Outbox.max_attempts)%Z ->
  Outbox.index Outbox.retry_delays (attempts r) = Ok delay ->
  let r' :=
    mk (id r) (activity_id r) (inbox_url r) (status r) (attempts r + 1)
      (Some (utcnow_attempt env))
      (Some (utcnow_schedule env + Outbox.minutes delay)%Z) msg (created_at r) in
  Outbox.process_delivery_record instance_url env d r
  = (Outbox.replace_record r' d, r', false).
Proof.
  intros Ha Hlt Hidx r'. unfold Outbox.process_delivery_record.
  rewrite (attempted_process_body _ _ _ _ _ Ha).
  unfold Outbox.record_attempt.
  destruct (Z.leb_spec Outbox.max_attempts (attempts r + 1)); [lia|].
  replace (attempts r + 1 - 1)%Z with (attempts r) by lia.
  rewrite Hidx. reflexivity.
Qed.

(** The failed attempt that reaches the cap. *)
Lemma failed_attempt_gives_up (env : DeliveryEnv) (d : DB)
  (r : DeliveryRecord.t) (msg : option string) :
  Outbox.attempted instance_url env d r = Some (false, msg) ->
  (Outbox.max_attempts <= attempts r + 1)%Z ->
  let r' :=
    mk (id r) (activity_id r) (inbox_url r) "failed" (attempts r + 1)
      (Some (utcnow_attempt env)) None msg (created_at r) in
  Outbox.process_delivery_record instance_url env d r
  = (Outbox.replace_record r' d, r', false).
Proof.
  intros Ha Hle r'. unfold Outbox.process_delivery_record.
  rewrite (attempted_process_body _ _ _ _ _ Ha).
  unfold Outbox.record_attempt.
  destruct (Z.leb_spec Outbox.max_attempts (attempts r + 1)); [|lia].
  reflexivity.
Qed.

Lemma successful_attempt_delivers (env : DeliveryEnv) (d : DB)
  (r : DeliveryRecord.t) (msg : option string) :
  Outbox.attempted instance_url env d r = Some (true, msg) ->
  let r' :=
    mk (id r) (activity_id r) (inbox_url r) "delivered" (attempts r + 1)
      (Some (utcnow_attempt env)) None (error_message r) (created_at r) in
  Outbox.process_delivery_record instance_url env d r
  = (Outbox.replace_record r' d, r', true).
Proof.
  intros Ha r'. unfold Outbox.process_delivery_record.
  rewrite (attempted_process_body _ _ _ _ _ Ha). reflexivity.
Qed.

(** C3 (as amended). A pending record at [attempts = 0] whose attempts
    fail one after the other is rescheduled 1, 5, 15 and 60 minutes
    after the first four failures; the fifth failure reaches the cap of
    five attempts and sets [failed] with no [next_retry_at]: the 240
    minute delay of the table is never used. A successful attempt sets
    [delivered] with no [next_retry_at], and the sweep never selects a
    record that is not pending. *)
Theorem retry_schedule (d : DB) (r : DeliveryRecord.t)
  (e1 e2 e3 e4 e5 : DeliveryEnv) :
  attempts r = 0%Z ->
  status r = "pending" ->
  (forall e, In e [e1; e2; e3; e4; e5] ->
             exists msg, Outbox.attempted instance_url e d r = Some (false, msg)) ->
  let after := fun envs => snd (Outbox.run_attempts instance_url envs d r) in
  (status (after [e1]) = "pending"
   /\ next_retry_at (after [e1])
      = Some (utcnow_schedule e1 + Outbox.minutes 1)%Z)
  /\ (status (after [e1; e2]) = "pending"
      /\ next_retry_at (after [e1; e2])
         = Some (utcnow_schedule e2 + Outbox.minutes 5)%Z)
  /\ (status (after [e1; e2; e3]) = "pending"
      /\ next_retry_at (after [e1; e2; e3])
         = Some (utcnow_schedule e3 + Outbox.minutes 15)%Z)
  /\ (status (after [e1; e2; e3; e4]) = "pending"
      /\ next_retry_at (after [e1; e2; e3; e4])
         = Some (utcnow_schedule e4 + Outbox.minutes 60)%Z)
  /\ (status (after [e1; e2; e3; e4; e5]) = "failed"
      /\ next_retry_at (after [e1; e2; e3; e4; e5]) = None)
  /\ (forall env d0 r0 msg,
        Outbox.attempted instance_url env d0 r0 = Some (true, msg) ->
        let r' := snd (fst (Outbox.process_delivery_record instance_url env d0 r0)) in
        status r' = "delivered" /\ next_retry_at r' = None)
  /\ (forall now r0, status r0 <> "pending" -> Outbox.is_due now r0 = false).
Proof.
  intros Hatt Hst Hfail after.
  destruct (Hfail e1) as [m1 H1]; [cbn; auto|].
  destruct (Hfail e2) as [m2 H2]; [cbn; auto|].
  destruct (Hfail e3) as [m3 H3]; [cbn; auto|].
  destruct (Hfail e4) as [m4 H4]; [cbn; auto 6|].
  destruct (Hfail e5) as [m5 H5]; [cbn; auto 6|].
  pose proof (failed_attempt_schedules e1 d r m1 1%Z H1) as S1.
  rewrite Hatt in S1. specialize (S1 eq_refl eq_refl). cbv zeta in S1.
  set (r1 := mk _ _ _ _ _ _ _ _ _) in S1.
  set (d1 := Outbox.replace_record r1 d) in S1.
  pose proof (failed_attempt_schedules e2 d1 r1 m2 5%Z) as S2.
  unfold d1 in S2 at 1. rewrite (attempted_stable e2 d r r1 r1) in S2
    by reflexivity.
  specialize (S2 H2 eq_refl eq_refl). cbv zeta in S2.
  set (r2 := mk _ _ _ _ _ _ _ _ _) in S2.
  set (d2 := Outbox.replace_record r2 d1) in S2.
  pose proof (failed_attempt_schedules e3 d2 r2 m3 15%Z) as S3.
  unfold d2 in S3 at 1. unfold d1 in S3 at 1.
  rewrite !(attempted_stable e3 _ r _ _) in S3 by reflexivity.
  specialize (S3 H3 eq_refl eq_refl). cbv zeta in S3.
  set (r3 := mk _ _ _ _ _ _ _ _ _) in S3.
  set (d3 := Outbox.replace_record r3 d2) in S3.
  pose proof (failed_attempt_schedules e4 d3 r3 m4 60%Z) as S4.
  unfold d3 in S4 at 1. unfold d2 in S4 at 1. unfold d1 in S4 at 1.
  rewrite !(attempted_stable e4 _ r _ _) in S4 by reflexivity.
  specialize (S4 H4 eq_refl eq_refl). cbv zeta in S4.
  set (r4 := mk _ _ _ _ _ _ _ _ _) in S4.
  set (d4 := Outbox.replace_record r4 d3) in S4.
  pose proof (failed_attempt_gives_up e5 d4 r4 m5) as S5.
  unfold d4 in S5 at 1. unfold d3 in S5 at 1. unfold d2 in S5 at 1.
  unfold d1 in S5 at 1.
  rewrite !(attempted_stable e5 _ r _ _) in S5 by reflexivity.
  specialize (S5 H5). cbv zeta in S5.
  assert (Hcap : (Outbox.max_attempts <= attempts r4 + 1)%Z)
    by (cbn; unfold Outbox.max_attempts, Outbox.DELIVERY_RETRY_ATTEMPTS; lia).
  specialize (S5 Hcap).
  unfold after. cbn [Outbox.run_attempts].
  rewrite S1, S2, S3, S4, S5. cbn.
  repeat match goal with |- _ /\ _ => split end; auto.
  - intros env d0 r0 msg Ha.
    rewrite (successful_attempt_delivers env d0 r0 msg Ha). cbn. auto.
  - intros now r0 Hr0. unfold Outbox.is_due.
    destruct (String.eqb_spec (status r0) "pending"); [contradiction|].
    reflexivity.
Qed.

End OutboxProperties.

(** Witness of C3: five attempts on the dead inbox of the examples. *)
Lemma retry_schedule_witness :
  DeliveryRecord.attempts Example.pending_record = 0%Z
  /\ DeliveryRecord.status Example.pending_record = "pending"
  /\ DeliveryRecord.next_retry_at
       (snd (Outbox.run_attempts (L := Toy.libs) Example.instance_url
               [Example.inbox_down 10] Run.fanned_out Example.pending_record))
     = Some (10 + Outbox.minutes 1)%Z
  /\ DeliveryRecord.status (snd Run.after_five) = "failed"
  /\ DeliveryRecord.next_retry_at (snd Run.after_five) = None.
Proof.
  assert (Hfail : forall e, In e Run.five_failures ->
            exists msg,
              Outbox.attempted (L := Toy.libs) Example.instance_url e
                Run.fanned_out Example.pending_record = Some (false, msg)).
  { intros e He. exists (Some "Server error 503: Service Unavailable").
    cbn in He. decompose [or] He; subst; try contradiction; reflexivity. }
  destruct (retry_schedule (L := Toy.libs) Example.instance_url Run.fanned_out
              Example.pending_record (Example.inbox_down 10)
              (Example.inbox_down 20) (Example.inbox_down 30)
              (Example.inbox_down 40) (Example.inbox_down 50)
              eq_refl eq_refl Hfail)
    as ((_ & H1) & _ & _ & _ & (H5 & H5') & _).
  split; [reflexivity|]. split; [reflexivity|]. split; [exact H1|].
  split; [exact H5 | exact H5'].
Defined.

(** Counterexample to C3 as stated: after the fifth failure in a row the
    record is failed and has no retry time; no retry is ever set 240
    minutes ahead. *)
Lemma fifth_failure_schedules_no_retry :
  DeliveryRecord.attempts (snd Run.after_five) = 5%Z
  /\ DeliveryRecord.status (snd Run.after_five) = "failed"
  /\ DeliveryRecord.next_retry_at (snd Run.after_five)
     <> Some (50 + Outbox.minutes 240)%Z.
Proof.
  vm_compute. repeat split; discriminate.
Qed.

(** Witness of C10: the database of the examples after the fan-out and
    one failed attempt. *)
Lemma delivery_stats_partition_witness :
  let d :=
    fst (fst (Outbox.process_delivery_record (L := Toy.libs)
                Example.instance_url (Example.inbox_down 10) Run.fanned_out
                Example.pending_record)) in
  Outbox.reachable (L := Toy.libs) Example.instance_url d
  /\ (Outbox.delivered (Outbox.get_delivery_stats 1 d)
      + Outbox.pending (Outbox.get_delivery_stats 1 d)
      + Outbox.failed (Outbox.get_delivery_stats 1 d)
      = Outbox.total (Outbox.get_delivery_stats 1 d))%nat.
Proof.
  intros d.
  assert (Hreach : Outbox.reachable (L := Toy.libs) Example.instance_url d).
  { apply Outbox.reach_process.
    - apply Outbox.reach_create. apply Outbox.reach_init. reflexivity.
    - left. reflexivity. }
  split; [exact Hreach|].
  apply (delivery_stats_partition (L := Toy.libs) Example.instance_url d 1
           Hreach).
Defined.

(** ** The inbox: durations *)

Lemma int_empty (max_str_digits : nat) :
  PyStr.int max_str_digits EmptyString = None.
Proof.
  destruct max_str_digits; reflexivity.
Qed.





(** ** The inbox: Create(Video) *)

Lemma quiet_refl (w : World) : quiet w w.
Proof.
  repeat split. exists []. now rewrite app_nil_r.
Qed.

Lemma quiet_actor_fetched (w : World) (a : json) :
  quiet w (mkWorld (db w) (files w) (trace w ++ [ActorFetched a])%list).
Proof.
  repeat split. exists [ActorFetched a]. auto.
Qed.

(** Taking a handler apart: unfold the monad, then split on the result
    of each step, innermost first. *)
Ltac unfold_monad H :=
  cbv beta delta [try_except bindM lift ret raise get_db commit emit
                  Inbox._send_reject_activity] in H;
  cbn beta iota zeta in H.

Ltac explore H :=
  repeat (first
    [ progress (cbn beta iota zeta in H)
    | match type of H with
      | context [match ?x with _ => _ end] =>
          lazymatch x with
          | context [match _ with _ => _ end] => fail
          | _ => destruct x eqn:?
          end
      end ]).

Ltac explore_with H tac :=
  repeat (first
    [ progress (cbn beta iota zeta in H)
    | tac
    | match type of H with
      | context [match ?x with _ => _ end] =>
          lazymatch x with
          | context [match _ with _ => _ end] => fail
          | _ => destruct x eqn:?
          end
      end ]).

Section CreateVideo.

Context {L : Libs}.
Variable env : Env.


(** [_process_federated_video] answers every request: no exception
    leaves it. *)
Lemma process_federated_video_answers (activity video_obj : json) (w : World) :
  exists resp,
    snd (Inbox._process_federated_video env activity video_obj w) = Ok resp.
Proof.
  destruct (Inbox._process_federated_video env activity video_obj w)
    as [w' r] eqn:H.
  unfold Inbox._process_federated_video in H. unfold_monad H.
  explore H; injection H as <- <-; eexists; reflexivity.
Qed.



End CreateVideo.





(** ** The inbox: the federated download *)

Lemma bytes_written_app (path : string) (t1 t2 : list event) :
  bytes_written path (t1 ++ t2) = (bytes_written path t1 + bytes_written path t2)%N.
Proof.
  induction t1 as [|e t1 IH]; [reflexivity|].
  destruct e; cbn [app bytes_written]; try exact IH.
  destruct (String.eqb path0 path); [rewrite IH; lia | exact IH].
Qed.

Lemma assoc_delete (path : string) (fs : list (string * N)) :
  Py.assoc path (Os.delete path fs) = None.
Proof.
  induction fs as [|[p n] fs IH]; [reflexivity|].
  cbn [Os.delete]. destruct (String.eqb path p) eqn:E; [exact IH|].
  cbn [Py.assoc]. rewrite E. exact IH.
Qed.

Lemma remove_spec (path : string) (w : World) :
  Os.exists_ path w = true ->
  exists w',
    Os.remove path w = (w', Ok tt)
    /\ db w' = db w
    /\ Os.exists_ path w' = false
    /\ bytes_written path (trace w') = bytes_written path (trace w).
Proof.
  intros H. unfold Os.remove. rewrite H. eexists. split; [reflexivity|].
  repeat split.
  - unfold Os.exists_. cbn. now rewrite assoc_delete.
  - cbn. rewrite bytes_written_app. cbn. lia.
Qed.

Lemma write_spec (path : string) (len : N) (w : World) :
  Os.exists_ path w = true ->
  exists w',
    Os.write path len w = (w', Ok tt)
    /\ db w' = db w
    /\ Os.exists_ path w' = true
    /\ bytes_written path (trace w')
       = (bytes_written path (trace w) + len)%N.
Proof.
  unfold Os.exists_, Os.write.
  destruct (Py.assoc path (files w)) as [n|]; [|discriminate].
  intros _. eexists. split; [reflexivity|]. repeat split.
  - cbn. now rewrite assoc_set_same.
  - cbn. rewrite bytes_written_app. cbn. rewrite String.eqb_refl. lia.
Qed.

Section Download.

Context {L : Libs}.
Variable env : Env.

(** The chunk loop: what it writes stays within the cap, it succeeds
    exactly when the whole body fits, and when it fails the partial file
    is gone. *)
Lemma download_chunks_spec (path : string) (chunks : list N) :
  forall (downloaded : N) (w : World),
    Os.exists_ path w = true ->
    (downloaded <= Inbox.max_size)%N ->
    exists w' r written,
      Inbox.download_chunks path chunks downloaded w = (w', r)
      /\ db w' = db w
      /\ bytes_written path (trace w')
         = (bytes_written path (trace w) + written)%N
      /\ (downloaded + written <= Inbox.max_size)%N
      /\ match r with
         | Ok total =>
             Os.exists_ path w' = true
             /\ total = (downloaded + sum_chunks chunks)%N
             /\ (total <= Inbox.max_size)%N
         | Raise _ =>
             Os.exists_ path w' = false
             /\ (Inbox.max_size < downloaded + sum_chunks chunks)%N
         end.
Proof.
  induction chunks as [|chunk rest IH]; intros downloaded w Hex Hle.
  - exists w, (Ok downloaded), 0%N. cbn [Inbox.download_chunks sum_chunks].
    unfold ret. repeat split; try assumption; lia.
  - cbn [Inbox.download_chunks sum_chunks].
    destruct (N.ltb_spec Inbox.max_size (downloaded + chunk)) as [Hover|Hfit].
    + destruct (remove_spec path w Hex) as (w1 & Hrm & Hdb & Hgone & Hbytes).
      exists w1, (Raise ValueError), 0%N.
      unfold bindM. rewrite Hrm. unfold raise.
      repeat split; try assumption; lia.
    + destruct (write_spec path chunk w Hex) as (w1 & Hwr & Hdb & Hex1 & Hbytes).
      destruct (IH (downloaded + chunk)%N w1 Hex1 Hfit)
        as (w' & r & written & Hrun & Hdb' & Hbytes' & Hcap & Hr).
      exists w', r, (chunk + written)%N.
      unfold bindM. rewrite Hwr. cbn beta iota. rewrite Hrun.
      repeat split.
      * congruence.
      * rewrite Hbytes', Hbytes. lia.
      * lia.
      * destruct r as [total|e].
        -- destruct Hr as (? & ? & ?). repeat split; auto. lia.
        -- destruct Hr as (? & ?). split; auto. lia.
Qed.

Lemma open_wb_spec (path : string) (w : World) :
  exists w',
    Os.open_wb path w = (w', Ok tt)
    /\ db w' = db w
    /\ Os.exists_ path w' = true
    /\ bytes_written path (trace w') = bytes_written path (trace w).
Proof.
  eexists. split; [reflexivity|]. repeat split.
  - unfold Os.exists_. cbn. now rewrite assoc_set_same.
  - cbn. rewrite bytes_written_app. cbn. lia.
Qed.

Lemma write_stream_spec (path : string) (chunks : list N) (broken : bool)
  (video_object : json) (w : World) :
  exists w' r,
    Inbox.write_stream env path chunks broken video_object w = (w', r)
    /\ db w' = db w
    /\ (bytes_written path (trace w')
        <= bytes_written path (trace w) + Inbox.max_size)%N
    /\ ((Inbox.max_size < sum_chunks chunks)%N -> is_ok r = false).
Proof.
  destruct (open_wb_spec path w) as (w1 & Hopen & Hdb1 & Hex1 & Hb1).
  destruct (download_chunks_spec path chunks 0%N w1 Hex1 (N.le_0_l _))
    as (w2 & r2 & written & Hrun & Hdb2 & Hb2 & Hcap & Hr2).
  unfold Inbox.write_stream, bindM.
  rewrite Hopen. cbn beta iota. rewrite Hrun.
  assert (Hbound : (bytes_written path (trace w2)
                    <= bytes_written path (trace w) + Inbox.max_size)%N)
    by (rewrite Hb2, Hb1; lia).
  destruct r2 as [total|e].
  2:{ exists w2, (Raise e). repeat split; auto. congruence. }
  destruct Hr2 as (Hex2 & Htotal & Hfit).
  assert (Hlong : (Inbox.max_size < sum_chunks chunks)%N -> False)
    by (intros Hlong; lia).
  destruct broken.
  { exists w2, (Raise TransportError). repeat split; auto. congruence. }
  unfold ret at 1. cbn beta iota. unfold lift.
  destruct (Py.get video_object "duration" JNull) as [duration_str|e].
  2:{ exists w2, (Raise e). repeat split; auto. congruence. }
  destruct (Py.truthy duration_str
            && Inbox.exceeds_limit (Inbox._parse_duration env duration_str)).
  - destruct (remove_spec path w2 Hex2) as (w3 & Hrm & Hdb3 & Hgone & Hb3).
    exists w3, (Raise ValueError). rewrite Hrm. unfold raise.
    repeat split; auto; congruence.
  - exists w2, (Ok path). unfold ret. repeat split; auto.
    + congruence.
    + intros Hl. destruct (Hlong Hl).
Qed.

Lemma download_body_bound (path : string) (video_url video_object : json)
  (w : World) :
  exists w' r,
    Inbox.download_body env path video_url video_object w = (w', r)
    /\ db w' = db w
    /\ (bytes_written path (trace w')
        <= bytes_written path (trace w) + Inbox.max_size)%N.
Proof.
  unfold Inbox.download_body, bindM, lift.
  destruct video_url as [| | |u| |];
    try (exists w, (Raise TypeError); repeat split; auto; lia).
  unfold emit at 1. cbn beta iota.
  set (w1 := mkWorld (db w) (files w) (trace w ++ [StreamOpened (JStr u)])%list).
  assert (Hb1 : bytes_written path (trace w1) = bytes_written path (trace w)).
  { unfold w1. cbn. rewrite bytes_written_app. cbn. lia. }
  assert (Hearly : forall e,
            exists w' r,
              (w1, @Raise string e) = (w', r) /\ db w' = db w
              /\ (bytes_written path (trace w')
                  <= bytes_written path (trace w) + Inbox.max_size)%N).
  { intros e. exists w1, (Raise e). repeat split. lia. }
  destruct (media_stream env u) as [|status_ok content_length chunks broken].
  { apply Hearly. }
  destruct status_ok; [|apply Hearly].
  unfold ret at 1. cbn beta iota.
  destruct (Inbox.check_content_length env content_length) as [[]|e];
    [|apply Hearly].
  destruct (write_stream_spec path chunks broken video_object w1)
    as (w' & r & Hrun & Hdb & Hbytes & _).
  exists w', r. rewrite Hrun. repeat split; [exact Hdb | lia].
Qed.

(** A declared size over the cap: the download fails with the stream
    just opened, before the file is. *)
Lemma download_body_declared_too_large (path u cl : string)
  (video_object : json) (w : World) (status_ok broken : bool)
  (chunks : list N) (n : Z) :
  media_stream env u = Response status_ok (Some cl) chunks broken ->
  PyStr.int (int_max_str_digits env) cl = Some n ->
  (Z.of_N Inbox.max_size < n)%Z ->
  exists e,
    Inbox.download_body env path (JStr u) video_object w
    = (mkWorld (db w) (files w) (trace w ++ [StreamOpened (JStr u)])%list,
       Raise e).
Proof.
  intros Hstream Hint Hn.
  unfold Inbox.download_body, bindM, lift.
  unfold emit at 1. cbn beta iota. rewrite Hstream.
  destruct status_ok.
  2:{ exists HTTPStatusError. reflexivity. }
  unfold ret at 1. cbn beta iota.
  unfold Inbox.check_content_length.
  destruct (String.eqb_spec cl EmptyString) as [->|_].
  { rewrite int_empty in Hint. discriminate. }
  rewrite Hint. cbn [of_option bind].
  destruct (Z.ltb_spec (Z.of_N Inbox.max_size) n); [|lia].
  exists ValueError. reflexivity.
Qed.

(** A body longer than the cap: the download fails, whatever size was
    declared. *)
Lemma download_body_too_long (path u : string) (video_object : json)
  (w : World) (status_ok broken : bool) (content_length : option string)
  (chunks : list N) :
  media_stream env u = Response status_ok content_length chunks broken ->
  (Inbox.max_size < sum_chunks chunks)%N ->
  is_ok (snd (Inbox.download_body env path (JStr u) video_object w)) = false.
Proof.
  intros Hstream Hlong.
  unfold Inbox.download_body, bindM, lift.
  unfold emit at 1. cbn beta iota. rewrite Hstream.
  destruct status_ok; [|reflexivity].
  unfold ret at 1. cbn beta iota.
  destruct (Inbox.check_content_length env content_length) as [[]|e];
    [|reflexivity].
  match goal with
  | |- context [Inbox.write_stream env path chunks broken video_object ?w1] =>
      destruct (write_stream_spec path chunks broken video_object w1)
        as (w' & r & Hrun & _ & _ & Hr)
  end.
  rewrite Hrun. exact (Hr Hlong).
Qed.

(** The caller's side of a failed download: the handler answers 500 and
    stores nothing. *)
Lemma download_failure_reported
  (activity video_obj video_url duration_str : json) (w w1 : World) (e : exn) :
  Py.is_dict activity = true ->
  Inbox.is_new video_obj (db w) = true ->
  Inbox.metadata_ok video_obj = true ->
  Py.get video_obj "url" JNull = Ok video_url ->
  Py.get video_obj "duration" (JStr EmptyString) = Ok duration_str ->
  Inbox.exceeds_limit (Inbox._parse_duration env duration_str) = false ->
  Inbox.download_federated_video env video_url video_obj w = (w1, Raise e) ->
  exists w',
    Inbox._process_federated_video env activity video_obj w
    = (w', Ok (mkResponse 500 "Failed to download video"))
    /\ db w' = db w1 /\ files w' = files w1.
Proof.
  intros Hdict Hnew Hmeta Hurl Hdur Hlim Hdl.
  destruct video_obj as [| | | | |members]; try discriminate Hdur.
  destruct activity as [| | | | |fields]; try discriminate Hdict.
  destruct (Inbox._process_federated_video env (JObj fields) (JObj members) w)
    as [w' r] eqn:H.
  unfold Inbox._process_federated_video in H.
  rewrite Hdur, Hurl in H. unfold_monad H. rewrite Hlim in H.
  unfold Inbox.is_new, Inbox.metadata_ok in Hnew, Hmeta.
  explore_with H ltac:(rewrite Hdl in H); injection H as <- <-;
    try match goal with
        | E : Py.get (JObj _) _ _ = Raise _ |- _ => discriminate E
        end;
    cbn [bind is_ok andb] in Hnew, Hmeta;
    repeat match goal with
           | E : _ = Ok _ |- _ =>
               first [ rewrite E in Hnew | rewrite E in Hmeta ];
               cbn [bind is_ok andb] in Hnew, Hmeta
           | E : _ = Raise _ |- _ =>
               first [ rewrite E in Hnew | rewrite E in Hmeta ];
               cbn [bind is_ok andb] in Hnew, Hmeta
           end;
    try discriminate;
    eexists; repeat split.
Qed.

(** C6. A federated download never leaves more than the cap written
    to its file, and stores nothing in the database; when it fails no
    file is left at its path. A declared Content-Length over the cap
    makes it fail before a byte is written anywhere, and a body longer
    than the cap makes it fail as well, the partial file removed. The
    handler that called it always answers: a failed download is the
    response 500, with nothing stored. *)
Theorem federated_download_capped (video_url video_object : json) (w : World) :
  exists w' r,
    Inbox.download_federated_video env video_url video_object w = (w', r)
    /\ db w' = db w
    /\ (bytes_written (Inbox.download_path env) (trace w')
        <= bytes_written (Inbox.download_path env) (trace w) + Inbox.max_size)%N
    /\ (is_ok r = false -> Os.exists_ (Inbox.download_path env) w' = false)
    /\ (forall u status_ok cl chunks broken n,
          video_url = JStr u ->
          media_stream env u = Response status_ok (Some cl) chunks broken ->
          PyStr.int (int_max_str_digits env) cl = Some n ->
          (Z.of_N Inbox.max_size < n)%Z ->
          is_ok r = false
          /\ forall path, bytes_written path (trace w')
                          = bytes_written path (trace w))
    /\ (forall u status_ok content_length chunks broken,
          video_url = JStr u ->
          media_stream env u = Response status_ok content_length chunks broken ->
          (Inbox.max_size < sum_chunks chunks)%N ->
          is_ok r = false)
    /\ (forall activity w0,
          exists resp,
            snd (Inbox._process_federated_video env activity video_object w0)
            = Ok resp)
    /\ (forall activity duration_str,
          is_ok r = false ->
          Py.is_dict activity = true ->
          Inbox.is_new video_object (db w) = true ->
          Inbox.metadata_ok video_object = true ->
          Py.get video_object "url" JNull = Ok video_url ->
          Py.get video_object "duration" (JStr EmptyString) = Ok duration_str ->
          Inbox.exceeds_limit (Inbox._parse_duration env duration_str) = false ->
          exists w'',
            Inbox._process_federated_video env activity video_object w
            = (w'', Ok (mkResponse 500 "Failed to download video"))
            /\ db w'' = db w
            /\ Os.exists_ (Inbox.download_path env) w'' = false).
Proof.
  set (path := Inbox.download_path env).
  destruct (download_body_bound path video_url video_object w)
    as (w1 & r1 & Hbody & Hdb1 & Hb1).
  assert (Hrun :
    exists w' r,
      Inbox.download_federated_video env video_url video_object w = (w', r)
      /\ db w' = db w
      /\ (bytes_written path (trace w')
          <= bytes_written path (trace w) + Inbox.max_size)%N
      /\ (is_ok r = false -> Os.exists_ path w' = false)
      /\ is_ok r = is_ok r1
      /\ (forall p, bytes_written p (trace w') = bytes_written p (trace w1))).
  { unfold Inbox.download_federated_video, try_except. fold path.
    rewrite Hbody. destruct r1 as [file_path|e].
    - exists w1, (Ok file_path). repeat split; auto. discriminate.
    - destruct (Os.exists_ path w1) eqn:Hex.
      + destruct (remove_spec path w1 Hex) as (w2 & Hrm & Hdb2 & Hgone & Hb2).
        exists w2, (Raise e). unfold bindM. rewrite Hrm. unfold raise.
        repeat split; auto; try congruence.
        intros p. unfold Os.remove in Hrm. rewrite Hex in Hrm.
        injection Hrm as <-. cbn. rewrite bytes_written_app. cbn. lia.
      + exists w1, (Raise e). unfold raise. repeat split; auto. }
  destruct Hrun as (w' & r & Hrun & Hdb & Hbound & Hclean & Hok & Hsame).
  exists w', r. split; [exact Hrun|]. split; [exact Hdb|].
  split; [exact Hbound|]. split; [exact Hclean|].
  split; [|split; [|split]].
  - intros u status_ok cl chunks broken n -> Hstream Hint Hn.
    destruct (download_body_declared_too_large path u cl video_object w
                status_ok broken chunks n Hstream Hint Hn) as [e He].
    rewrite He in Hbody. injection Hbody as <- <-.
    split; [rewrite Hok; reflexivity|].
    intros p. rewrite Hsame. cbn. rewrite bytes_written_app. cbn. lia.
  - intros u status_ok content_length chunks broken -> Hstream Hlong.
    rewrite Hok.
    pose proof (download_body_too_long path u video_object w status_ok broken
                  content_length chunks Hstream Hlong) as H.
    rewrite Hbody in H. exact H.
  - intros activity w0. apply (process_federated_video_answers env).
  - intros activity duration_str Hfail Hdict Hnew Hmeta Hurl Hdur Hlim.
    destruct r as [file_path|e]; [discriminate|].
    destruct (download_failure_reported activity video_object video_url
                duration_str w w' e Hdict Hnew Hmeta Hurl Hdur Hlim Hrun)
      as (w'' & Hresp & Hdb'' & Hfiles'').
    exists w''. split; [exact Hresp|]. split; [congruence|].
    unfold Os.exists_ in *. rewrite Hfiles''. apply Hclean. reflexivity.
Qed.

End Download.

(** ** The inbox: Like and Announce *)





(** ** The inbox: redelivery *)

(** [store_activity] reads the id and type of [object] with [get], which
    a string does not have: an activity whose object is a reference is
    never stored. *)
Lemma store_activity_reference_not_stored {L : Libs} (env : Env)
  (activity : json) (reference : string) (is_local : bool) (w : World) :
  Py.get activity "object" (JObj []) = Ok (JStr reference) ->
  Service.store_activity env activity is_local w = (w, Ok None).
Proof.
  intros Hobj. unfold Service.store_activity, try_except, bindM, get_db, lift,
    Service.activity_record.
  cbn beta iota.
  destruct (Py.get activity "id" (JStr EmptyString)); [|reflexivity].
  destruct (Py.get activity "type" (JStr EmptyString)); [|reflexivity].
  destruct (Py.get activity "actor" (JStr EmptyString)); [|reflexivity].
  cbn [bind]. rewrite Hobj. reflexivity.
Qed.






Section Redelivery.

Context {L : Libs}.
Variable env : Env.






Lemma parse_activity_same (activity parsed_activity : json) :
  Service.parse_activity activity = Some parsed_activity ->
  parsed_activity = activity.
Proof.
  unfold Service.parse_activity.
  destruct activity as [| | | | |d]; try discriminate.
  destruct (negb _); [discriminate|].
  destruct (Py.assoc "type" d) as [[| | |t| |]|]; try discriminate.
  destruct (existsb _ _); [|discriminate].
  intros H. now injection H as <-.
Qed.



End Redelivery.



(** The Like of the examples names its target by reference. It is
    delivered twice with a valid signature: both deliveries are answered
    "Like processed", the like counter of the video ends at 2, and no
    Activity row is stored for it. The same Like with its target given
    as an object is applied once, stored once and answered "Like already
    processed" the second time. *)
Lemma like_by_reference_applied_twice :
  snd Run.liked_once = Ok (mkResponse 200 "Like processed")
  /\ snd Run.liked_twice = Ok (mkResponse 200 "Like processed")
  /\ map VideoPost.like_count (video_posts (db (fst Run.liked_twice))) = [2%Z]
  /\ activities (db (fst Run.liked_twice)) = activities Example.database
  /\ snd Run.liked_object_twice = Ok (mkResponse 200 "Like already processed")
  /\ map VideoPost.like_count (video_posts (db (fst Run.liked_object_twice)))
     = [1%Z]
  /\ map Activity.activity_id (activities (db (fst Run.liked_object_twice)))
     = [ "https://civic.example/activities/7";
         "https://remote.example/activities/1" ].
Proof.
  vm_compute. repeat split; reflexivity.
Qed.

(** ** The model at work on concrete inputs *)

Example int_literals :
  PyStr.int 4300 "180" = Some 180%Z /\ PyStr.int 4300 " 1_000 " = Some 1000%Z
  /\ PyStr.int 4300 "-5" = Some (-5)%Z /\ PyStr.int 4300 "1__0" = None
  /\ PyStr.int 4300 "2M" = None /\ PyStr.int 4300 EmptyString = None
  /\ PyStr.int 2 "123" = None /\ PyStr.int 0 "123" = Some 123%Z.
Proof. repeat split; reflexivity. Qed.

Example durations :
  Inbox._parse_duration Example.env (JStr "PT180S") = Some 180%Z
  /\ is_pt_digits_s "PT180S" = true
  /\ Inbox.exceeds_limit (Inbox._parse_duration Example.env (JStr "PT180S")) = false
  /\ Inbox.exceeds_limit (Inbox._parse_duration Example.env (JStr "PT181S")) = true.
Proof. repeat split; reflexivity. Qed.

(** A server that declares 600 MB, and one that declares nothing and
    sends one byte more than the cap: both downloads fail and leave no
    file. *)
Example downloads_over_the_cap :
  let declares := mkEnv (fun _ => None)
                    (fun _ => Response true (Some "600000000") [8192%N] false)
                    "20261103_100000" 0 4300 in
  let overruns := mkEnv (fun _ => None)
                    (fun _ => Response true None [524288000%N; 1%N] false)
                    "20261103_100000" 0 4300 in
  let url := JStr "https://remote.example/media/2.mp4" in
  Inbox.download_federated_video declares url (JObj [])
    Example.world
  = (mkWorld Example.database [] [StreamOpened url], Raise ValueError)
  /\ Inbox.download_federated_video overruns url (JObj [])
       Example.world
     = (mkWorld Example.database []
          [ StreamOpened url;
            FileOpened "uploads/federated/federated_20261103_100000.mp4";
            FileWritten "uploads/federated/federated_20261103_100000.mp4"
              524288000;
            FileRemoved "uploads/federated/federated_20261103_100000.mp4" ],
        Raise ValueError).
Proof. split; reflexivity. Qed.

(** A small download succeeds and the video is accepted. *)
Example video_accepted :
  snd (Inbox.process_create_activity (L := Toy.libs) Example.env
         (Example.create_video "https://remote.example/videos/2" "PT60S")
         Example.world)
  = Ok (mkResponse 202 "Video accepted for processing").
Proof. reflexivity. Qed.

(** * Further properties of the code *)

(** ** The outbox: fan-out, statistics and sweeps *)

Section OutboxCoverage.

Context {L : Libs}.
Variable instance_url : string.

Import DeliveryRecord.

Lemma new_records_spec (aid : Z) (inbox_urls : list string) (now next : Z) :
  map inbox_url (Outbox.new_records aid inbox_urls now next) = inbox_urls
  /\ Forall (fun r => activity_id r = aid /\ status r = "pending"
                      /\ attempts r = 0%Z /\ next_retry_at r = Some now
                      /\ (next <= id r)%Z)
       (Outbox.new_records aid inbox_urls now next)
  /\ NoDup (map id (Outbox.new_records aid inbox_urls now next)).
Proof.
  revert next. induction inbox_urls as [|u us IH]; intros next; cbn.
  - repeat split; constructor.
  - destruct (IH (next + 1)%Z) as (Hm & Hf & Hn).
    split; [now rewrite Hm|]. split.
    + constructor; [cbn; repeat split; lia|].
      eapply Forall_impl; [|exact Hf]. cbn. intros r H. intuition lia.
    + constructor; [|exact Hn].
      intros Hin. apply in_map_iff in Hin. destruct Hin as (r & Hid & Hr).
      rewrite Forall_forall in Hf. specialize (Hf r Hr). lia.
Qed.







Lemma replace_record_ids (r' : DeliveryRecord.t) (d : DB) :
  map id (delivery_records (Outbox.replace_record r' d))
  = map id (delivery_records d).
Proof.
  unfold Outbox.replace_record. cbn. rewrite map_map.
  apply map_ext_in. intros x _.
  destruct (Z.eqb_spec (id x) (id r')); congruence.
Qed.

Lemma replace_record_other (r r' : DeliveryRecord.t) (d : DB) :
  In r (delivery_records d) -> id r <> id r' ->
  In r (delivery_records (Outbox.replace_record r' d)).
Proof.
  intros Hin Hne. unfold Outbox.replace_record. cbn.
  apply in_map_iff. exists r. split; [|exact Hin].
  destruct (Z.eqb_spec (id r) (id r')); congruence.
Qed.

Lemma process_delivery_record_other (env : DeliveryEnv) (d : DB)
  (r0 r : DeliveryRecord.t) :
  In r (delivery_records d) -> id r <> id r0 ->
  In r (delivery_records
          (fst (fst (Outbox.process_delivery_record instance_url env d r0))))
  /\ map id (delivery_records
               (fst (fst (Outbox.process_delivery_record instance_url env d r0))))
     = map id (delivery_records d).
Proof.
  intros Hin Hne. unfold Outbox.process_delivery_record.
  destruct (Outbox.process_body instance_url env d r0) as [[r' b]|] eqn:Hb;
    cbn [fst]; [|split; [exact Hin | reflexivity]].
  destruct (process_body_status instance_url _ _ _ _ _ Hb) as (Hid & _).
  split; [|apply replace_record_ids].
  apply replace_record_other; [exact Hin | congruence].
Qed.

Lemma process_delivery_record_ids (env : DeliveryEnv) (d : DB)
  (r0 : DeliveryRecord.t) :
  map id (delivery_records
            (fst (fst (Outbox.process_delivery_record instance_url env d r0))))
  = map id (delivery_records d).
Proof.
  unfold Outbox.process_delivery_record.
  destruct (Outbox.process_body instance_url env d r0) as [[r' b]|];
    cbn [fst]; [apply replace_record_ids | reflexivity].
Qed.

Lemma sweep_fold_spec (env_of : Z -> DeliveryEnv)
  (selected : list DeliveryRecord.t) (d : DB) (n : nat) :
  let out :=
    fold_left
      (fun acc r =>
         let '(d', _, _) :=
           Outbox.process_delivery_record instance_url (env_of (id r))
             (fst acc) r in
         (d', S (snd acc)))
      selected (d, n) in
  snd out = (n + length selected)%nat
  /\ map id (delivery_records (fst out)) = map id (delivery_records d)
  /\ forall r, In r (delivery_records d) ->
               ~ In (id r) (map id selected) ->
               In r (delivery_records (fst out)).
Proof.
  revert d n. induction selected as [|r0 rs IH]; intros d n; cbn [fold_left].
  - cbn. repeat split; auto.
  - cbn [fst snd].
    pose proof (process_delivery_record_ids (env_of (id r0)) d r0) as Hids.
    pose proof (fun r => process_delivery_record_other (env_of (id r0)) d r0 r)
      as Hother.
    destruct (Outbox.process_delivery_record instance_url (env_of (id r0)) d r0)
      as [[d1 r1] b]. cbn [fst] in Hids, Hother.
    destruct (IH d1 (S n)) as (Hn & Hi & Hr). cbn zeta in *.
    split; [rewrite Hn; cbn; lia|]. split; [congruence|].
    intros r Hin Hsel. apply Hr.
    + apply Hother; [exact Hin|]. intros Heq. apply Hsel. cbn. now left.
    + intros H. apply Hsel. cbn. now right.
Qed.

Lemma NoDup_map_id_inj (l : list DeliveryRecord.t) (x y : DeliveryRecord.t) :
  NoDup (map id l) -> In x l -> In y l -> id x = id y -> x = y.
Proof.
  induction l as [|a l IH]; cbn; [tauto|].
  intros Hnd [-> | Hx] [-> | Hy] Heq; inversion Hnd as [|? ? Hnot Hnd']; subst.
  - reflexivity.
  - exfalso. apply Hnot. rewrite Heq. now apply in_map.
  - exfalso. apply Hnot. rewrite <- Heq. now apply in_map.
  - now apply IH.
Qed.

(** X3. A sweep of [process_pending_deliveries] processes the first
    [batch_size] records that are pending and due, and returns their
    number. With record ids unique, as a primary key is, every other
    record (delivered, failed, not yet due, or beyond the batch) is in
    the database after the sweep exactly as it was before, and no
    record is added or removed. *)
Theorem sweep_leaves_the_rest (env_of : Z -> DeliveryEnv) (now : Z)
  (batch_size : nat) (d : DB) :
  NoDup (map id (delivery_records d)) ->
  let selected :=
    firstn batch_size (filter (Outbox.is_due now) (delivery_records d)) in
  let out :=
    Outbox.process_pending_deliveries instance_url env_of now batch_size d in
  snd out
  = Nat.min batch_size
      (length (filter (Outbox.is_due now) (delivery_records d)))
  /\ map id (delivery_records (fst out)) = map id (delivery_records d)
  /\ forall r, In r (delivery_records d) -> ~ In r selected ->
               In r (delivery_records (fst out)).
Proof.
  intros Hnd selected out.
  destruct (sweep_fold_spec env_of selected d O) as (Hn & Hi & Hr).
  subst out. unfold Outbox.process_pending_deliveries. fold selected.
  split; [|split; [exact Hi|]].
  - rewrite Hn. subst selected. rewrite length_firstn. reflexivity.
  - intros r Hin Hsel. apply Hr; [exact Hin|].
    intros H. apply in_map_iff in H. destruct H as (x & Hid & Hx).
    apply Hsel.
    assert (Hxin : In x (delivery_records d)).
    { assert (H : In x (filter (Outbox.is_due now) (delivery_records d))).
      { rewrite <- (firstn_skipn batch_size). apply in_or_app. now left. }
      apply filter_In in H. tauto. }
    rewrite <- (NoDup_map_id_inj _ x r Hnd Hxin Hin Hid). exact Hx.
Qed.

Lemma record_attempt_pending (env : DeliveryEnv) (success : bool)
  (msg : option string) (r r' : DeliveryRecord.t) :
  Outbox.record_attempt env success msg r = Ok r' ->
  status r' = "pending" ->
  status r = "pending" /\ attempts r' = (attempts r + 1)%Z
  /\ (attempts r' < Outbox.max_attempts)%Z.
Proof.
  unfold Outbox.record_attempt. intros H Hs.
  destruct success.
  - injection H as <-. discriminate Hs.
  - destruct (Z.leb_spec Outbox.max_attempts (attempts r + 1)).
    + injection H as <-. discriminate Hs.
    + destruct (Outbox.index _ _); cbn in H; [|discriminate].
      injection H as <-. cbn in *. auto.
Qed.

Lemma process_body_pending (env : DeliveryEnv) (d : DB)
  (r r' : DeliveryRecord.t) (b : bool) :
  Outbox.process_body instance_url env d r = Ok (r', b) ->
  Outbox.pending_in_range r -> Outbox.pending_in_range r'.
Proof.
  unfold Outbox.process_body, Outbox.pending_in_range. intros H Hr Hs.
  destruct (find _ (activities d)) as [activity|].
  2:{ injection H as <- <-. discriminate Hs. }
  destruct (find _ (users d)) as [user|].
  2:{ injection H as <- <-. discriminate Hs. }
  destruct (find _ (did_documents d)) as [did_document|].
  2:{ injection H as <- <-. discriminate Hs. }
  destruct (ActivityPub.sign_activity _ _ _ _ _) as [header|]; [|discriminate].
  cbn [bind] in H.
  destruct (Outbox.deliver_activity _ _ _ _) as [success msg].
  destruct (Outbox.record_attempt env success msg r) as [r1|] eqn:Hr1;
    [|discriminate].
  cbn [bind] in H. injection H as <- <-.
  destruct (record_attempt_pending _ _ _ _ _ Hr1 Hs) as (Hp & Ha & Hlt).
  specialize (Hr Hp). lia.
Qed.

Lemma process_delivery_record_pending (env : DeliveryEnv) (d : DB)
  (r : DeliveryRecord.t) :
  Outbox.pending_in_range r ->
  Forall Outbox.pending_in_range (delivery_records d) ->
  Forall Outbox.pending_in_range
    (delivery_records
       (fst (fst (Outbox.process_delivery_record instance_url env d r)))).
Proof.
  intros Hr Hd. unfold Outbox.process_delivery_record.
  destruct (Outbox.process_body instance_url env d r) as [[r' b]|] eqn:Hb;
    cbn [fst]; [|exact Hd].
  pose proof (process_body_pending _ _ _ _ _ Hb Hr) as Hr'.
  unfold Outbox.replace_record. cbn.
  induction Hd as [|x l Hx Hl IH]; cbn; constructor; auto.
  destruct (id x =? id r')%Z; assumption.
Qed.

Lemma sweep_pending (env_of : Z -> DeliveryEnv)
  (selected : list DeliveryRecord.t) (d : DB) (n : nat) :
  Forall Outbox.pending_in_range selected ->
  Forall Outbox.pending_in_range (delivery_records d) ->
  Forall Outbox.pending_in_range
    (delivery_records
       (fst (fold_left
               (fun acc r =>
                  let '(d', _, _) :=
                    Outbox.process_delivery_record instance_url
                      (env_of (id r)) (fst acc) r in
                  (d', S (snd acc)))
               selected (d, n)))).
Proof.
  intros Hp. revert d n.
  induction Hp as [|r rs Hr Hrs IH]; intros d n Hd; cbn [fold_left]; [exact Hd|].
  pose proof (process_delivery_record_pending (env_of (id r)) d r Hr Hd) as H.
  cbn [fst snd].
  destruct (Outbox.process_delivery_record instance_url (env_of (id r)) d r)
    as [[d' r'] b].
  apply IH. exact H.
Qed.

(** X4. In every database the outbox handler has produced, a pending
    record has been attempted at least 0 and at most 4 times. On such a
    record the step that counts an attempt cannot fail: the position it
    reads in the table of retry delays exists. *)
Theorem pending_attempts_in_range (d : DB) :
  Outbox.reachable instance_url d ->
  forall r, In r (delivery_records d) -> status r = "pending" ->
    (0 <= attempts r < Outbox.DELIVERY_RETRY_ATTEMPTS)%Z
    /\ forall env success msg,
         exists r', Outbox.record_attempt env success msg r = Ok r'.
Proof.
  intros Hreach.
  assert (Hall : Forall Outbox.pending_in_range (delivery_records d)).
  { induction Hreach as [d Hd | d d' _ IH Heq | d now activity inbox_urls _ IH
                        | d env r _ IH Hin | d env_of now batch_size _ IH].
    - rewrite Hd. constructor.
    - rewrite Heq. exact IH.
    - cbn. apply Forall_app. split; [exact IH|].
      destruct (new_records_spec (Activity.id activity) inbox_urls now
                  (next_id id (delivery_records d))) as (_ & Hf & _).
      eapply Forall_impl; [|exact Hf]. cbn beta.
      intros r (_ & _ & Ha & _) _. rewrite Ha.
      unfold Outbox.max_attempts, Outbox.DELIVERY_RETRY_ATTEMPTS. lia.
    - apply process_delivery_record_pending; [|exact IH].
      rewrite Forall_forall in IH. auto.
    - unfold Outbox.process_pending_deliveries.
      apply sweep_pending; [|exact IH].
      rewrite Forall_forall in *. intros x Hx. apply IH.
      assert (Hin : In x (filter (Outbox.is_due now) (delivery_records d))).
      { rewrite <- (firstn_skipn batch_size). apply in_or_app. now left. }
      apply filter_In in Hin. tauto. }
  intros r Hin Hs. rewrite Forall_forall in Hall.
  pose proof (Hall r Hin Hs) as Hr.
  unfold Outbox.max_attempts in Hr. split; [exact Hr|].
  intros env success msg. unfold Outbox.record_attempt.
  destruct success; [eexists; reflexivity|].
  destruct (Outbox.max_attempts <=? attempts r + 1)%Z eqn:Hmax;
    [eexists; reflexivity|].
  apply Z.leb_gt in Hmax.
  unfold Outbox.max_attempts, Outbox.DELIVERY_RETRY_ATTEMPTS in *.
  assert (Hcases : attempts r = 0%Z \/ attempts r = 1%Z \/ attempts r = 2%Z
                   \/ attempts r = 3%Z) by lia.
  destruct Hcases as [-> | [-> | [-> | ->]]]; eexists; reflexivity.
Qed.

Lemma process_delivery_record_tables (env : DeliveryEnv) (d : DB)
  (r : DeliveryRecord.t) :
  let d' := fst (fst (Outbox.process_delivery_record instance_url env d r)) in
  activities d' = activities d /\ users d' = users d
  /\ did_documents d' = did_documents d /\ followers d' = followers d
  /\ video_posts d' = video_posts d /\ comments d' = comments d.
Proof.
  unfold Outbox.process_delivery_record.
  destruct (Outbox.process_body instance_url env d r) as [[r' b]|]; cbn;
    repeat split; reflexivity.
Qed.

(** A record whose signing key cannot be loaded: the activity, the user
    and the DID document are found, and [load_pem_private_key] fails on
    the stored key. *)
Lemma unloadable_key_rolls_back (env : DeliveryEnv) (d : DB)
  (r : DeliveryRecord.t) (activity : Activity.t) (user : User.t)
  (did_document : DIDDocument.t) :
  find (fun a => Z.eqb (Activity.id a) (activity_id r)) (activities d)
  = Some activity ->
  find (fun u => String.eqb (User.username u)
                   (Outbox.last_segment (Activity.actor activity))) (users d)
  = Some user ->
  find (fun x => Z.eqb (DIDDocument.user_id x) (User.id user))
    (did_documents d) = Some did_document ->
  load_pem_private_key (DIDDocument.encrypted_private_key did_document)
  = None ->
  Outbox.process_delivery_record instance_url env d r = (d, r, false).
Proof.
  intros Ha Hu Hd Hkey.
  unfold Outbox.process_delivery_record, Outbox.process_body.
  rewrite Ha, Hu, Hd.
  unfold ActivityPub.sign_activity. rewrite Hkey. reflexivity.
Qed.

(** X5. When the key stored for the signing user cannot be loaded,
    [sign_activity] raises inside [process_delivery_record], which
    rolls back and returns [False]: the attempt is not counted. Such a
    record is never given up: after any number of sweeps, whatever the
    remote inboxes answer, it is in the database exactly as it was, so a
    record that was pending with no attempts stays pending with no
    attempts. *)
Theorem unloadable_key_never_settles
  (sweeps : list ((Z -> DeliveryEnv) * Z * nat)) (d : DB)
  (r : DeliveryRecord.t) (activity : Activity.t) (user : User.t)
  (did_document : DIDDocument.t) :
  NoDup (map id (delivery_records d)) ->
  In r (delivery_records d) ->
  find (fun a => Z.eqb (Activity.id a) (activity_id r)) (activities d)
  = Some activity ->
  find (fun u => String.eqb (User.username u)
                   (Outbox.last_segment (Activity.actor activity))) (users d)
  = Some user ->
  find (fun x => Z.eqb (DIDDocument.user_id x) (User.id user))
    (did_documents d) = Some did_document ->
  load_pem_private_key (DIDDocument.encrypted_private_key did_document)
  = None ->
  (forall env, Outbox.process_delivery_record instance_url env d r
               = (d, r, false))
  /\ In r (delivery_records
             (fold_left
                (fun d1 sweep =>
                   let '(env_of, now, batch_size) := sweep in
                   fst (Outbox.process_pending_deliveries instance_url env_of
                          now batch_size d1))
                sweeps d)).
Proof.
  intros Hnd Hin Ha Hu Hd Hkey.
  split.
  { intros env. now apply (unloadable_key_rolls_back env d r activity user
                             did_document). }
  assert (Hstep : forall env_of selected d1 n,
             activities d1 = activities d -> users d1 = users d ->
             did_documents d1 = did_documents d ->
             In r (delivery_records d1) ->
             (forall p, In p selected -> id p = id r -> p = r) ->
             let out :=
               fold_left
                 (fun acc r0 =>
                    let '(d', _, _) :=
                      Outbox.process_delivery_record instance_url
                        (env_of (id r0)) (fst acc) r0 in
                    (d', S (snd acc)))
                 selected (d1, n) in
             activities (fst out) = activities d /\ users (fst out) = users d
             /\ did_documents (fst out) = did_documents d
             /\ In r (delivery_records (fst out))
             /\ map id (delivery_records (fst out))
                = map id (delivery_records d1)).
  { intros env_of selected.
    induction selected as [|p ps IH]; intros d1 n H1 H2 H3 H4 Hsel;
      cbn [fold_left].
    - cbn. auto.
    - cbn [fst snd].
      destruct (process_delivery_record_tables (env_of (id p)) d1 p)
        as (T1 & T2 & T3 & _).
      pose proof (process_delivery_record_ids (env_of (id p)) d1 p) as Hids.
      assert (Hr : In r (delivery_records
                           (fst (fst (Outbox.process_delivery_record
                                        instance_url (env_of (id p)) d1 p))))).
      { destruct (Z.eq_dec (id p) (id r)) as [Heq|Hne].
        - rewrite (Hsel p (or_introl eq_refl) Heq).
          rewrite (unloadable_key_rolls_back (env_of (id r)) d1 r activity
                     user did_document); [exact H4 | | | | exact Hkey].
          + now rewrite H1.
          + now rewrite H2.
          + now rewrite H3.
        - apply process_delivery_record_other; [exact H4 | congruence]. }
      destruct (Outbox.process_delivery_record instance_url (env_of (id p)) d1 p)
        as [[d2 p'] b]. cbn [fst] in *.
      assert (IHr := IH d2 (S n) ltac:(congruence) ltac:(congruence)
                       ltac:(congruence) Hr
                       (fun q Hq => Hsel q (or_intror Hq))).
      cbn zeta in IHr. destruct IHr as (I1 & I2 & I3 & I4 & I5).
      repeat split; congruence. }
  assert (Hsweeps : forall d1,
             activities d1 = activities d -> users d1 = users d ->
             did_documents d1 = did_documents d ->
             NoDup (map id (delivery_records d1)) ->
             In r (delivery_records d1) ->
             In r (delivery_records
                     (fold_left
                        (fun d1 sweep =>
                           let '(env_of, now, batch_size) := sweep in
                           fst (Outbox.process_pending_deliveries instance_url
                                  env_of now batch_size d1))
                        sweeps d1))).
  { induction sweeps as [|[[env_of now] batch_size] rest IH];
      intros d1 H1 H2 H3 Hnd1 Hin1; cbn [fold_left]; [exact Hin1|].
    unfold Outbox.process_pending_deliveries at 2.
    assert (Hsel : forall p,
               In p (firstn batch_size
                       (filter (Outbox.is_due now) (delivery_records d1))) ->
               id p = id r -> p = r).
    { intros p Hp Hid. apply (NoDup_map_id_inj _ p r Hnd1); auto.
      assert (H : In p (filter (Outbox.is_due now) (delivery_records d1))).
      { rewrite <- (firstn_skipn batch_size). apply in_or_app. now left. }
      apply filter_In in H. tauto. }
    assert (Hs := Hstep env_of _ d1 O H1 H2 H3 Hin1 Hsel).
    cbn zeta in Hs. destruct Hs as (I1 & I2 & I3 & I4 & I5).
    apply IH; try assumption. now rewrite I5. }
  apply Hsweeps; auto.
Qed.

End OutboxCoverage.

(** Witness of X3: one sweep over the database of the examples after
    the fan-out, with the remote inbox up. *)
Lemma sweep_leaves_the_rest_witness :
  NoDup (map DeliveryRecord.id (delivery_records Run.fanned_out))
  /\ snd (Outbox.process_pending_deliveries (L := Toy.libs)
            Example.instance_url (fun _ => Example.inbox_up 10) 0 100
            Run.fanned_out) = 1%nat.
Proof.
  assert (Hnd : NoDup (map DeliveryRecord.id (delivery_records Run.fanned_out))).
  { cbn. constructor; [intros [] | constructor]. }
  split; [exact Hnd|].
  destruct (sweep_leaves_the_rest (L := Toy.libs) Example.instance_url
              (fun _ => Example.inbox_up 10) 0 100 Run.fanned_out Hnd)
    as (Hn & _).
  rewrite Hn. reflexivity.
Defined.

(** Witness of X4: the record of the examples after the fan-out. *)
Lemma pending_attempts_in_range_witness :
  Outbox.reachable (L := Toy.libs) Example.instance_url Run.fanned_out
  /\ In Example.pending_record (delivery_records Run.fanned_out)
  /\ (0 <= DeliveryRecord.attempts Example.pending_record
      < Outbox.DELIVERY_RETRY_ATTEMPTS)%Z.
Proof.
  assert (Hreach : Outbox.reachable (L := Toy.libs) Example.instance_url
                     Run.fanned_out).
  { apply Outbox.reach_create. apply Outbox.reach_init. reflexivity. }
  assert (Hin : In Example.pending_record (delivery_records Run.fanned_out)).
  { left. reflexivity. }
  split; [exact Hreach|]. split; [exact Hin|].
  apply (pending_attempts_in_range (L := Toy.libs) Example.instance_url
           Run.fanned_out Hreach Example.pending_record Hin eq_refl).
Defined.

(** Witness of X5: the waiting record of the database that keeps the
    encrypted key, over two sweeps, the remote inbox up. *)
Lemma unloadable_key_never_settles_witness :
  In Example.pending_record
    (delivery_records
       (fold_left
          (fun d1 sweep =>
             let '(env_of, now, batch_size) := sweep in
             fst (Outbox.process_pending_deliveries (L := Toy.libs)
                    Example.instance_url env_of now batch_size d1))
          [ (fun _ => Example.inbox_up 10, 10%Z, 100%nat);
            (fun _ => Example.inbox_up 20, 20%Z, 100%nat) ]
          Example.encrypted_key_database)).
Proof.
  apply (unloadable_key_never_settles (L := Toy.libs) Example.instance_url
           [ (fun _ => Example.inbox_up 10, 10%Z, 100%nat);
             (fun _ => Example.inbox_up 20, 20%Z, 100%nat) ]
           Example.encrypted_key_database Example.pending_record
           Example.published (User.mk 1 "alice")
           (DIDDocument.mk 1 1 Example.alice_did "K" "c2FsdG5vbmNlY2lwaGVy"
              Example.instance_url None None)).
  - cbn. constructor; [intros [] | constructor].
  - left. reflexivity.
  - reflexivity.
  - reflexivity.
  - reflexivity.
  - reflexivity.
Defined.

(** ** The inbox: answers and authentication *)

Section InboxAnswers.

Context {L : Libs}.
Variable env : Env.

Ltac answered H :=
  unfold_monad H; explore H; injection H as <- <-;
  eexists; eexists; (split; [reflexivity|]); cbn; tauto.

Lemma federated_video_status (activity video_obj : json) (w : World) :
  exists w' resp,
    Inbox._process_federated_video env activity video_obj w = (w', Ok resp)
    /\ In (status resp) [200; 202; 400; 500]%Z.
Proof.
  destruct (Inbox._process_federated_video env activity video_obj w)
    as [w' r] eqn:H.
  unfold Inbox._process_federated_video in H. answered H.
Qed.

Lemma federated_comment_status (activity note_obj : json) (w : World) :
  exists w' resp,
    Inbox._process_federated_comment activity note_obj w = (w', Ok resp)
    /\ In (status resp) [200; 400; 404; 500]%Z.
Proof.
  destruct (Inbox._process_federated_comment activity note_obj w)
    as [w' r] eqn:H.
  unfold Inbox._process_federated_comment in H. answered H.
Qed.

Lemma create_status (activity : json) (w : World) :
  exists w' resp,
    Inbox.process_create_activity env activity w = (w', Ok resp)
    /\ In (status resp) [200; 202; 400; 404; 500]%Z.
Proof.
  destruct (Inbox.process_create_activity env activity w) as [w' r] eqn:H.
  unfold Inbox.process_create_activity in H. unfold_monad H.
  explore_with H
    ltac:(idtac;
          match type of H with
          | context [Inbox._process_federated_video env ?a ?o ?w0] =>
              let w1 := fresh "w" in
              let resp := fresh "resp" in
              let E := fresh "E" in
              let Hs := fresh "Hs" in
              destruct (federated_video_status a o w0) as (w1 & resp & E & Hs);
              rewrite E in H
          | context [Inbox._process_federated_comment ?a ?o ?w0] =>
              let w1 := fresh "w" in
              let resp := fresh "resp" in
              let E := fresh "E" in
              let Hs := fresh "Hs" in
              destruct (federated_comment_status a o w0)
                as (w1 & resp & E & Hs);
              rewrite E in H
          end);
    injection H as <- <-; eexists; eexists; (split; [reflexivity|]);
    cbn in *; tauto.
Qed.

Lemma like_status (activity : json) (w : World) :
  exists w' resp,
    Inbox.process_like_activity activity w = (w', Ok resp)
    /\ In (status resp) [200; 404; 500]%Z.
Proof.
  destruct (Inbox.process_like_activity activity w) as [w' r] eqn:H.
  unfold Inbox.process_like_activity in H. answered H.
Qed.

Lemma announce_status (activity : json) (w : World) :
  exists w' resp,
    Inbox.process_announce_activity activity w = (w', Ok resp)
    /\ In (status resp) [200; 404; 500]%Z.
Proof.
  destruct (Inbox.process_announce_activity activity w) as [w' r] eqn:H.
  unfold Inbox.process_announce_activity in H. answered H.
Qed.

Lemma delete_status (activity : json) (w : World) :
  exists w' resp,
    Inbox.process_delete_activity activity w = (w', Ok resp)
    /\ In (status resp) [200; 404; 500]%Z.
Proof.
  destruct (Inbox.process_delete_activity activity w) as [w' r] eqn:H.
  unfold Inbox.process_delete_activity in H. answered H.
Qed.

Lemma move_status (activity : json) (w : World) :
  exists w' resp,
    Inbox.process_move_activity activity w = (w', Ok resp)
    /\ In (status resp) [200; 400; 500]%Z.
Proof.
  destruct (Inbox.process_move_activity activity w) as [w' r] eqn:H.
  unfold Inbox.process_move_activity in H. unfold_monad H.
  explore_with H
    ltac:(idtac;
          match type of H with
          | context [Inbox.followers_unique ?l] =>
              destruct (Inbox.followers_unique l) eqn:?
          end);
    injection H as <- <-; eexists; eexists; (split; [reflexivity|]);
    cbn; tauto.
Qed.

Lemma store_activity_returns (activity : json) (is_local : bool) (w : World) :
  exists w' stored,
    Service.store_activity env activity is_local w = (w', Ok stored).
Proof.
  destruct (Service.store_activity env activity is_local w) as [w' r] eqn:H.
  unfold Service.store_activity in H. unfold_monad H.
  explore H; injection H as <- <-; eexists; eexists; reflexivity.
Qed.

Lemma dispatch_status (activity : json) (w : World) :
  exists w' r,
    Inbox.dispatch env activity w = (w', r)
    /\ match r with
       | Ok resp => In (status resp) [200; 202; 400; 404; 500]%Z
       | Raise _ => Py.is_dict activity = false
       end.
Proof.
  assert (Hstore : forall (m : M response) (allowed : list Z),
             (forall w0, exists w1 resp,
                 m w0 = (w1, Ok resp) /\ In (status resp) allowed) ->
             incl allowed [200; 202; 400; 404; 500]%Z ->
             exists w' resp,
               (result <-- m ;;
                Service.store_activity env activity false ;;; ret result) w
               = (w', Ok resp)
               /\ In (status resp) [200; 202; 400; 404; 500]%Z).
  { intros m allowed Hm Hincl. destruct (Hm w) as (w1 & resp & E & Hs).
    destruct (store_activity_returns activity false w1) as (w2 & stored & E2).
    exists w2, resp. unfold bindM. rewrite E, E2. split; [reflexivity|].
    now apply Hincl. }
  unfold Inbox.dispatch, Inbox.route.
  destruct activity as [| | | | |fields];
    try (eexists; eexists; split; [reflexivity | reflexivity]).
  cbn [Py.get].
  destruct (Service.eq_str _ "Create").
  { destruct (Hstore (Inbox.process_create_activity env (JObj fields))
                [200; 202; 400; 404; 500]%Z) as (w' & resp & E & Hs);
      [intros w0; apply create_status | apply incl_refl |].
    exists w', (Ok resp). split; assumption. }
  destruct (Service.eq_str _ "Like").
  { destruct (Hstore (Inbox.process_like_activity (JObj fields))
                [200; 404; 500]%Z) as (w' & resp & E & Hs);
      [intros w0; apply like_status | intros x Hx; cbn in *; tauto |].
    exists w', (Ok resp). split; assumption. }
  destruct (Service.eq_str _ "Announce").
  { destruct (Hstore (Inbox.process_announce_activity (JObj fields))
                [200; 404; 500]%Z) as (w' & resp & E & Hs);
      [intros w0; apply announce_status | intros x Hx; cbn in *; tauto |].
    exists w', (Ok resp). split; assumption. }
  destruct (Service.eq_str _ "Delete").
  { destruct (Hstore (Inbox.process_delete_activity (JObj fields))
                [200; 404; 500]%Z) as (w' & resp & E & Hs);
      [intros w0; apply delete_status | intros x Hx; cbn in *; tauto |].
    exists w', (Ok resp). split; assumption. }
  destruct (Service.eq_str _ "Move").
  { destruct (Hstore (Inbox.process_move_activity (JObj fields))
                [200; 400; 500]%Z) as (w' & resp & E & Hs);
      [intros w0; apply move_status | intros x Hx; cbn in *; tauto |].
    exists w', (Ok resp). split; assumption. }
  eexists. eexists. split; [reflexivity|]. cbn. tauto.
Qed.

Lemma handle_activity_answers (activity : json)
  (signature request_target host date digest : string) (w : World) :
  exists w' resp,
    Inbox.handle_activity env activity signature request_target host date
      digest w = (w', Ok resp)
    /\ In (status resp) [200; 202; 400; 401; 404; 500]%Z.
Proof.
  destruct (Inbox.handle_activity env activity signature request_target host
              date digest w) as [w' r] eqn:H.
  unfold Inbox.handle_activity, Inbox._fetch_actor_public_key in H.
  unfold_monad H.
  explore_with H
    ltac:(idtac;
          match type of H with
          | context [Inbox.dispatch env ?a ?w0] =>
              let w1 := fresh "w" in
              let r1 := fresh "r" in
              let E := fresh "E" in
              let Hs := fresh "Hs" in
              destruct (dispatch_status a w0) as (w1 & r1 & E & Hs);
              rewrite E in H
          end);
    injection H as <- <-; eexists; eexists; (split; [reflexivity|]);
    cbn in *; tauto.
Qed.

Lemma handle_activity_gate (activity : json)
  (signature request_target host date digest : string) (w : World) :
  let out :=
    Inbox.handle_activity env activity signature request_target host date
      digest w in
  (exists actor_url public_key,
      Py.get activity "actor" JNull = Ok actor_url
      /\ Py.truthy actor_url = true
      /\ snd (Inbox._fetch_actor_public_key env actor_url w)
         = Ok (Some public_key)
      /\ Inbox.signature_is_valid signature request_target host date digest
           public_key = true
      /\ Service.parse_activity activity = Some activity
      /\ Service.validate_activity_schema activity = true)
  \/ (quiet w (fst out)
      /\ exists resp, snd out = Ok resp /\ In (status resp) [400; 401; 500]%Z).
Proof.
  intros out. subst out.
  destruct (Inbox.handle_activity env activity signature request_target host
              date digest w) as [w' r] eqn:H.
  unfold Inbox.handle_activity in H.
  unfold_monad H.
  destruct (Py.get activity "actor" JNull) as [actor_url|e] eqn:Hactor.
  2:{ injection H as <- <-. right. split; [apply quiet_refl|].
      eexists. split; [reflexivity|]. cbn. tauto. }
  cbn beta iota in H.
  destruct (Py.truthy actor_url) eqn:Htruthy; cbn [negb] in H.
  2:{ injection H as <- <-. right. split; [apply quiet_refl|].
      eexists. split; [reflexivity|]. cbn. tauto. }
  assert (Hfetch : exists key,
             Inbox._fetch_actor_public_key env actor_url w
             = (mkWorld (db w) (files w)
                  (trace w ++ [ActorFetched actor_url])%list, Ok key)).
  { unfold Inbox._fetch_actor_public_key, bindM, emit, ret.
    destruct (actor_document env actor_url); [|eexists; reflexivity].
    destruct (bind _ _) as [pem|]; [destruct (Py.truthy pem)|];
      eexists; reflexivity. }
  destruct Hfetch as [key Hfetch]. rewrite Hfetch in H. cbn beta iota in H.
  pose proof (quiet_actor_fetched w actor_url) as Hq.
  destruct key as [public_key|].
  2:{ injection H as <- <-. right. split; [exact Hq|].
      eexists. split; [reflexivity|]. cbn. tauto. }
  destruct (Inbox.signature_is_valid signature request_target host date digest
              public_key) eqn:Hvalid; cbn [negb] in H.
  2:{ injection H as <- <-. right. split; [exact Hq|].
      eexists. split; [reflexivity|]. cbn. tauto. }
  destruct (Service.parse_activity activity) as [parsed|] eqn:Hparse.
  2:{ injection H as <- <-. right. split; [exact Hq|].
      eexists. split; [reflexivity|]. cbn. tauto. }
  pose proof Hparse as Hsame. apply parse_activity_same in Hsame. subst parsed.
  destruct (Service.validate_activity_schema activity) eqn:Hschema;
    cbn [negb] in H.
  2:{ injection H as <- <-. right. split; [exact Hq|].
      eexists. split; [reflexivity|]. cbn. tauto. }
  left. exists actor_url, public_key. rewrite Hfetch. cbn [snd].
  repeat split; auto.
Qed.

(** X6. [handle_activity] answers every request: no exception leaves
    it, whatever the activity, the headers, the database and the remote
    side are, and the status it answers with is one of 200, 202, 400,
    401, 404 and 500. *)
Theorem handle_activity_statuses (activity : json)
  (signature request_target host date digest : string) (w : World) :
  exists w' resp,
    Inbox.handle_activity env activity signature request_target host date
      digest w = (w', Ok resp)
    /\ In (status resp) [200; 202; 400; 401; 404; 500]%Z.
Proof.
  exact (handle_activity_answers activity signature request_target host date
           digest w).
Qed.

(** X7. Nothing is processed without a verified signature. Either the
    activity names an actor, the key fetched from the actor's document
    verifies the signature header against the request target, host, date
    and digest, and the activity passes [parse_activity] and
    [validate_activity_schema]; or the request is answered 400, 401 or
    500 with the database and the files as they were and no media
    stream opened. *)
Theorem handle_activity_authenticates (activity : json)
  (signature request_target host date digest : string) (w : World) :
  let out :=
    Inbox.handle_activity env activity signature request_target host date
      digest w in
  (exists actor_url public_key,
      Py.get activity "actor" JNull = Ok actor_url
      /\ Py.truthy actor_url = true
      /\ snd (Inbox._fetch_actor_public_key env actor_url w)
         = Ok (Some public_key)
      /\ Inbox.signature_is_valid signature request_target host date digest
           public_key = true
      /\ Service.parse_activity activity = Some activity
      /\ Service.validate_activity_schema activity = true)
  \/ (quiet w (fst out)
      /\ exists resp, snd out = Ok resp /\ In (status resp) [400; 401; 500]%Z).
Proof.
  exact (handle_activity_gate activity signature request_target host date
           digest w).
Qed.

End InboxAnswers.

(** ** The inbox: comments, deletions and moves *)







Lemma existsb_filter {A : Type} (p : A -> bool) (l : list A) :
  existsb p l = match filter p l with [] => false | _ => true end.
Proof.
  induction l as [|x l IH]; [reflexivity|].
  cbn. destruct (p x); [reflexivity | exact IH].
Qed.

Lemma rewritten_followers (a t : string) (fs : list Follower.t) :
  let fs' :=
    map (fun f =>
           if String.eqb (Follower.follower_actor f) a
           then Follower.set_follower_actor t f else f) fs in
  length fs' = length fs
  /\ map Follower.id fs' = map Follower.id fs
  /\ map Follower.user_id fs' = map Follower.user_id fs
  /\ map Follower.follower_inbox fs' = map Follower.follower_inbox fs
  /\ (forall f, In f fs -> Follower.follower_actor f <> a -> In f fs')
  /\ (a <> t -> forall f, In f fs' -> Follower.follower_actor f <> a)
  /\ (filter (fun f => String.eqb (Follower.follower_actor f) a) fs = [] ->
      fs' = fs).
Proof.
  cbn zeta. induction fs as [|x fs IH]; cbn [map length filter].
  - repeat split; auto.
  - destruct IH as (H1 & H2 & H3 & H4 & H5 & H6 & H7).
    destruct (String.eqb_spec (Follower.follower_actor x) a) as [Hx|Hx].
    + repeat match goal with |- _ /\ _ => split end; cbn; try congruence.
      * intros f [<- | Hin] Hf; [contradiction|]. right. now apply H5.
      * intros Hat f [<- | Hin]; [cbn; congruence | now apply H6].
    + repeat match goal with |- _ /\ _ => split end; cbn; try congruence.
      * intros f [<- | Hin] Hf; [now left|]. right. now apply H5.
      * intros Hat f [<- | Hin]; [exact Hx | now apply H6].
      * intros Hnil. now rewrite (H7 Hnil).
Qed.

(** X10. A Move with an actor and a target rewrites the follower rows
    exactly as [update_follower_records] does: the inbox handler answers
    200 with the database that function returns, and 500 with the
    database untouched when the unique index on (user_id,
    follower_actor) refuses the rewrite. The rewrite touches the
    follower rows of the old actor only: it returns their number, keeps
    the number, the ids, the followed users and the inboxes of all
    rows, leaves the rows of other actors as they are, and when the
    target differs from the actor no row names the old actor
    afterwards. *)
Theorem move_rewrites_followers (fields : list (string * json))
  (a t : string) (w : World) :
  Py.get (JObj fields) "actor" JNull = Ok (JStr a) ->
  Py.get (JObj fields) "target" JNull = Ok (JStr t) ->
  t <> EmptyString ->
  Inbox.process_move_activity (JObj fields) w
  = match Identity.update_follower_records a t (db w) with
    | Ok (d', _) =>
        (mkWorld d' (files w) (trace w),
         Ok (mkResponse 200 "Move processed"))
    | Raise _ => (w, Ok (mkResponse 500 "Failed to process Move"))
    end
  /\ forall d' n,
       Identity.update_follower_records a t (db w) = Ok (d', n) ->
       n = Z.of_nat
             (length (filter
                        (fun f => String.eqb (Follower.follower_actor f) a)
                        (followers (db w))))
       /\ length (followers d') = length (followers (db w))
       /\ map Follower.id (followers d') = map Follower.id (followers (db w))
       /\ map Follower.user_id (followers d')
          = map Follower.user_id (followers (db w))
       /\ map Follower.follower_inbox (followers d')
          = map Follower.follower_inbox (followers (db w))
       /\ (forall f, In f (followers (db w)) ->
                     Follower.follower_actor f <> a -> In f (followers d'))
       /\ (a <> t ->
           forall f, In f (followers d') -> Follower.follower_actor f <> a)
       /\ video_posts d' = video_posts (db w)
       /\ activities d' = activities (db w)
       /\ comments d' = comments (db w)
       /\ delivery_records d' = delivery_records (db w).
Proof.
  intros Hactor Htarget Hne.
  destruct (rewritten_followers a t (followers (db w)))
    as (H1 & H2 & H3 & H4 & H5 & H6 & H7).
  split.
  - unfold Inbox.process_move_activity, Identity.update_follower_records,
      try_except, bindM, lift, get_db, ret, commit, raise.
    rewrite Hactor, Htarget.
    assert (Htruthy : Py.truthy (JStr t) = true).
    { cbn. destruct t; [contradiction | reflexivity]. }
    rewrite Htruthy. cbn [negb column_str]. cbn beta iota.
    rewrite existsb_filter.
    destruct (filter _ (followers (db w))) as [|f fs] eqn:Hf.
    + destruct w; reflexivity.
    + cbn beta iota.
      destruct (Inbox.followers_unique _); reflexivity.
  - intros d' n Hrun. unfold Identity.update_follower_records in Hrun.
    destruct (filter _ (followers (db w))) as [|f fs] eqn:Hf.
    + injection Hrun as <- <-. cbn zeta in *.
      repeat split; auto.
      intros Hat x Hx Ha.
      assert (Hin : In x (filter
                            (fun f => String.eqb (Follower.follower_actor f) a)
                            (followers (db w)))).
      { apply filter_In. split; [exact Hx|]. now apply String.eqb_eq. }
      rewrite Hf in Hin. destruct Hin.
    + destruct (Inbox.followers_unique _); [|discriminate].
      injection Hrun as <- <-. cbn zeta in *.
      cbn [followers with_followers video_posts activities comments
           delivery_records].
      repeat split; auto.
Qed.

(** ** The inbox: a download that succeeds *)

Lemma assoc_set_other {A : Type} (k k' : string) (v : A)
  (d : list (string * A)) :
  String.eqb k' k = false -> Py.assoc k' (Py.set k v d) = Py.assoc k' d.
Proof.
  intros Hne. induction d as [|[k0 v0] d IH]; cbn [Py.set Py.assoc].
  - now rewrite Hne.
  - destruct (String.eqb k k0) eqn:E; cbn [Py.assoc].
    + apply String.eqb_eq in E. subst k0. now rewrite Hne.
    + now rewrite IH.
Qed.

Lemma download_chunks_ok (path : string) (chunks : list N) :
  forall (downloaded total size : N) (w w' : World),
    (downloaded <= Inbox.max_size)%N ->
    Inbox.download_chunks path chunks downloaded w = (w', Ok total) ->
    Py.assoc path (files w) = Some size ->
    Py.assoc path (files w') = Some (size + sum_chunks chunks)%N
    /\ total = (downloaded + sum_chunks chunks)%N
    /\ (total <= Inbox.max_size)%N
    /\ db w' = db w
    /\ forall q, String.eqb q path = false ->
                 Py.assoc q (files w') = Py.assoc q (files w).
Proof.
  induction chunks as [|chunk rest IH];
    intros downloaded total size w w' Hle Hrun Hsize;
    cbn [Inbox.download_chunks sum_chunks] in *.
  - injection Hrun as <- <-. rewrite !N.add_0_r. repeat split; auto.
  - destruct (N.ltb_spec Inbox.max_size (downloaded + chunk)) as [Hover|Hfit].
    + unfold bindM, raise in Hrun.
      destruct (Os.remove path w) as [w1 [u|e]]; discriminate Hrun.
    + unfold bindM at 1 in Hrun. unfold Os.write in Hrun.
      rewrite Hsize in Hrun.
      apply IH with (size := (size + chunk)%N) in Hrun;
        [|exact Hfit | cbn [files]; apply assoc_set_same].
      destruct Hrun as (Hf & Ht & Hm & Hdb & Ho).
      split; [rewrite Hf; f_equal; lia|].
      split; [lia|]. split; [exact Hm|]. split; [exact Hdb|].
      intros q Hq. rewrite (Ho q Hq). cbn [files].
      now apply assoc_set_other.
Qed.

Section DownloadSuccess.

Context {L : Libs}.
Variable env : Env.

(** What a download that returns a path has done. *)
Lemma download_returned (video_url video_object : json)
  (w w' : World) (file_path : string) :
  Inbox.download_federated_video env video_url video_object w
  = (w', Ok file_path) ->
  file_path = Inbox.download_path env
  /\ (exists u content_length chunks,
         video_url = JStr u
         /\ media_stream env u = Response true content_length chunks false
         /\ Py.assoc file_path (files w') = Some (sum_chunks chunks)
         /\ (sum_chunks chunks <= Inbox.max_size)%N)
  /\ (forall duration_str,
         Py.get video_object "duration" JNull = Ok duration_str ->
         Py.truthy duration_str = true ->
         Inbox.exceeds_limit (Inbox._parse_duration env duration_str) = false)
  /\ db w' = db w
  /\ (forall q, String.eqb q file_path = false ->
                Py.assoc q (files w') = Py.assoc q (files w)).
Proof.
  unfold Inbox.download_federated_video, try_except.
  destruct (Inbox.download_body env (Inbox.download_path env) video_url
              video_object w) as [w1 [p|e]] eqn:Hbody.
  2:{ destruct (Os.exists_ _ w1); unfold bindM, raise;
        [destruct (Os.remove _ w1) as [w2 [u|e2]]|]; discriminate. }
  intros Hrun. injection Hrun as -> ->.
  unfold Inbox.download_body in Hbody.
  destruct video_url as [| | |u| |]; try discriminate Hbody.
  unfold bindM at 1, lift in Hbody. unfold bindM at 1, emit in Hbody.
  destruct (media_stream env u) as [|ok cl chunks broken] eqn:Hstream;
    [discriminate Hbody|].
  unfold bindM at 1 in Hbody.
  destruct ok; [|discriminate Hbody]. unfold ret at 1 in Hbody.
  unfold bindM at 1, lift in Hbody.
  destruct (Inbox.check_content_length env cl) as [[]|e]; [|discriminate Hbody].
  unfold Inbox.write_stream in Hbody.
  unfold bindM at 1, Os.open_wb in Hbody.
  unfold bindM at 1 in Hbody.
  destruct (Inbox.download_chunks (Inbox.download_path env) chunks 0 _)
    as [w2 [total|e]] eqn:Hchunks; [|discriminate Hbody].
  apply download_chunks_ok with (size := 0%N) in Hchunks;
    [|apply N.le_0_l | cbn [files]; apply assoc_set_same].
  destruct Hchunks as (Hf & Ht & Hm & Hdb & Ho).
  unfold bindM at 1 in Hbody.
  destruct broken; [discriminate Hbody|]. unfold ret at 1 in Hbody.
  unfold bindM at 1, lift in Hbody.
  destruct (Py.get video_object "duration" JNull) as [duration_str|e] eqn:Hdur;
    [|discriminate Hbody].
  unfold bindM at 1 in Hbody.
  destruct (Py.truthy duration_str
            && Inbox.exceeds_limit (Inbox._parse_duration env duration_str))
    eqn:Hlim.
  { unfold bindM, raise in Hbody.
    destruct (Os.remove _ w2) as [w3 [v|e]]; discriminate Hbody. }
  unfold ret in Hbody. injection Hbody as <- <-.
  split; [reflexivity|]. split.
  { exists u, cl, chunks. repeat split; auto. lia. }
  split.
  { intros d Hd Htruthy. injection Hd as <-. rewrite Htruthy in Hlim.
    exact Hlim. }
  split; [exact Hdb|].
  intros q Hq. rewrite (Ho q Hq). cbn [files]. now apply assoc_set_other.
Qed.

(** X11. When [download_federated_video] returns a path, it is the
    path built from the clock, the remote server answered the request
    for the media URL with a success status and the transfer did not
    break, the file at the path holds exactly the bytes of the body, no
    more than 500 MB, the declared duration does not exceed the limit,
    and the database and every other file are as they were. *)
Theorem download_stores_the_body (video_url video_object : json)
  (w w' : World) (file_path : string) :
  Inbox.download_federated_video env video_url video_object w
  = (w', Ok file_path) ->
  file_path = Inbox.download_path env
  /\ (exists u content_length chunks,
         video_url = JStr u
         /\ media_stream env u = Response true content_length chunks false
         /\ Py.assoc file_path (files w') = Some (sum_chunks chunks)
         /\ (sum_chunks chunks <= Inbox.max_size)%N)
  /\ (forall duration_str,
         Py.get video_object "duration" JNull = Ok duration_str ->
         Py.truthy duration_str = true ->
         Inbox.exceeds_limit (Inbox._parse_duration env duration_str) = false)
  /\ db w' = db w
  /\ (forall q, String.eqb q file_path = false ->
                Py.assoc q (files w') = Py.assoc q (files w)).
Proof.
  intros Hrun.
  destruct (download_returned video_url video_object w w' file_path Hrun)
    as (Hpath & Hbody & Hduration & Hdb & Hothers).
  repeat split; assumption.
Qed.

End DownloadSuccess.

(** ** The inbox: a video that is accepted *)



Section VideoAccepted.

Context {L : Libs}.
Variable env : Env.


End VideoAccepted.



(** Witness of X10: bob, who follows alice, moves to another
    instance. *)
Lemma move_rewrites_followers_witness :
  Inbox.process_move_activity (JObj Example.move_of_bob) Example.world
  = match Identity.update_follower_records Example.bob
            "https://elsewhere.example/users/bob" (db Example.world) with
    | Ok (d', _) =>
        (mkWorld d' (files Example.world) (trace Example.world),
         Ok (mkResponse 200 "Move processed"))
    | Raise _ => (Example.world, Ok (mkResponse 500 "Failed to process Move"))
    end
  /\ map Follower.follower_actor
       (followers
          (db (fst (Inbox.process_move_activity (JObj Example.move_of_bob)
                      Example.world))))
     = ["https://elsewhere.example/users/bob"].
Proof.
  split; [|reflexivity].
  apply (move_rewrites_followers Example.move_of_bob Example.bob
           "https://elsewhere.example/users/bob" Example.world eq_refl eq_refl).
  discriminate.
Defined.

(** Witness of X11: the media server of the examples sends three
    bytes. *)
Lemma download_stores_the_body_witness :
  let out :=
    Inbox.download_federated_video Example.env
      (JStr "https://remote.example/media/2.mp4") (JObj []) Example.world in
  snd out = Ok "uploads/federated/federated_20261103_100000.mp4"
  /\ Py.assoc "uploads/federated/federated_20261103_100000.mp4"
       (files (fst out)) = Some 3%N
  /\ db (fst out) = db Example.world.
Proof.
  intros out.
  assert (E : out = (fst out,
                     Ok "uploads/federated/federated_20261103_100000.mp4"))
    by reflexivity.
  destruct (download_stores_the_body Example.env _ _ _ _ _ E)
    as (_ & _ & _ & Hdb & _).
  split; [reflexivity|]. split; [reflexivity | exact Hdb].
Defined.


(** ** Numbers written and read back *)

Lemma digit_not_space (c : ascii) : is_digit c = true -> PyStr.is_space c = false.
Proof.
  unfold is_digit, PyStr.digit_val, PyStr.is_space.
  set (n := nat_of_ascii c).
  destruct (Nat.leb_spec 48 n), (Nat.leb_spec n 57); cbn; try discriminate.
  intros _.
  destruct (Nat.leb_spec 9 n), (Nat.leb_spec n 13), (Nat.leb_spec 28 n),
    (Nat.leb_spec n 32), (Nat.eqb_spec n 133), (Nat.eqb_spec n 160);
    cbn; try reflexivity; lia.
Qed.

Lemma rstrip_nothing (p : ascii -> bool) (s : string) :
  forallb (fun c => negb (p c)) (list_ascii_of_string s) = true ->
  PyStr.rstrip p s = s.
Proof.
  induction s as [|c s IH]; [reflexivity|].
  cbn [list_ascii_of_string forallb PyStr.rstrip].
  intros H. apply andb_prop in H. destruct H as [Hc Hs].
  rewrite (IH Hs). destruct (p c); [discriminate|]. now destruct s.
Qed.

Lemma uint_string_digits (u : Decimal.uint) :
  forallb is_digit (list_ascii_of_string (NilEmpty.string_of_uint u)) = true.
Proof.
  induction u; cbn [NilEmpty.string_of_uint list_ascii_of_string forallb];
    try reflexivity; rewrite IHu; reflexivity.
Qed.

Lemma strip_digits (s : string) :
  forallb is_digit (list_ascii_of_string s) = true -> PyStr.strip s = s.
Proof.
  intros H. unfold PyStr.strip.
  assert (Hl : PyStr.lstrip PyStr.is_space s = s).
  { destruct s as [|c s]; [reflexivity|]. cbn in *.
    apply andb_prop in H. destruct H as [Hc _].
    now rewrite (digit_not_space c Hc). }
  rewrite Hl. apply rstrip_nothing.
  rewrite forallb_forall in *. intros c Hc.
  now rewrite (digit_not_space c (H c Hc)).
Qed.

Lemma count_digits_le (s : string) :
  (PyStr.count_digits s <= String.length s)%nat.
Proof.
  unfold PyStr.count_digits.
  induction s as [|c s IH]; cbn [list_ascii_of_string filter String.length length];
    [lia|].
  destruct (PyStr.digit_val c); cbn [length]; lia.
Qed.

Lemma parse_digits_acc (u : Decimal.uint) (acc : positive) :
  PyStr.parse_digits (NilEmpty.string_of_uint u) (Z.pos acc) true
  = Some (Z.pos (Pos.of_uint_acc u acc)).
Proof.
  revert acc.
  induction u; intros acc;
    cbn [NilEmpty.string_of_uint PyStr.parse_digits Pos.of_uint_acc];
    try reflexivity;
    match goal with
    | |- context [Ascii.eqb ?c "_"] =>
        change (Ascii.eqb c "_") with false; cbn iota;
        match goal with
        | |- context [PyStr.digit_val c] =>
            let d := eval vm_compute in (PyStr.digit_val c) in
            change (PyStr.digit_val c) with d; cbn iota
        end
    end;
    rewrite <- IHu; f_equal; lia.
Qed.

Lemma parse_digits_uint (u : Decimal.uint) :
  PyStr.parse_digits (NilEmpty.string_of_uint u) 0 true
  = Some (Z.of_N (Pos.of_uint u)).
Proof.
  induction u;
    cbn [NilEmpty.string_of_uint PyStr.parse_digits Pos.of_uint];
    try reflexivity;
    match goal with
    | |- context [Ascii.eqb ?c "_"] =>
        change (Ascii.eqb c "_") with false; cbn iota;
        match goal with
        | |- context [PyStr.digit_val c] =>
            let d := eval vm_compute in (PyStr.digit_val c) in
            change (PyStr.digit_val c) with d; cbn iota
        end
    end;
    first [ exact IHu
          | cbn [Z.mul Z.add Z.of_N]; apply parse_digits_acc ].
Qed.

Lemma parse_digits_first (u : Decimal.uint) :
  u <> Decimal.Nil ->
  PyStr.parse_digits (NilEmpty.string_of_uint u) 0 false
  = Some (Z.of_N (Pos.of_uint u)).
Proof.
  intros Hne. rewrite <- parse_digits_uint.
  destruct u; [contradiction| ..]; reflexivity.
Qed.

Lemma digit_limit (limit : nat) (digits s : string) :
  (limit = 0 \/ String.length s <= limit)%nat ->
  (String.length digits <= String.length s)%nat ->
  ((0 <? limit) && (limit <? PyStr.count_digits digits))%nat = false.
Proof.
  intros [-> | Hle] Hlen; [reflexivity|].
  pose proof (count_digits_le digits).
  destruct (Nat.ltb_spec limit (PyStr.count_digits digits)); [lia|].
  apply andb_false_r.
Qed.

Lemma int_digits (limit : nat) (s : string) :
  forallb is_digit (list_ascii_of_string s) = true ->
  (limit = 0 \/ String.length s <= limit)%nat ->
  PyStr.int limit s = PyStr.parse_digits s 0 false.
Proof.
  intros Hd Hlimit. unfold PyStr.int. rewrite (strip_digits s Hd).
  destruct s as [|c r]; [now destruct limit|].
  cbn [list_ascii_of_string forallb] in Hd.
  apply andb_prop in Hd. destruct Hd as [Hc _].
  assert (Hshape : forall (A : Type) (x y : string -> A) (z : A),
             match String c r with
             | String "+" t => x t
             | String "-" t => y t
             | _ => z
             end = z).
  { intros A x y z.
    destruct c as [[] [] [] [] [] [] [] []]; try reflexivity;
      discriminate Hc. }
  rewrite (Hshape string (fun t => t) (fun t => t) (String c r)).
  rewrite (digit_limit limit _ (String c r) Hlimit (Nat.le_refl _)).
  apply (Hshape (option Z)
           (fun t => PyStr.parse_digits t 0 false)
           (fun t => option_map Z.opp (PyStr.parse_digits t 0 false))).
Qed.

Lemma int_minus_digits (limit : nat) (s : string) :
  forallb is_digit (list_ascii_of_string s) = true ->
  (limit = 0 \/ String.length (String "-" s) <= limit)%nat ->
  PyStr.int limit (String "-" s)
  = option_map Z.opp (PyStr.parse_digits s 0 false).
Proof.
  intros Hd Hlimit. unfold PyStr.int.
  assert (Hstrip : PyStr.strip (String "-" s) = String "-" s).
  { unfold PyStr.strip.
    change (PyStr.lstrip PyStr.is_space (String "-" s)) with (String "-" s).
    apply rstrip_nothing. cbn [list_ascii_of_string forallb].
    change (negb (PyStr.is_space "-")) with true. cbn [andb].
    rewrite forallb_forall in *. intros c Hc.
    now rewrite (digit_not_space c (Hd c Hc)). }
  rewrite Hstrip.
  rewrite (digit_limit limit s (String "-" s) Hlimit); [reflexivity|].
  cbn [String.length]. lia.
Qed.

(** [int(str(n)) == n]: the text Python writes for an integer reads
    back as the integer, as long as it is within the digit limit of the
    interpreter. *)
Lemma int_of_int (limit : nat) (n : Z) :
  (limit = 0 \/ String.length (PyStr.of_int n) <= limit)%nat ->
  PyStr.int limit (PyStr.of_int n) = Some n.
Proof.
  assert (Hpos : forall p,
             NilZero.string_of_uint (Pos.to_uint p)
             = NilEmpty.string_of_uint (Pos.to_uint p)).
  { intros p. pose proof (DecimalPos.Unsigned.to_uint_nonnil p).
    now destruct (Pos.to_uint p). }
  assert (Hparse : forall p,
             PyStr.parse_digits (NilEmpty.string_of_uint (Pos.to_uint p)) 0
               false = Some (Z.pos p)).
  { intros p.
    rewrite (parse_digits_first _ (DecimalPos.Unsigned.to_uint_nonnil p)).
    now rewrite DecimalPos.Unsigned.of_to. }
  unfold PyStr.of_int.
  destruct n as [|p|p]; cbn [Z.to_int NilZero.string_of_int]; intros Hlimit.
  - rewrite int_digits; [reflexivity | reflexivity | exact Hlimit].
  - rewrite Hpos in *.
    rewrite (int_digits _ _ (uint_string_digits _) Hlimit). apply Hparse.
  - rewrite Hpos in *.
    rewrite (int_minus_digits _ _ (uint_string_digits _) Hlimit).
    rewrite Hparse. reflexivity.
Qed.

(** ** What the instance publishes, read by the inbox of another *)

Lemma last_char_app (s : string) (c : ascii) :
  PyStr.last_char (s ++ String c EmptyString) = Some c.
Proof.
  induction s as [|x s IH]; [reflexivity|].
  cbn [append]. destruct s; [reflexivity|]. exact IH.
Qed.

Lemma drop_last_app (s : string) (c : ascii) :
  PyStr.drop_last (s ++ String c EmptyString) = s.
Proof.
  induction s as [|x s IH]; [reflexivity|].
  cbn [append]. destruct s as [|y s]; [reflexivity|].
  change (PyStr.drop_last (String x (String y s ++ String c EmptyString)))
    with (String x (PyStr.drop_last (String y s ++ String c EmptyString))).
  now rewrite IH.
Qed.

Lemma parse_duration_of_int (env : Env) (n : Z) :
  (int_max_str_digits env = 0
   \/ String.length (PyStr.of_int n) <= int_max_str_digits env)%nat ->
  Inbox._parse_duration env (JStr ("PT" ++ PyStr.of_int n ++ "S")) = Some n.
Proof.
  intros Hlimit. unfold Inbox._parse_duration.
  change ("PT" ++ PyStr.of_int n ++ "S")
    with (String "P" (String "T" (PyStr.of_int n ++ "S"))).
  cbn [String.eqb PyStr.startswith Ascii.eqb Bool.eqb andb orb negb PyStr.drop].
  unfold PyStr.endswith_char. rewrite last_char_app, Ascii.eqb_refl.
  rewrite drop_last_app. now apply int_of_int.
Qed.

(** Reading a field of a published video object: the attachments and
    the icon come after the fields the inbox reads. *)
Ltac read_video_object :=
  unfold Service.video_object;
  repeat match goal with
         | |- context [match ?x with _ => _ end] =>
             lazymatch x with
             | Service._create_resolution_attachments _ _ => destruct x
             | VideoPost.thumbnail_large _ => destruct x
             | String.eqb _ EmptyString => destruct x
             end
         end;
  cbn [Py.get];
  repeat (rewrite assoc_set_other by reflexivity);
  cbn [Py.assoc String.eqb Ascii.eqb Bool.eqb].

Section Publishing.

Context {L : Libs}.
Variable env : Env.
Variable instance_url : string.

(** X13. The duration [create_video_object] writes is the duration
    [_parse_duration] reads: a video of [n] seconds, [n] not zero, is
    published as [PT<n>S] and parsed back to [n] by the inbox of the
    receiving instance, whose duration check then fires exactly when
    [n] exceeds 180. A video without a duration, or of 0 seconds, is
    published with a null duration, which parses to nothing. *)
Theorem published_duration_reads_back (video_post : VideoPost.t)
  (activitypub_id created_at : string) (user : User.t) :
  (forall n, VideoPost.duration video_post = Some n ->
             (int_max_str_digits env = 0
              \/ String.length (PyStr.of_int n) <= int_max_str_digits env)%nat) ->
  exists duration_str,
    Py.get (Service.video_object instance_url video_post activitypub_id
              created_at user) "duration" (JStr EmptyString)
    = Ok duration_str
    /\ Inbox._parse_duration env duration_str
       = match VideoPost.duration video_post with
         | Some n => if Z.eqb n 0 then None else Some n
         | None => None
         end
    /\ Inbox.exceeds_limit (Inbox._parse_duration env duration_str)
       = match VideoPost.duration video_post with
         | Some n => Z.ltb 180 n
         | None => false
         end.
Proof.
  intros Hlimit.
  assert (Hget : Py.get (Service.video_object instance_url video_post
                           activitypub_id created_at user)
                   "duration" (JStr EmptyString)
                 = Ok match VideoPost.duration video_post with
                      | Some n =>
                          if Z.eqb n 0 then JNull
                          else JStr ("PT" ++ PyStr.of_int n ++ "S")
                      | None => JNull
                      end).
  { read_video_object; reflexivity. }
  eexists. split; [exact Hget|].
  destruct (VideoPost.duration video_post) as [n|]; [|split; reflexivity].
  destruct (Z.eqb_spec n 0) as [->|Hn]; [split; reflexivity|].
  rewrite (parse_duration_of_int env n (Hlimit n eq_refl)).
  split; [reflexivity|].
  unfold Inbox.exceeds_limit.
  destruct (Z.eqb_spec n 0); [contradiction | reflexivity].
Qed.

Lemma collect_hashtags (tags acc : list string) :
  Inbox.collect_tags
    (map (fun tag => JObj [ ("type", JStr "Hashtag");
                            ("name", JStr ("#" ++ tag)) ]) tags) acc
  = Ok (acc ++ filter (fun t => negb (String.eqb t EmptyString))
                 (map (PyStr.lstrip (Ascii.eqb "#")) tags))%list.
Proof.
  revert acc. induction tags as [|tag tags IH]; intros acc.
  - cbn. now rewrite app_nil_r.
  - cbn [map Inbox.collect_tags Py.get Py.assoc String.eqb Ascii.eqb Bool.eqb
         bind Service.eq_str filter].
    change ("#" ++ tag) with (String "#" tag).
    cbn [PyStr.lstrip Ascii.eqb Bool.eqb andb].
    destruct (String.eqb (PyStr.lstrip (Ascii.eqb "#") tag) EmptyString);
      cbn [negb]; rewrite IH; [reflexivity|].
    now rewrite <- app_assoc.
Qed.

(** X14. The hashtags [create_video_object] writes are the tags the
    inbox of the receiving instance reads: each tag is published as
    [#<tag>], and read back with every leading [#] removed, the tags
    left empty being dropped and the order kept. Tags that are not
    empty and do not start with [#] are read back unchanged; the
    receiving handler keeps the first ten. *)
Theorem published_tags_read_back (video_post : VideoPost.t)
  (activitypub_id created_at : string) (user : User.t) :
  let video_obj :=
    Service.video_object instance_url video_post activitypub_id created_at
      user in
  let read :=
    tag <- Py.get video_obj "tag" (JList []) ;;
    items <- Inbox.iterate tag ;;
    Inbox.collect_tags items [] in
  read = Ok (filter (fun t => negb (String.eqb t EmptyString))
               (map (PyStr.lstrip (Ascii.eqb "#"))
                  (VideoPost.tags video_post)))
  /\ (Forall (fun t => t <> EmptyString /\ PyStr.startswith "#" t = false)
        (VideoPost.tags video_post) ->
      read = Ok (VideoPost.tags video_post)).
Proof.
  intros video_obj read.
  assert (Hread : read
                  = Ok (filter (fun t => negb (String.eqb t EmptyString))
                          (map (PyStr.lstrip (Ascii.eqb "#"))
                             (VideoPost.tags video_post)))).
  { subst read video_obj.
    assert (Hget : Py.get (Service.video_object instance_url video_post
                             activitypub_id created_at user)
                     "tag" (JList [])
                   = Ok (JList
                           (map (fun tag =>
                                   JObj [ ("type", JStr "Hashtag");
                                          ("name", JStr ("#" ++ tag)) ])
                              (VideoPost.tags video_post)))).
    { read_video_object; reflexivity. }
    rewrite Hget. cbn [bind Inbox.iterate]. apply collect_hashtags. }
  split; [exact Hread|].
  intros Hclean. rewrite Hread. f_equal. clear Hread.
  induction Hclean as [|t ts [Hne Hstart] _ IH]; [reflexivity|].
  cbn [map filter].
  assert (Hsame : PyStr.lstrip (Ascii.eqb "#") t = t).
  { destruct t as [|c t]; [reflexivity|].
    cbn [PyStr.startswith] in Hstart. rewrite andb_true_r in Hstart.
    cbn [PyStr.lstrip]. now rewrite Hstart. }
  rewrite Hsame.
  destruct (String.eqb_spec t EmptyString); [contradiction|].
  cbn [negb]. now rewrite IH.
Qed.

Lemma append_nonempty (a b : string) (c : ascii) :
  String.eqb (a ++ String c b) EmptyString = false.
Proof.
  now destruct a.
Qed.

(** The video a call of [create_video_object] leaves behind: the video
    itself when it carried an id, the video under its new id
    otherwise. *)
Lemma create_video_object_result (video_post : VideoPost.t)
  (created_at : string) (user : User.t) (w w' : World) (obj : json) :
  Service.create_video_object instance_url video_post created_at user w
  = (w', Ok obj) ->
  exists video_post' i,
    obj = Service.video_object instance_url video_post' i created_at user
    /\ VideoPost.activitypub_id video_post' = Some i
    /\ String.eqb i EmptyString = false
    /\ (Service.has_activitypub_id video_post = true ->
        video_post' = video_post /\ w' = w)
    /\ (Service.has_activitypub_id video_post = false ->
        video_post'
        = Service.set_activitypub_id
            (Service.video_url instance_url video_post) video_post
        /\ files w' = files w /\ trace w' = trace w).
Proof.
  unfold Service.create_video_object.
  destruct (Service.has_activitypub_id video_post) eqn:Hhas.
  - unfold ret. intros H. injection H as <- <-.
    unfold Service.has_activitypub_id in Hhas.
    destruct (VideoPost.activitypub_id video_post) as [i|] eqn:Hi;
      [|discriminate].
    exists video_post, i. repeat split; auto; try discriminate.
    now destruct (String.eqb i EmptyString).
  - unfold bindM, get_db, raise, commit, ret.
    destruct (existsb _ (video_posts (db w))); [discriminate|].
    intros H. injection H as <- <-.
    eexists. eexists. split; [reflexivity|].
    split; [reflexivity|]. split; [apply append_nonempty|].
    split; [discriminate|]. intros _. repeat split.
Qed.

(** X15. The Create activity the instance builds for a video is one
    its own inbox code accepts: it passes [parse_activity] and
    [validate_activity_schema], is routed to the handler of Create, its
    object is a Video under a non-empty id, its actor is the URL of
    the user, and [store_activity] can build its audit row. *)
Theorem published_activity_is_accepted (clock : Clock)
  (video_post : VideoPost.t) (created_at : string) (user : User.t)
  (w w' : World) (activity : json) :
  Service.create_create_activity instance_url clock video_post created_at
    user w = (w', Ok activity) ->
  Service.parse_activity activity = Some activity
  /\ Service.validate_activity_schema activity = true
  /\ Inbox.route env activity
     = Some (Inbox.process_create_activity env activity)
  /\ Py.get activity "actor" JNull
     = Ok (JStr (instance_url ++ "/users/" ++ User.username user))
  /\ (exists obj i,
         Py.get activity "object" (JObj []) = Ok obj
         /\ Py.get obj "type" JNull = Ok (JStr "Video")
         /\ Py.get obj "id" JNull = Ok (JStr i)
         /\ String.eqb i EmptyString = false)
  /\ forall d, is_ok (Service.activity_record env activity true d) = true.
Proof.
  unfold Service.create_create_activity, bindM.
  destruct (Service.create_video_object instance_url video_post created_at
              user w) as [w1 [obj|e]] eqn:Hobj; [|discriminate].
  unfold ret. intros H. injection H as <- <-.
  destruct (create_video_object_result _ _ _ _ _ _ Hobj)
    as (v' & i & -> & _ & Hi & _).
  assert (Htype : Py.get (Service.video_object instance_url v' i created_at
                            user) "type" JNull = Ok (JStr "Video")).
  { read_video_object; reflexivity. }
  assert (Htype' : Py.get (Service.video_object instance_url v' i created_at
                             user) "type" (JStr EmptyString)
                   = Ok (JStr "Video")).
  { read_video_object; reflexivity. }
  assert (Hid : Py.get (Service.video_object instance_url v' i created_at
                          user) "id" JNull = Ok (JStr i)).
  { read_video_object; reflexivity. }
  assert (Hid' : Py.get (Service.video_object instance_url v' i created_at
                           user) "id" (JStr EmptyString) = Ok (JStr i)).
  { read_video_object; reflexivity. }
  set (obj := Service.video_object instance_url v' i created_at user) in *.
  unfold Service.create_activity, Service.update.
  cbn [fold_left fst snd Py.set String.eqb Ascii.eqb Bool.eqb].
  split; [reflexivity|].
  split.
  { unfold Service.validate_activity_schema.
    cbn [Py.get Py.assoc Py.has String.eqb Ascii.eqb Bool.eqb Service.eq_str
         orb andb negb Py.truthy Py.is_str].
    rewrite append_nonempty. cbn [negb orb]. now rewrite andb_false_r. }
  split; [reflexivity|]. split; [reflexivity|].
  split.
  { exists obj, i. repeat split; auto. }
  intros d. unfold Service.activity_record.
  cbn [Py.get Py.assoc String.eqb Ascii.eqb Bool.eqb bind].
  rewrite Hid', Htype'. reflexivity.
Qed.

(** X16. [create_video_object] gives a video its ActivityPub id once.
    A video that carries an id is published under it and nothing is
    written. A video without one is published under
    [<instance>/videos/<id>], which is committed to its row; a second
    call, on the row as stored, returns the same object and writes
    nothing. When another row already carries that id the call raises
    and nothing is written. *)
Theorem create_video_object_assigns_id_once (video_post : VideoPost.t)
  (created_at : string) (user : User.t) (w : World) :
  let run :=
    Service.create_video_object instance_url video_post created_at user w in
  let i := Service.video_url instance_url video_post in
  let stored := Service.set_activitypub_id i video_post in
  (forall i0, VideoPost.activitypub_id video_post = Some i0 ->
              i0 <> EmptyString ->
              run = (w, Ok (Service.video_object instance_url video_post i0
                              created_at user)))
  /\ (Service.has_activitypub_id video_post = false ->
      (run = (w, Raise IntegrityError)
       /\ exists x, In x (video_posts (db w))
                    /\ VideoPost.id x <> VideoPost.id video_post
                    /\ VideoPost.activitypub_id x = Some i)
      \/ (exists w',
             run = (w', Ok (Service.video_object instance_url stored i
                              created_at user))
             /\ (forall x, In x (video_posts (db w)) ->
                           VideoPost.id x = VideoPost.id video_post ->
                           In stored (video_posts (db w')))
             /\ Service.create_video_object instance_url stored created_at
                  user w'
                = (w', Ok (Service.video_object instance_url stored i
                             created_at user)))).
Proof.
  intros run i stored. subst run. unfold Service.create_video_object.
  split.
  - intros i0 Hi0 Hne. unfold Service.has_activitypub_id. rewrite Hi0.
    destruct (String.eqb_spec i0 EmptyString); [contradiction|]. reflexivity.
  - intros Hhas. rewrite Hhas. unfold bindM, get_db, raise, commit, ret.
    fold i. fold stored.
    destruct (existsb _ (video_posts (db w))) eqn:Hconflict.
    + left. split; [reflexivity|].
      apply existsb_exists in Hconflict.
      destruct Hconflict as (x & Hin & Hx).
      apply andb_prop in Hx. destruct Hx as [Hid Hap].
      exists x. split; [exact Hin|]. split.
      * intros Heq. rewrite Heq, Z.eqb_refl in Hid. discriminate.
      * destruct (VideoPost.activitypub_id x) as [j|]; [|discriminate].
        apply String.eqb_eq in Hap. now subst j.
    + right. eexists. split; [reflexivity|]. split.
      * intros x Hin Hid. cbn [db video_posts with_video_posts].
        apply in_map_iff. exists x. split; [|exact Hin].
        now rewrite Hid, Z.eqb_refl.
      * assert (Hstored : Service.has_activitypub_id stored = true).
        { unfold Service.has_activitypub_id, stored. cbn.
          subst i. unfold Service.video_url.
          change ("/videos/" ++ PyStr.of_int (VideoPost.id video_post))
            with (String "/" ("videos/"
                              ++ PyStr.of_int (VideoPost.id video_post))).
          now rewrite append_nonempty. }
        rewrite Hstored. reflexivity.
Qed.

(** The row an accepted video is stored as, field by field. *)
Lemma accepted_video_row (activity video_obj : json) (w w' : World)
  (resp : response) :
  Inbox._process_federated_video env activity video_obj w = (w', Ok resp) ->
  status resp = 202%Z ->
  exists actor video_id title description duration_str tags c_title
         c_description c_origin_instance c_origin_actor_did c_activitypub_id,
    Py.get activity "actor" JNull = Ok actor
    /\ Py.get video_obj "id" JNull = Ok video_id
    /\ (x <- Py.get video_obj "name" (JStr "Untitled") ;;
        Inbox.slice_to 200 x) = Ok title
    /\ (x <- Py.get video_obj "content" (JStr EmptyString) ;;
        Inbox.slice_to 2000 x) = Ok description
    /\ Py.get video_obj "duration" (JStr EmptyString) = Ok duration_str
    /\ (tag <- Py.get video_obj "tag" (JList []) ;;
        items <- Inbox.iterate tag ;;
        Inbox.collect_tags items []) = Ok tags
    /\ column_str title = Ok c_title
    /\ column_str description = Ok c_description
    /\ column_str_nullable (Inbox._extract_instance_from_url actor)
       = Ok c_origin_instance
    /\ column_str_nullable actor = Ok c_origin_actor_did
    /\ column_str_nullable video_id = Ok c_activitypub_id
    /\ video_posts (db w')
       = (video_posts (db w)
          ++ [ VideoPost.mk (next_id VideoPost.id (video_posts (db w))) 1
                 c_title c_description (firstn 10 tags)
                 (Inbox._parse_duration env duration_str) "processing"
                 (Some (Inbox.download_path env)) None None None [] true
                 c_origin_instance c_origin_actor_did c_activitypub_id
                 0 0 0 0 0%Q "pending" ])%list.
Proof.
  intros H Hstatus.
  unfold Inbox._process_federated_video in H. unfold_monad H.
  explore H; injection H as <- <-; try discriminate Hstatus.
  match goal with
  | E : Inbox.download_federated_video env _ _ _ = (_, Ok _) |- _ =>
      apply download_returned in E;
      destruct E as (-> & _)
  end.
  do 11 eexists.
  repeat match goal with |- _ /\ _ => split end;
    try reflexivity; try eassumption.
Qed.

(** X17. A video published by one instance and accepted by another
    arrives intact. When the inbox of the receiving instance answers
    202 to the Create activity built for a video, the row it stores
    carries the id under which the video was published, the title cut
    to 200 and the description cut to 2000 characters, the first ten
    of the tags as the tag loop reads them, the duration (nothing for a
    video without duration or of 0 seconds), and as origin the actor
    URL of the publishing user. *)
Theorem published_video_arrives_intact (sender : string) (clock : Clock)
  (video_post : VideoPost.t) (i created_at : string) (user : User.t)
  (w w' : World) (resp : response) :
  let actor := sender ++ "/users/" ++ User.username user in
  let video_obj := Service.video_object sender video_post i created_at user in
  let activity :=
    Service.create_activity sender clock "Create" actor video_obj
      (Some [ ("to", JList [JStr (Service.activitystreams ++ "#Public")]);
              ("cc", JList [JStr (actor ++ "/followers")]) ]) in
  (forall n, VideoPost.duration video_post = Some n ->
             (int_max_str_digits env = 0
              \/ String.length (PyStr.of_int n) <= int_max_str_digits env)%nat) ->
  Inbox._process_federated_video env activity video_obj w = (w', Ok resp) ->
  status resp = 202%Z ->
  exists stored,
    video_posts (db w') = (video_posts (db w) ++ [stored])%list
    /\ VideoPost.activitypub_id stored = Some i
    /\ VideoPost.title stored = PyStr.take 200 (VideoPost.title video_post)
    /\ VideoPost.description stored
       = PyStr.take 2000 (VideoPost.description video_post)
    /\ VideoPost.tags stored
       = firstn 10
           (filter (fun t => negb (String.eqb t EmptyString))
              (map (PyStr.lstrip (Ascii.eqb "#"))
                 (VideoPost.tags video_post)))
    /\ VideoPost.duration stored
       = match VideoPost.duration video_post with
         | Some n => if Z.eqb n 0 then None else Some n
         | None => None
         end
    /\ VideoPost.origin_actor_did stored = Some actor
    /\ VideoPost.origin_instance stored
       = Some (urlparse_scheme actor ++ "://" ++ urlparse_netloc actor)
    /\ VideoPost.is_federated stored = true.
Proof.
  intros actor video_obj activity Hlimit Hrun Hstatus.
  destruct (accepted_video_row activity video_obj w w' resp Hrun Hstatus)
    as (actor0 & video_id & title & description & duration_str & tags
        & c_title & c_description & c_oi & c_oa & c_ai
        & Hactor & Hid & Hname & Hcontent & Hdur & Htags & Htitle & Hdesc
        & Hoi & Hoa & Hai & Hposts).
  assert (Gid : Py.get video_obj "id" JNull = Ok (JStr i)).
  { subst video_obj. read_video_object; reflexivity. }
  assert (Gname : Py.get video_obj "name" (JStr "Untitled")
                  = Ok (JStr (VideoPost.title video_post))).
  { subst video_obj. read_video_object; reflexivity. }
  assert (Gcontent : Py.get video_obj "content" (JStr EmptyString)
                     = Ok (JStr (VideoPost.description video_post))).
  { subst video_obj. read_video_object; reflexivity. }
  assert (Gdur : Py.get video_obj "duration" (JStr EmptyString)
                 = Ok match VideoPost.duration video_post with
                      | Some n =>
                          if Z.eqb n 0 then JNull
                          else JStr ("PT" ++ PyStr.of_int n ++ "S")
                      | None => JNull
                      end).
  { subst video_obj. read_video_object; reflexivity. }
  assert (Gtag : Py.get video_obj "tag" (JList [])
                 = Ok (JList
                         (map (fun tag =>
                                 JObj [ ("type", JStr "Hashtag");
                                        ("name", JStr ("#" ++ tag)) ])
                            (VideoPost.tags video_post)))).
  { subst video_obj. read_video_object; reflexivity. }
  assert (Gactor : Py.get activity "actor" JNull = Ok (JStr actor))
    by reflexivity.
  rewrite Gid in Hid. injection Hid as <-.
  rewrite Gname in Hname. cbn [bind Inbox.slice_to] in Hname.
  injection Hname as <-.
  rewrite Gcontent in Hcontent. cbn [bind Inbox.slice_to] in Hcontent.
  injection Hcontent as <-.
  rewrite Gdur in Hdur. injection Hdur as <-.
  rewrite Gtag in Htags. cbn [bind Inbox.iterate] in Htags.
  rewrite collect_hashtags in Htags. injection Htags as <-.
  rewrite Gactor in Hactor. injection Hactor as <-.
  cbn [column_str column_str_nullable Inbox._extract_instance_from_url]
    in Htitle, Hdesc, Hoi, Hoa, Hai.
  injection Htitle as <-. injection Hdesc as <-. injection Hoi as <-.
  injection Hoa as <-. injection Hai as <-.
  eexists. split; [exact Hposts|].
  cbn [VideoPost.activitypub_id VideoPost.title VideoPost.description
       VideoPost.tags VideoPost.duration VideoPost.origin_actor_did
       VideoPost.origin_instance VideoPost.is_federated].
  repeat match goal with |- _ /\ _ => split end; try reflexivity.
  destruct (VideoPost.duration video_post) as [n|]; [|reflexivity].
  destruct (Z.eqb n 0); [reflexivity|].
  apply parse_duration_of_int. now apply Hlimit.
Qed.

End Publishing.

(** Witness of X13: the video of the examples, of one minute. *)
Lemma published_duration_reads_back_witness :
  exists duration_str,
    Py.get (Service.video_object Example.instance_url Example.video
              Example.video_id "2026-11-03T09:00:00" (User.mk 1 "alice"))
      "duration" (JStr EmptyString) = Ok duration_str
    /\ Inbox._parse_duration Example.env duration_str = Some 60%Z.
Proof.
  destruct (published_duration_reads_back Example.env Example.instance_url
              Example.video Example.video_id "2026-11-03T09:00:00"
              (User.mk 1 "alice"))
    as (duration_str & Hget & Hparse & _).
  { intros n Hn. injection Hn as <-. right.
    apply Nat.leb_le. vm_compute. reflexivity. }
  exists duration_str. split; [exact Hget | exact Hparse].
Defined.

(** Witness of X15: the Create activity for the video the remote
    instance publishes. *)
Lemma published_activity_is_accepted_witness :
  exists w' activity,
    Service.create_create_activity Example.remote_url Example.clock
      Example.remote_video "2026-11-03T09:00:00" Example.carol Example.world
    = (w', Ok activity)
    /\ Service.parse_activity activity = Some activity
    /\ Service.validate_activity_schema activity = true.
Proof.
  destruct (Service.create_create_activity Example.remote_url Example.clock
              Example.remote_video "2026-11-03T09:00:00" Example.carol
              Example.world) as [w' [activity|e]] eqn:E;
    [|vm_compute in E; discriminate E].
  exists w', activity. split; [reflexivity|].
  destruct (published_activity_is_accepted (L := Toy.libs) Example.env
              Example.remote_url Example.clock Example.remote_video
              "2026-11-03T09:00:00" Example.carol Example.world w' activity E)
    as (Hparse & Hschema & _).
  split; [exact Hparse | exact Hschema].
Defined.

(** Witness of X17: the video the remote instance publishes, received
    by the instance of the examples. *)
Lemma published_video_arrives_intact_witness :
  let actor := "https://remote.example/users/carol" in
  let video_obj :=
    Service.video_object Example.remote_url Example.remote_video
      "https://remote.example/videos/9" "2026-11-03T09:00:00" Example.carol in
  let activity :=
    Service.create_activity Example.remote_url Example.clock "Create" actor
      video_obj
      (Some [ ("to", JList [JStr (Service.activitystreams ++ "#Public")]);
              ("cc", JList [JStr (actor ++ "/followers")]) ]) in
  let out :=
    Inbox._process_federated_video (L := Toy.libs) Example.env activity
      video_obj Example.world in
  snd out = Ok (mkResponse 202 "Video accepted for processing")
  /\ exists stored,
      video_posts (db (fst out)) = [Example.video; stored]
      /\ VideoPost.title stored = "Along the river"
      /\ VideoPost.tags stored = ["walks"; "river"]
      /\ VideoPost.duration stored = Some 75%Z
      /\ VideoPost.origin_instance stored = Some "https://remote.example".
Proof.
  intros actor video_obj activity out.
  assert (E : out = (fst out,
                     Ok (mkResponse 202 "Video accepted for processing")))
    by reflexivity.
  split; [reflexivity|].
  destruct (published_video_arrives_intact (L := Toy.libs) Example.env
              Example.remote_url Example.clock Example.remote_video
              "https://remote.example/videos/9" "2026-11-03T09:00:00"
              Example.carol Example.world (fst out)
              (mkResponse 202 "Video accepted for processing"))
    as (stored & Hposts & _ & Htitle & _ & Htags & Hdur & _ & Horigin & _).
  - intros n Hn. injection Hn as <-. right.
    apply Nat.leb_le. vm_compute. reflexivity.
  - exact E.
  - reflexivity.
  - exists stored. split; [exact Hposts|]. split; [exact Htitle|].
    split; [exact Htags|]. split; [exact Hdur | exact Horigin].
Defined.

(** ** The inbox endpoint *)

Section RouterProperties.

Context {L : Libs}.
Variable env : Env.

Lemma handle_result_cases (resp : response) :
  In (status resp) [200; 202; 400; 401; 404; 500]%Z ->
  match Router.handle_result resp with
  | Accepted m =>
      (status resp = 200%Z \/ status resp = 202%Z) /\ m = message resp
  | HTTPException code detail =>
      code = status resp /\ In code [400; 401; 404; 500]%Z
      /\ detail = message resp
  end.
Proof.
  unfold Router.handle_result. cbn [In].
  intros [H | [H | [H | [H | [H | [H | []]]]]]]; rewrite <- H; cbn; tauto.
Qed.

(** X18. The inbox endpoint answers 202 "accepted" only when the body
    is JSON, the Digest header is absent or equals the digest of the
    body, the Signature and Date headers are present, and
    [handle_activity], called with the request target
    [post /api/federation/inbox], has answered 200 or 202. Every other
    request is refused with one of the statuses 400, 401, 404 and 500;
    when one of the checks on the request fails the handler is not
    called and the world stays as it was. *)
Theorem inbox_endpoint_answers (request : Request) (w : World) :
  let out := Router.inbox_endpoint env request w in
  let checked :=
    match json_body request with Some _ => true | None => false end
    && (String.eqb (Router.header request "digest") EmptyString
        || String.eqb (Router.header request "digest")
             (Router.body_digest request))
    && negb (String.eqb (Router.header request "signature") EmptyString)
    && negb (String.eqb (Router.header request "date") EmptyString) in
  match snd out with
  | Accepted m =>
      checked = true
      /\ exists activity resp,
          json_body request = Some activity
          /\ Inbox.handle_activity env activity
               (Router.header request "signature")
               "post /api/federation/inbox" (Router.header request "host")
               (Router.header request "date") (Router.body_digest request) w
             = (fst out, Ok resp)
          /\ (status resp = 200%Z \/ status resp = 202%Z)
          /\ message resp = m
  | HTTPException code detail => In code [400; 401; 404; 500]%Z
  end
  /\ (checked = false -> fst out = w).
Proof.
  intros out checked. subst out checked.
  unfold Router.inbox_endpoint.
  destruct (json_body request) as [activity|]; [|cbn; tauto].
  cbn [andb].
  destruct (String.eqb (Router.header request "digest") EmptyString);
    cbn [negb andb orb].
  - destruct (String.eqb (Router.header request "signature") EmptyString);
      cbn [negb andb]; [cbn; tauto|].
    destruct (String.eqb (Router.header request "date") EmptyString);
      cbn [negb andb]; [cbn; tauto|].
    destruct (handle_activity_answers env activity
                (Router.header request "signature")
                Router.inbox_request_target (Router.header request "host")
                (Router.header request "date") (Router.body_digest request) w)
      as (w' & resp & E & Hs).
    rewrite E. cbn [fst snd].
    pose proof (handle_result_cases resp Hs) as Hc.
    split; [|discriminate].
    destruct (Router.handle_result resp) as [m|code detail].
    + destruct Hc as [Hst ->]. split; [reflexivity|].
      exists activity, resp. repeat split; auto.
    + tauto.
  - destruct (String.eqb (Router.header request "digest")
                (Router.body_digest request));
      cbn [negb andb orb]; [|cbn; tauto].
    destruct (String.eqb (Router.header request "signature") EmptyString);
      cbn [negb andb]; [cbn; tauto|].
    destruct (String.eqb (Router.header request "date") EmptyString);
      cbn [negb andb]; [cbn; tauto|].
    destruct (handle_activity_answers env activity
                (Router.header request "signature")
                Router.inbox_request_target (Router.header request "host")
                (Router.header request "date") (Router.body_digest request) w)
      as (w' & resp & E & Hs).
    rewrite E. cbn [fst snd].
    pose proof (handle_result_cases resp Hs) as Hc.
    split; [|discriminate].
    destruct (Router.handle_result resp) as [m|code detail].
    + destruct Hc as [Hst ->]. split; [reflexivity|].
      exists activity, resp. repeat split; auto.
    + tauto.
Qed.

(** The signing string the verifier rebuilds from the header list of
    [sign_activity], for any request. *)
Lemma reconstruct_listed
  (key_value signature_b64 request_target host date digest : string) :
  ActivityPub.reconstruct
    [ ("keyId", key_value); ("algorithm", "rsa-sha256");
      ("headers", "(request-target) host date digest");
      ("signature", signature_b64) ]
    request_target host date digest
  = "(request-target): " ++ request_target ++ nl ++ "host: " ++ host ++ nl
    ++ "date: " ++ date ++ nl ++ "digest: " ++ digest.
Proof.
  unfold ActivityPub.reconstruct.
  assert (Hs : PyStr.split_ws "(request-target) host date digest"
               = ["(request-target)"; "host"; "date"; "digest"])
    by reflexivity.
  cbn [Py.assoc String.eqb Ascii.eqb Bool.eqb]. rewrite Hs.
  unfold flat_map, ActivityPub.signature_part.
  cbn [String.eqb Ascii.eqb Bool.eqb app PyStr.join].
  rewrite !append_assoc. reflexivity.
Qed.

(** A header [sign_activity] has produced names the request target
    [post /inbox]: under a signature scheme without forgery it
    verifies for no other request target. *)
Lemma signed_header_target (laws : LibsLaws L)
  (instance_url date private_key_pem key_id header : string)
  (activity : json)
  (request_target host' date' digest' public_key_pem : string) :
  unforgeable L ->
  PyStr.contains "," key_id = false ->
  ActivityPub.sign_activity instance_url date activity private_key_pem key_id
  = Ok header ->
  ActivityPub.verify_signature header request_target host' date' digest'
    public_key_pem = true ->
  "(request-target): " ++ request_target ++ nl ++ "host: " ++ host' ++ nl
  ++ "date: " ++ date' ++ nl ++ "digest: " ++ digest'
  = ActivityPub.signing_string (urlparse_netloc instance_url) date
      (ActivityPub.digest_b64_of activity).
Proof.
  intros Hunf Hk Hsign Hverify.
  unfold ActivityPub.sign_activity in Hsign.
  destruct (load_pem_private_key private_key_pem) as [sk|];
    [|discriminate Hsign].
  cbn [of_option bind] in Hsign. injection Hsign as <-.
  set (m := ActivityPub.signing_string (urlparse_netloc instance_url) date
              (ActivityPub.digest_b64_of activity)) in *.
  destruct (header_text_parse key_id (b64encode (rsa_sign sk m)) Hk
              (b64_no_comma _) (b64_no_quote _)) as [kv Hparse].
  apply verify_signature_true_iff in Hverify.
  destruct Hverify as (sig_parts & signature_b64 & signature & pk & Hp & Hsig
                       & _ & Hdec & _ & Hrsa).
  rewrite Hparse in Hp. injection Hp as <-.
  cbn [Py.assoc String.eqb Ascii.eqb Bool.eqb] in Hsig. injection Hsig as <-.
  rewrite b64_roundtrip in Hdec. injection Hdec as <-.
  rewrite reconstruct_listed in Hrsa.
  now destruct (Hunf sk pk m _ Hrsa) as [_ Heq].
Qed.

(** X19. A delivery signed by [sign_activity] is never accepted by the
    inbox endpoint. The signer signs the request target [post /inbox];
    the endpoint verifies against [post /api/federation/inbox]. With a
    signature scheme that admits no forgery, a request whose Signature
    header was made by [sign_activity], for any activity, key, date and
    instance, is refused with 400, 401 or 500, whatever its body and its
    other headers are; nothing is stored, no file is touched and no
    media is fetched. *)
Theorem signed_delivery_refused (laws : LibsLaws L)
  (instance_url date private_key_pem key_id : string) (activity : json)
  (request : Request) (w : World) :
  unforgeable L ->
  PyStr.contains "," key_id = false ->
  ActivityPub.sign_activity instance_url date activity private_key_pem key_id
  = Ok (Router.header request "signature") ->
  let out := Router.inbox_endpoint env request w in
  quiet w (fst out)
  /\ exists code detail,
      snd out = HTTPException code detail /\ In code [400; 401; 500]%Z.
Proof.
  intros Hunf Hk Hsign out. subst out.
  assert (Hinvalid : forall host' date' digest' public_key,
             Inbox.signature_is_valid (Router.header request "signature")
               Router.inbox_request_target host' date' digest' public_key
             = false).
  { intros host' date' digest' public_key.
    unfold Inbox.signature_is_valid.
    destruct public_key as [| | |pem| |]; try reflexivity.
    destruct (ActivityPub.verify_signature _ _ _ _ _ pem) eqn:Hv;
      [|reflexivity].
    pose proof (signed_header_target laws _ _ _ _ _ _ _ _ _ _ _ Hunf Hk Hsign
                  Hv) as Heq.
    unfold ActivityPub.signing_string, Router.inbox_request_target in Heq.
    cbn [append] in Heq. discriminate Heq. }
  unfold Router.inbox_endpoint.
  destruct (json_body request) as [a|].
  2:{ split; [apply quiet_refl|]. eexists. eexists.
      split; [reflexivity|]. cbn. tauto. }
  destruct (negb _ && negb _).
  { split; [apply quiet_refl|]. eexists. eexists.
    split; [reflexivity|]. cbn. tauto. }
  destruct (String.eqb (Router.header request "signature") EmptyString).
  { split; [apply quiet_refl|]. eexists. eexists.
    split; [reflexivity|]. cbn. tauto. }
  destruct (String.eqb (Router.header request "date") EmptyString).
  { split; [apply quiet_refl|]. eexists. eexists.
    split; [reflexivity|]. cbn. tauto. }
  pose proof (handle_activity_gate env a (Router.header request "signature")
                Router.inbox_request_target (Router.header request "host")
                (Router.header request "date") (Router.body_digest request) w)
    as Hgate.
  cbn zeta in Hgate.
  destruct Hgate as [(actor_url & public_key & _ & _ & _ & Hvalid & _)
                    | (Hq & resp & Hresp & Hs)].
  { rewrite Hinvalid in Hvalid. discriminate Hvalid. }
  destruct (Inbox.handle_activity env a _ _ _ _ _ w) as [w' r].
  cbn [fst snd] in *. subst r. split; [exact Hq|].
  unfold Router.handle_result. cbn [In] in Hs.
  destruct Hs as [H | [H | [H | []]]]; rewrite <- H; cbn;
    eexists; eexists; (split; [reflexivity|]); tauto.
Qed.

End RouterProperties.

(** Witness of X19: the Like of the examples, signed by bob, arrives at
    the endpoint with the headers the outbox sends. *)
Lemma signed_delivery_refused_witness :
  let request :=
    mkRequest (Toy.dumps Run.like_of_object) (Some Run.like_of_object)
      [ ("content-type", "application/activity+json");
        ("signature",
         Example.signed "https://remote.example/users/bob#main-key"
           Run.like_of_object);
        ("date", Example.date);
        ("host", "civic.example") ] in
  snd (Router.inbox_endpoint (L := Toy.libs) Example.env request Example.world)
  = HTTPException 401 "Invalid signature"
  /\ quiet Example.world
       (fst (Router.inbox_endpoint (L := Toy.libs) Example.env request
               Example.world)).
Proof.
  intros request. split; [reflexivity|].
  apply (signed_delivery_refused (L := Toy.libs) Example.env toy_laws
           Example.remote_url Example.date "K"
           "https://remote.example/users/bob#main-key" Run.like_of_object
           request Example.world toy_unforgeable).
  - reflexivity.
  - reflexivity.
Defined.

(** ** The actor document *)

(** X20. The actor document [get_actor_object] builds is one
    [_fetch_actor_public_key] reads: served at the actor's URL, it
    gives back the public key of the DID document, and nothing when
    that key is empty. The lookup leaves the database and the files
    alone. *)
Theorem published_actor_key_is_fetched (env : Env)
  (instance_url : string) (user : User.t) (profile : Identity.Profile)
  (did_document : DIDDocument.t) (actor_url : json) (w : World) :
  actor_document env actor_url
  = Some (Identity.get_actor_object instance_url user profile did_document) ->
  Inbox._fetch_actor_public_key env actor_url w
  = (mkWorld (db w) (files w) (trace w ++ [ActorFetched actor_url])%list,
     Ok (if String.eqb (DIDDocument.public_key did_document) EmptyString
         then None
         else Some (JStr (DIDDocument.public_key did_document)))).
Proof.
  intros Hdoc.
  unfold Inbox._fetch_actor_public_key, bindM, emit, ret. rewrite Hdoc.
  assert (Hkey : (public_key_obj <-
                    Py.get (Identity.get_actor_object instance_url user profile
                              did_document) "publicKey" (JObj []) ;;
                  Py.get public_key_obj "publicKeyPem" JNull)
                 = Ok (JStr (DIDDocument.public_key did_document))).
  { unfold Identity.get_actor_object.
    destruct (Identity.avatar_url profile) as [url|];
      [destruct (String.eqb url EmptyString)|];
      cbn [Py.get]; repeat (rewrite assoc_set_other by reflexivity);
      reflexivity. }
  rewrite Hkey. cbn [Py.truthy].
  destruct (String.eqb (DIDDocument.public_key did_document) EmptyString);
    reflexivity.
Qed.

(** Witness of X20: the actor document of alice, served at her URL. *)
Lemma published_actor_key_is_fetched_witness :
  let alice :=
    Identity.get_actor_object Example.instance_url (User.mk 1 "alice")
      (Identity.mkProfile None None None)
      (DIDDocument.mk 1 1 Example.alice_did "K" "c2FsdG5vbmNlY2lwaGVy"
         Example.instance_url None None) in
  let env := mkEnv (fun _ => Some alice) (fun _ => ConnectError)
               "20261103_100000" 0 4300 in
  snd (Inbox._fetch_actor_public_key env
         (JStr "https://civic.example/users/alice") Example.world)
  = Ok (Some (JStr "K")).
Proof.
  intros alice env.
  rewrite (published_actor_key_is_fetched env
             Example.instance_url (User.mk 1 "alice")
             (Identity.mkProfile None None None)
             (DIDDocument.mk 1 1 Example.alice_did "K" "c2FsdG5vbmNlY2lwaGVy"
                Example.instance_url None None)
             (JStr "https://civic.example/users/alice") Example.world eq_refl).
  reflexivity.
Defined.

(** ** The activities of local interactions *)

Section InteractionProperties.

Context {L : Libs}.
Variable env : Env.
Variable instance_url : string.

(** X21. Of the activities the interaction service builds, only the
    comment leaves an audit record. The object of a Like and of an
    Announce is an id, not a dict, on which [store_activity] fails and
    returns nothing: both calls leave the whole world as it was. The
    Create of a comment is stored, once: as a local row of type Create
    with a Note as object, unless a row under its activity id
    exists. *)
Theorem local_interactions_audit (clock : Clock) (user : User.t)
  (video_post : VideoPost.t) (comment : Comment.t) (created_at : string)
  (w : World) :
  Interaction._create_like_activity env instance_url clock user video_post w
  = (w, Ok (Interaction.like_activity instance_url clock user video_post))
  /\ Interaction._create_announce_activity env instance_url clock user
       video_post w
     = (w, Ok (Interaction.announce_activity instance_url clock user
                 video_post))
  /\ let activity :=
       Interaction.comment_activity instance_url clock user video_post
         comment created_at in
     let activity_id :=
       instance_url ++ "/activities/create/" ++ posix_timestamp clock in
     let run :=
       Interaction._create_comment_activity env instance_url clock user
         video_post comment created_at w in
     if existsb (fun a => String.eqb (Activity.activity_id a) activity_id)
          (activities (db w))
     then run = (w, Ok activity)
     else exists row,
         run = (mkWorld
                  (with_activities (activities (db w) ++ [row])%list (db w))
                  (files w) (trace w),
                Ok activity)
         /\ Activity.activity_id row = activity_id
         /\ Activity.activity_type row = "Create"
         /\ Activity.actor row = Interaction.actor_id instance_url user
         /\ Activity.object_type row = Some "Note"
         /\ Activity.content row = activity
         /\ Activity.is_local row = true.
Proof.
  split; [|split].
  - unfold Interaction._create_like_activity, Interaction.like_activity,
      Service.store_activity, Service.activity_record, try_except, bindM,
      get_db, lift, ret.
    cbn [Py.get Py.assoc String.eqb Ascii.eqb Bool.eqb bind].
    destruct (VideoPost.activitypub_id video_post); reflexivity.
  - unfold Interaction._create_announce_activity,
      Interaction.announce_activity, Service.store_activity,
      Service.activity_record, try_except, bindM, get_db, lift, ret.
    cbn [Py.get Py.assoc String.eqb Ascii.eqb Bool.eqb bind].
    reflexivity.
  - cbn zeta.
    unfold Interaction._create_comment_activity, Interaction.comment_activity,
      Service.store_activity, Service.activity_record, try_except, bindM,
      get_db, lift, ret, raise, commit.
    cbn [Py.get Py.assoc String.eqb Ascii.eqb Bool.eqb bind column_str
         column_str_nullable Activity.activity_id].
    destruct (existsb _ (activities (db w))); [reflexivity|].
    eexists. split; [reflexivity|]. repeat split.
Qed.

End InteractionProperties.

(** ** Activities whose object is a reference *)

Lemma find_update_video (p : VideoPost.t -> bool) (v v' : VideoPost.t)
  (vs : list VideoPost.t) :
  find p vs = Some v -> p v' = true -> VideoPost.id v' = VideoPost.id v ->
  find p (Inbox.update_video v' vs) = Some v'.
Proof.
  intros Hfind Hp Hid. unfold Inbox.update_video.
  induction vs as [|x vs IH]; [discriminate|].
  cbn [find map] in *.
  destruct (Z.eqb_spec (VideoPost.id x) (VideoPost.id v')) as [Hx|Hx].
  - now rewrite Hp.
  - destruct (p x) eqn:Hpx.
    + injection Hfind as ->. congruence.
    + now apply IH.
Qed.

Section ReferenceLike.

Context {L : Libs}.
Variable env : Env.

Lemma reference_like_step (activity : json) (i aid : string) (w : World)
  (v : VideoPost.t) :
  Py.get activity "type" JNull = Ok (JStr "Like") ->
  Py.get activity "object" JNull = Ok (JStr i) ->
  Py.get activity "id" JNull = Ok (JStr aid) ->
  first_where VideoPost.activitypub_id (JStr i) (video_posts (db w))
  = Ok (Some v) ->
  first_where (fun a => Some (Activity.activity_id a)) (JStr aid)
    (activities (db w)) = Ok None ->
  exists w' v',
    Inbox.dispatch env activity w = (w', Ok (mkResponse 200 "Like processed"))
    /\ first_where VideoPost.activitypub_id (JStr i) (video_posts (db w'))
       = Ok (Some v')
    /\ VideoPost.like_count v' = (VideoPost.like_count v + 1)%Z
    /\ activities (db w') = activities (db w).
Proof.
  intros Htype Hobj Hid Hv Hfresh.
  destruct activity as [| | | | |fields]; try discriminate Htype.
  assert (Hobj' : Py.get (JObj fields) "object" (JObj []) = Ok (JStr i)).
  { cbn [Py.get] in *. destruct (Py.assoc "object" fields);
      [exact Hobj | discriminate Hobj]. }
  unfold Inbox.dispatch, Inbox.route. rewrite Htype.
  cbn [Service.eq_str String.eqb Ascii.eqb Bool.eqb].
  set (v' := VideoPost.set_engagement_score
               (Inbox.engagement
                  (VideoPost.set_like_count (VideoPost.like_count v + 1)%Z v))
               (VideoPost.set_like_count (VideoPost.like_count v + 1)%Z v)).
  assert (Hrun : Inbox.process_like_activity (JObj fields) w
                 = (mkWorld (with_video_posts
                               (Inbox.update_video v' (video_posts (db w)))
                               (db w)) (files w) (trace w),
                    Ok (mkResponse 200 "Like processed"))).
  { assert (Hactor : exists a, Py.get (JObj fields) "actor" JNull = Ok a)
      by (eexists; reflexivity).
    destruct Hactor as [a Hactor].
    unfold Inbox.process_like_activity, Inbox.object_id_of, try_except, bindM,
      lift, get_db, ret, commit.
    rewrite Hactor, Hobj. cbn [bind Py.is_dict].
    rewrite Hv, Hid, Hfresh. reflexivity. }
  eexists. exists v'. unfold bindM at 1. rewrite Hrun.
  unfold bindM. rewrite (store_activity_reference_not_stored env _ i false _ Hobj').
  unfold ret. split; [reflexivity|].
  cbn [db video_posts with_video_posts activities].
  split; [|split; reflexivity].
  unfold first_where in *. injection Hv as Hv. f_equal.
  apply (find_update_video _ v); [exact Hv | | reflexivity].
  apply find_some in Hv. destruct Hv as [_ Hv]. exact Hv.
Qed.

(** X22. A Like whose object is given by reference is counted at every
    delivery. [store_activity] never records such an activity, so the
    check for an earlier delivery finds nothing: after [n] deliveries of
    the same verified Like the like counter of the video has gone up by
    [n], no audit row has been written, and the next delivery is again
    answered "Like processed". *)
Theorem reference_like_counted_every_time (activity : json) (i aid : string)
  (w : World) (v : VideoPost.t) (n : nat) :
  Py.get activity "type" JNull = Ok (JStr "Like") ->
  Py.get activity "object" JNull = Ok (JStr i) ->
  Py.get activity "id" JNull = Ok (JStr aid) ->
  first_where VideoPost.activitypub_id (JStr i) (video_posts (db w))
  = Ok (Some v) ->
  first_where (fun a => Some (Activity.activity_id a)) (JStr aid)
    (activities (db w)) = Ok None ->
  let delivered :=
    Nat.iter n (fun w0 => fst (Inbox.dispatch env activity w0)) w in
  exists v_n,
    first_where VideoPost.activitypub_id (JStr i) (video_posts (db delivered))
    = Ok (Some v_n)
    /\ VideoPost.like_count v_n = (VideoPost.like_count v + Z.of_nat n)%Z
    /\ activities (db delivered) = activities (db w)
    /\ snd (Inbox.dispatch env activity delivered)
       = Ok (mkResponse 200 "Like processed").
Proof.
  intros Htype Hobj Hid Hv Hfresh delivered. subst delivered.
  assert (Hn : exists v_n,
             first_where VideoPost.activitypub_id (JStr i)
               (video_posts
                  (db (Nat.iter n
                         (fun w0 => fst (Inbox.dispatch env activity w0)) w)))
             = Ok (Some v_n)
             /\ VideoPost.like_count v_n
                = (VideoPost.like_count v + Z.of_nat n)%Z
             /\ activities
                  (db (Nat.iter n
                         (fun w0 => fst (Inbox.dispatch env activity w0)) w))
                = activities (db w)).
  { induction n as [|n IH].
    - exists v. simpl Nat.iter. repeat split; [exact Hv | cbn; lia].
    - destruct IH as (v_n & Hfound & Hcount & Hacts).
      rewrite Nat.iter_succ.
      destruct (reference_like_step activity i aid _ v_n Htype Hobj Hid Hfound)
        as (w' & v' & Hrun & Hfound' & Hcount' & Hacts').
      { now rewrite Hacts. }
      rewrite Hrun. cbn [fst]. exists v'.
      split; [exact Hfound'|]. split; [lia | congruence]. }
  destruct Hn as (v_n & Hfound & Hcount & Hacts).
  exists v_n. split; [exact Hfound|]. split; [exact Hcount|].
  split; [exact Hacts|].
  destruct (reference_like_step activity i aid _ v_n Htype Hobj Hid Hfound)
    as (w' & v' & Hrun & _).
  { now rewrite Hacts. }
  now rewrite Hrun.
Qed.

End ReferenceLike.

(** Witness of X22: the Like of the examples, delivered three times. *)
Lemma reference_like_counted_every_time_witness :
  exists v,
    first_where VideoPost.activitypub_id (JStr Example.video_id)
      (video_posts
         (db (Nat.iter 3
                (fun w0 =>
                   fst (Inbox.dispatch (L := Toy.libs) Example.env
                          Example.like w0)) Example.world)))
    = Ok (Some v)
    /\ VideoPost.like_count v = 3%Z.
Proof.
  destruct (reference_like_counted_every_time (L := Toy.libs) Example.env
              Example.like Example.video_id
              "https://remote.example/activities/1" Example.world
              Example.video 3 eq_refl eq_refl eq_refl eq_refl eq_refl)
    as (v & Hfound & Hcount & _).
  exists v. split; [exact Hfound | exact Hcount].
Defined.

(** ** Activity types without a handler *)

(** X23. [handle_activity] has a handler for five types only. An
    activity of any other type that has passed the signature check is
    answered 400 "Unsupported activity type: <type>", with the world
    as it was and no audit row written. Follow, Accept and Reject are
    such types, although [parse_activity] and
    [validate_activity_schema] accept them. *)
Theorem unhandled_types_are_refused {L : Libs} (env : Env)
  (fields : list (string * json)) (ty : json) (w : World) :
  Py.get (JObj fields) "type" JNull = Ok ty ->
  Forall (fun t => Service.eq_str ty t = false)
    ["Create"; "Like"; "Announce"; "Delete"; "Move"] ->
  Inbox.dispatch env (JObj fields) w
  = (w, Ok (mkResponse 400
              ("Unsupported activity type: " ++ Service.py_str ty)))
  /\ (forall t actor activity_id,
        In t ["Follow"; "Accept"; "Reject"] ->
        ty = JStr t ->
        Py.has (JObj fields) "@context" = true ->
        Py.has (JObj fields) "object" = true ->
        Py.get (JObj fields) "actor" JNull = Ok (JStr actor) ->
        actor <> EmptyString ->
        Py.get (JObj fields) "id" JNull = Ok activity_id ->
        Py.truthy activity_id && negb (Py.is_str activity_id) = false ->
        Service.parse_activity (JObj fields) = Some (JObj fields)
        /\ Service.validate_activity_schema (JObj fields) = true).
Proof.
  intros Htype Hnone.
  inversion Hnone as [|? ? Hc H1]; subst.
  inversion H1 as [|? ? Hl H2]; subst.
  inversion H2 as [|? ? Ha H3]; subst.
  inversion H3 as [|? ? Hd H4]; subst.
  inversion H4 as [|? ? Hm _]; subst.
  split.
  - unfold Inbox.dispatch, Inbox.route. rewrite Htype, Hc, Hl, Ha, Hd, Hm.
    reflexivity.
  - intros t actor activity_id Hin -> Hctx Hobj Hactor Hne Hid Hstr.
    assert (Hhas_type : Py.has (JObj fields) "type" = true).
    { cbn [Py.get Py.has] in *.
      destruct (Py.assoc "type" fields); [reflexivity | discriminate Htype]. }
    assert (Hhas_actor : Py.has (JObj fields) "actor" = true).
    { cbn [Py.get Py.has] in *.
      destruct (Py.assoc "actor" fields); [reflexivity | discriminate Hactor]. }
    assert (Hassoc : Py.assoc "type" fields = Some (JStr t)).
    { cbn [Py.get] in Htype.
      destruct (Py.assoc "type" fields); [congruence | discriminate Htype]. }
    split.
    + unfold Service.parse_activity. cbn [forallb].
      rewrite Hctx, Hhas_type, Hhas_actor, Hassoc. cbn [andb negb].
      cbn [In] in Hin. destruct Hin as [<- | [<- | [<- | []]]]; reflexivity.
    + unfold Service.validate_activity_schema.
      rewrite Htype, Hobj, Hactor, Hid, Hstr.
      cbn [negb andb Py.truthy Py.is_str orb].
      destruct (String.eqb_spec actor EmptyString); [contradiction|].
      cbn [negb].
      destruct (Service.eq_str (JStr t) "Create" || Service.eq_str (JStr t) "Update"
                || Service.eq_str (JStr t) "Delete");
        destruct (Service.eq_str (JStr t) "Follow"); reflexivity.
Qed.

(** Witness of X23: bob asks to follow alice. *)
Lemma unhandled_types_are_refused_witness :
  let follow :=
    [ ("@context", JStr "https://www.w3.org/ns/activitystreams");
      ("type", JStr "Follow");
      ("actor", JStr Example.bob);
      ("object", JStr "https://civic.example/users/alice") ] in
  Inbox.dispatch (L := Toy.libs) Example.env (JObj follow) Example.world
  = (Example.world,
     Ok (mkResponse 400 "Unsupported activity type: Follow"))
  /\ Service.parse_activity (JObj follow) = Some (JObj follow)
  /\ Service.validate_activity_schema (JObj follow) = true.
Proof.
  intros follow.
  destruct (unhandled_types_are_refused (L := Toy.libs) Example.env follow
              (JStr "Follow") Example.world eq_refl) as (Hrun & Hparse).
  { repeat constructor. }
  split; [exact Hrun|].
  apply (Hparse "Follow" Example.bob JNull); try reflexivity.
  - left. reflexivity.
  - discriminate.
Defined.
